(** * deej serial link: a shallow embedding of the two serial protocol engines

    The repository carries two variants of the host-side serial engine:

    - [Binary]: [pkg/deej/serial.go], which reads frames of packed 2-byte
      words ([readBytes] / [handleBytes]);
    - [Line]: the text variant, which reads ['|']-separated decimal lines
      ([readLine] / [handleLine]) after a handshake.

    Conventions of the embedding.
    - Go [int]/[uint16]/[int16] values are [Z], with the conversions written
      out ([Go.uint16], [Go.int16]); bytes are [Byte.byte]; Go strings are
      lists of [ascii] characters.
    - [float32] volume scalars are represented by exact rationals [Q]; the
      binary rounding of the individual float operations is not represented.
    - A run-time panic (index or slice bound out of range) is an explicit
      outcome [Go.Panics]; logging and channel sends are recorded, in program
      order, in a trace of [effect]s.
    - Package [util] ([NormalizeScalar], [SignificantlyDifferent], [Linux]),
      the serial driver ([serial.Open]) and the session map
      ([getCurrentVolume]) are collaborators whose code lies outside the two
      engine files; they enter as the record [util] and as fields of
      [Deej]. *)

From Stdlib Require Import ZArith QArith Qround Qabs Lqa Lia String Ascii List Bool.
From Stdlib Require Import Sorted Permutation.
From Stdlib.Strings Require Import Byte.
From stdpp Require Import base list.

Open Scope Z_scope.

(** ** Go primitives *)

Module Go.

Inductive panic : Type :=
  | IndexOutOfRange (index len : Z)
  | SliceBoundsOutOfRange (high : Z).

Inductive outcome (A : Type) : Type :=
  | Returns (a : A)
  | Panics (p : panic).
Arguments Returns {A} a.
Arguments Panics {A} p.

  (** A Go string: a sequence of 8-bit characters. *)
Definition str (s : String.string) : list ascii := list_ascii_of_string s.

  (** [uint16(b)] for a byte [b], and in general the value of a byte. *)
Definition byteZ (b : byte) : Z := Z.of_N (Byte.to_N b).

  (** Wrap-around to 16 bits. *)
Definition uint16 (x : Z) : Z := x mod 65536.

  (** [int16(x)] for a 16-bit pattern [x]: two's complement reading. *)
Definition int16 (x : Z) : Z :=
    let u := x mod 65536 in if u <? 32768 then u else u - 65536.

  (** [uint(x)] on a 64-bit platform. *)
Definition uint (x : Z) : Z := x mod 2 ^ 64.

  (** [slices.Contains]. *)
Definition slices_Contains (l : list Z) (x : Z) : bool :=
    existsb (Z.eqb x) l.

  (** Strict comparison of two scalars, as a boolean. *)
Definition Qltb (a b : Q) : bool := negb (Qle_bool b a).

End Go.

(** ** Log records and observable effects *)

Inductive level : Type := Debug | Info | Warn.

(** ** Package [util] (outside the two engine files) *)

Record util : Type := {
  (** [util.NormalizeScalar(v float32) float32] *)
  NormalizeScalar : Q -> Q;
  (** [util.SignificantlyDifferent(old, new float32, noiseReductionLevel string) bool] *)
  SignificantlyDifferent : Q -> Q -> list ascii -> bool;
  (** [util.Linux() bool] *)
  Linux : bool
}.

(** Modelled from the spec: [util.NormalizeScalar] is missing from the
    engine files.  The specification says the normalised value is brought
    to two-decimal precision; here the scalar is cut down to the hundredth
    below it. *)
Definition spec_NormalizeScalar (v : Q) : Q :=
  inject_Z (Qfloor (v * 100)) / 100.

(** Modelled from the spec: [util.SignificantlyDifferent] is missing from the
    engine files.  The specification says a change is reported only if
    [|new - old| > threshold]; the table from the configured noise-reduction
    level to the threshold is a parameter. *)
Definition spec_SignificantlyDifferent (significantDifferenceThreshold : list ascii -> Q)
    (old new : Q) (noiseReductionLevel : list ascii) : bool :=
  Go.Qltb (significantDifferenceThreshold noiseReductionLevel) (Qabs (new - old)).

Definition spec_util (significantDifferenceThreshold : list ascii -> Q) (linux : bool) : util :=
  {| NormalizeScalar := spec_NormalizeScalar;
     SignificantlyDifferent := spec_SignificantlyDifferent significantDifferenceThreshold;
     Linux := linux |}.

(** ** Configuration and the [Deej] instance (only the fields the engine reads) *)

Module ConnectionInfo.
Record t : Type := { COMPort : list ascii; BaudRate : Z }.
End ConnectionInfo.

Module CanonicalConfig.
Record t : Type := {
    ConnectionInfo : ConnectionInfo.t;
    InvertSliders : bool;
    AdditiveIndices : list Z;
    NoiseReductionLevel : list ascii
  }.
End CanonicalConfig.

Module Deej.
Record t : Type := {
    config : CanonicalConfig.t;
    Verbose : bool;
    (** [deej.sessions.getCurrentVolume(sliderIdx)] *)
    sessions_getCurrentVolume : Z -> Q
  }.
End Deej.

(** [serial.OpenOptions] *)
Module OpenOptions.
Record t : Type := {
    PortName : list ascii;
    BaudRate : Z;
    DataBits : Z;
    StopBits : Z;
    MinimumReadSize : Z
  }.
Definition zero : t :=
    {| PortName := []; BaudRate := 0; DataBits := 0; StopBits := 0; MinimumReadSize := 0 |}.
End OpenOptions.

(** An open connection handle ([io.ReadWriteCloser]) and a consumer channel
    are identified by a number. *)
Definition Conn : Type := nat.
Definition chan : Type := nat.

(** The errors [Start] returns. *)
Inductive error : Type :=
| ErrAlreadyActive                      (* "serial: connection already active" *)
| ErrOpen (cause : list ascii)          (* "open serial connection: %w" *)
| ErrInitialization (cause : list ascii). (* "initialization failed: %w" *)

(** ** Regular expressions ([regexp.MustCompile] / [MatchString])

    The two patterns of the repository use character classes, literals,
    concatenation, bounded repetition, the star and the anchors [^] and [$]
    around the whole expression.  Matching is by derivatives. *)

Module Regexp.

Inductive regex : Type :=
| Void                              (* matches nothing *)
| Eps                               (* the empty string *)
| Class (p : ascii -> bool)         (* one character of a class *)
| Cat (a b : regex)
| Alt (a b : regex)
| Star (a : regex).

Fixpoint nullable (r : regex) : bool :=
  match r with
  | Void => false
  | Eps => true
  | Class _ => false
  | Cat a b => nullable a && nullable b
  | Alt a b => nullable a || nullable b
  | Star _ => true
  end.

Fixpoint deriv (c : ascii) (r : regex) : regex :=
  match r with
  | Void => Void
  | Eps => Void
  | Class p => if p c then Eps else Void
  | Cat a b =>
      if nullable a then Alt (Cat (deriv c a) b) (deriv c b)
      else Cat (deriv c a) b
  | Alt a b => Alt (deriv c a) (deriv c b)
  | Star a => Cat (deriv c a) (Star a)
  end.

(** An expression anchored with [^] and [$] matches a string iff it matches
    all of it. *)
Fixpoint MatchString (r : regex) (s : list ascii) : bool :=
  match s with
  | [] => nullable r
  | c :: s' => MatchString (deriv c r) s'
  end.

(** [\d]: an ASCII digit. *)
Definition isDigit (c : ascii) : bool :=
  let n := nat_of_ascii c in (Nat.leb 48 n && Nat.leb n 57)%bool.

Definition Lit (c : ascii) : regex := Class (Ascii.eqb c).

(** [r?] *)
Definition Opt (r : regex) : regex := Alt r Eps.

(** [r{0,n}] *)
Fixpoint Upto (n : nat) (r : regex) : regex :=
  match n with
  | O => Eps
  | S n' => Opt (Cat r (Upto n' r))
  end.

(** [\d{1,4}] *)
Definition digits1to4 : regex := Cat (Class isDigit) (Upto 3 (Class isDigit)).

(** [\r\n] *)
Definition crlf : regex := Cat (Lit "013"%char) (Lit "010"%char).

End Regexp.

(** ** String helpers of the Go standard library *)

Module strings.

Definition eqb (a b : list ascii) : bool :=
  (Nat.eqb (length a) (length b) && forallb (fun p => Ascii.eqb (fst p) (snd p)) (combine a b))%bool.

(** [strings.HasSuffix] *)
Definition HasSuffix (s suffix : list ascii) : bool :=
  (Nat.leb (length suffix) (length s) &&
   eqb (skipn (length s - length suffix) s) suffix)%bool.

(** [strings.TrimSuffix] *)
Definition TrimSuffix (s suffix : list ascii) : list ascii :=
  if HasSuffix s suffix then firstn (length s - length suffix) s else s.

(** [strings.Split(s, sep)] for a separator of one character. *)
Fixpoint Split (s : list ascii) (sep : ascii) : list (list ascii) :=
  match s with
  | [] => [[]]
  | c :: s' =>
      if Ascii.eqb c sep then [] :: Split s' sep
      else match Split s' sep with
           | [] => [[c]]
           | f :: fs => (c :: f) :: fs
           end
  end.

(** [strings.Join] with a separator of one character. *)
Fixpoint Join (fields : list (list ascii)) (sep : ascii) : list ascii :=
  match fields with
  | [] => []
  | [f] => f
  | f :: fs => f ++ sep :: Join fs sep
  end.

End strings.

Module strconv.

Definition maxInt : Z := 2 ^ 63 - 1.
Definition minInt : Z := - 2 ^ 63.

(** The value of a string of decimal digits. *)
Definition digitsValue (ds : list ascii) : Z :=
  fold_left (fun acc c => acc * 10 + (Z.of_nat (nat_of_ascii c) - 48)) ds 0.

(** [strconv.Atoi]: the number and whether an error came with it. *)
Definition Atoi (s : list ascii) : Z * bool :=
  let '(neg, ds) :=
    match s with
    | "-"%char :: r => (true, r)
    | "+"%char :: r => (false, r)
    | _ => (false, s)
    end in
  match ds with
  | [] => (0, true)
  | _ =>
      if negb (forallb Regexp.isDigit ds) then (0, true)
      else
        let n := digitsValue ds in
        let v := if neg : bool then - n else n in
        if maxInt <? v then (maxInt, true)
        else if v <? minInt then (minInt, true)
        else (v, false)
  end.

End strconv.

(** ** The binary-frame engine ([pkg/deej/serial.go]) *)

Module Binary.

Module VolumeData.
Record t : Type := { Value : Q; Mute : bool }.
End VolumeData.

Module ArduinoData.
Record t : Type := { Value : Z; ToggleMute : bool }.
End ArduinoData.

Module SliderEvent.
Record t : Type := { SliderID : Z; PercentValue : Q; ToggleMute : bool }.
End SliderEvent.

(** What a call leaves behind besides the new state: log records and
    sends on consumer channels, in program order. *)
Inductive effect : Type :=
| Log (l : level) (msg : String.string)
| Send (consumer : chan) (ev : SliderEvent.t).

Record SerialIO : Type := {
  deej : Deej.t;
  connected : bool;
  connOptions : OpenOptions.t;
  conn : option Conn;
  lastKnownNumSliders : Z;
  currentVolumeDatas : list VolumeData.t;
  sliderMoveConsumers : list chan
}.

Definition set_connection (sio : SerialIO) (connected' : bool)
    (connOptions' : OpenOptions.t) (conn' : option Conn) : SerialIO :=
  {| deej := deej sio;
     connected := connected';
     connOptions := connOptions';
     conn := conn';
     lastKnownNumSliders := lastKnownNumSliders sio;
     currentVolumeDatas := currentVolumeDatas sio;
     sliderMoveConsumers := sliderMoveConsumers sio |}.

Definition set_sliders (sio : SerialIO) (n : Z) (vols : list VolumeData.t) : SerialIO :=
  {| deej := deej sio;
     connected := connected sio;
     connOptions := connOptions sio;
     conn := conn sio;
     lastKnownNumSliders := n;
     currentVolumeDatas := vols;
     sliderMoveConsumers := sliderMoveConsumers sio |}.

(** [NewSerialIO]: the fields not listed in the composite literal start at
    their zero values.  (The goroutine started by [setupOnConfigReload] only
    ever writes [lastKnownNumSliders := 0] and calls [Stop]/[Start].) *)
Definition NewSerialIO (d : Deej.t) : SerialIO :=
  {| deej := d;
     connected := false;
     connOptions := OpenOptions.zero;
     conn := None;
     lastKnownNumSliders := 0;
     currentVolumeDatas := [];
     sliderMoveConsumers := [] |}.

(** [SubscribeToSliderMoveEvents], for the fresh channel [ch]. *)
Definition SubscribeToSliderMoveEvents (sio : SerialIO) (ch : chan) : SerialIO :=
  {| deej := deej sio;
     connected := connected sio;
     connOptions := connOptions sio;
     conn := conn sio;
     lastKnownNumSliders := lastKnownNumSliders sio;
     currentVolumeDatas := currentVolumeDatas sio;
     sliderMoveConsumers := sliderMoveConsumers sio ++ [ch] |}.

(** [var expectedLinePattern = regexp.MustCompile(`^-?\d{1,4}(\|-?\d{1,4})*\r\n$`)].
    The variable is declared in this file; [handleBytes] never consults it. *)
Definition expectedLinePattern : Regexp.regex :=
  let field := Regexp.Cat (Regexp.Opt (Regexp.Lit "-"%char)) Regexp.digits1to4 in
  Regexp.Cat field
    (Regexp.Cat (Regexp.Star (Regexp.Cat (Regexp.Lit "|"%char) field)) Regexp.crlf).

(** *** [Start] *)

Section Start.
Variable U : util.
(** [serial.Open]: a handle, or the driver's error text. *)
Variable serial_Open : OpenOptions.t -> Conn + list ascii.

Definition Start (sio : SerialIO) : list effect * (SerialIO * option error) :=
  if connected sio then
    ([Log Warn "Already connected, can't start another without closing first"],
     (sio, Some ErrAlreadyActive))
  else
    let minimumReadSize := if Linux U then 1 else 0 in
    let opts :=
      {| OpenOptions.PortName :=
           ConnectionInfo.COMPort (CanonicalConfig.ConnectionInfo (Deej.config (deej sio)));
         OpenOptions.BaudRate :=
           Go.uint (ConnectionInfo.BaudRate (CanonicalConfig.ConnectionInfo (Deej.config (deej sio))));
         OpenOptions.DataBits := 8;
         OpenOptions.StopBits := 1;
         OpenOptions.MinimumReadSize := Go.uint minimumReadSize |} in
    let tr := [Log Debug "Attempting serial connection"] in
    match serial_Open opts with
    | inr cause =>
        (tr ++ [Log Warn "Failed to open serial connection"],
         (set_connection sio (connected sio) opts None, Some (ErrOpen cause)))
    | inl c =>
        (tr ++ [Log Info "Connected"],
         (set_connection sio true opts (Some c), None))
    end.
End Start.

(** *** [readBytes]

    The reader goroutine calls [reader.ReadBytes('\n')] over and over.  The
    stream is given by the results of the successive calls: the bytes read
    (delimiter included when it was found) and whether an error came with
    them. *)

Record ReadResult : Type := { got : list byte; err : bool }.

(** How far the goroutine got on a finite script of read results. *)
Inductive readerStatus : Type :=
| Reading                (* still in the loop, waiting for the next read *)
| Stopped                (* left the loop through [return] *)
| Crashed (p : Go.panic).

(** [bytes[:len(bytes)-1]] *)
Definition dropLast (bytes : list byte) : Go.outcome (list byte) :=
  match bytes with
  | [] => Go.Panics (Go.SliceBoundsOutOfRange (-1))
  | _ => Go.Returns (removelast bytes)
  end.

(** The units put on the channel, the log, and the final status. *)
Fixpoint readBytes (verbose : bool) (reads : list ReadResult)
    : list (list byte) * list effect * readerStatus :=
  match reads with
  | [] => ([], [], Reading)
  | r :: reads' =>
      if err r && verbose then
        (* the [return] sits inside the verbosity test *)
        ([], [Log Warn "Failed to read bytes from serial"], Stopped)
      else
        let tr := if verbose then [Log Debug "Read new bytes"] else [] in
        match dropLast (got r) with
        | Go.Panics p => ([], tr, Crashed p)
        | Go.Returns unit =>
            let '(units, tr', st) := readBytes verbose reads' in
            (unit :: units, tr ++ tr', st)
        end
  end.

(** *** [handleBytes]: decoding *)

(** [packed := uint16(bytes[i])<<8 | uint16(bytes[i+1])] *)
Definition packWord (hi lo : byte) : Z :=
  Z.lor (Go.uint16 (Z.shiftl (Go.byteZ hi) 8)) (Go.byteZ lo).

(** The body of the decoding loop for one packed word. *)
Definition unpack (packed : Z) : ArduinoData.t :=
  let toggleMute := negb (Z.land (Z.shiftr packed 11) 1 =? 0) in
  let rawValue := Z.land packed 2047 (* 0x07FF *) in
  if negb (Z.land rawValue 1024 (* 0x0400 *) =? 0) then
    {| ArduinoData.Value := Go.int16 (Z.lor rawValue 63488 (* 0xF800 *));
       ArduinoData.ToggleMute := toggleMute |}
  else
    {| ArduinoData.Value := rawValue; ArduinoData.ToggleMute := toggleMute |}.

(** [for i := 0; i < len(bytes); i += 2 { ... bytes[i] ... bytes[i+1] ... }].
    [rest] is [bytes[i:]]; [len] is [len(bytes)]. *)
Fixpoint decodeFrom (len : Z) (i : Z) (rest : list byte) (data : list ArduinoData.t)
    : Go.outcome (list ArduinoData.t) :=
  match rest with
  | [] => Go.Returns data                     (* i >= len(bytes) *)
  | [_] => Go.Panics (Go.IndexOutOfRange (i + 1) len)   (* bytes[i+1] *)
  | hi :: lo :: rest' =>
      decodeFrom len (i + 2) rest' (data ++ [unpack (packWord hi lo)])
  end.

Definition decode (bytes : list byte) : Go.outcome (list ArduinoData.t) :=
  decodeFrom (Z.of_nat (length bytes)) 0 bytes [].

(** *** [handleBytes]: slider count *)

(** [make([]VolumeData, numSliders)] followed by the loop that sets every
    [Value] to [-1.0]. *)
Definition resetVolumeDatas (numSliders : nat) : list VolumeData.t :=
  map (fun v => {| VolumeData.Value := -1; VolumeData.Mute := VolumeData.Mute v |})
      (replicate numSliders {| VolumeData.Value := 0; VolumeData.Mute := false |}).

Definition updateSliderCount (sio : SerialIO) (numSliders : nat) : SerialIO * list effect :=
  if negb (Z.of_nat numSliders =? lastKnownNumSliders sio) then
    (set_sliders sio (Z.of_nat numSliders) (resetVolumeDatas numSliders),
     [Log Info "Detected sliders"])
  else (sio, []).

(** *** [handleBytes]: the per-slider loop *)

Section Sliders.
Variable U : util.
Variable d : Deej.t.

Definition clampVolume (finalVolume : Q) : Q :=
  let finalVolume := if Go.Qltb finalVolume 0 then 0%Q else finalVolume in
  if Go.Qltb 1 finalVolume then 1%Q else finalVolume.

(** The value [normalizedScalar] holds when it is compared with the
    stored one (dirty float, two-decimal scalar, inversion, additive
    sliders). *)
Definition normalizedScalar (sliderIdx : Z) (number : Z) : Q :=
  let dirtyFloat := (inject_Z number / 1023)%Q in
  let normalizedScalar := NormalizeScalar U dirtyFloat in
  let normalizedScalar :=
    if CanonicalConfig.InvertSliders (Deej.config d)
    then (1 - normalizedScalar)%Q else normalizedScalar in
  if Go.slices_Contains (CanonicalConfig.AdditiveIndices (Deej.config d)) sliderIdx then
    let finalVolume := Deej.sessions_getCurrentVolume d sliderIdx in
    if negb (number =? 0)
    then clampVolume (finalVolume + normalizedScalar)%Q
    else finalVolume
  else normalizedScalar.

(** How the [range] loop over [data] was left. *)
Inductive loopExit : Type :=
| Completed    (* ran off the end of [data] *)
| Returned.    (* the [return] on a malformed first value *)

Record loopState : Type := {
  exit : loopExit;
  vols : list VolumeData.t;
  sliderEvents : list SliderEvent.t
}.

(** [for sliderIdx, arduinoData := range data { ... }], from index
    [sliderIdx] on. *)
Fixpoint rangeData (sliderIdx : nat) (data : list ArduinoData.t)
    (vols : list VolumeData.t) (sliderEvents : list SliderEvent.t)
    : list effect * Go.outcome loopState :=
  match data with
  | [] => ([], Go.Returns {| exit := Completed; vols := vols; sliderEvents := sliderEvents |})
  | arduinoData :: data' =>
      let number := ArduinoData.Value arduinoData in
      if Nat.eqb sliderIdx 0 && (1023 <? number) then
        ([Log Debug "Got malformed line from serial, ignoring"],
         Go.Returns {| exit := Returned; vols := vols; sliderEvents := sliderEvents |})
      else
        let normalizedScalar := normalizedScalar (Z.of_nat sliderIdx) number in
        match vols !! sliderIdx with
        | None =>
            ([], Go.Panics (Go.IndexOutOfRange (Z.of_nat sliderIdx) (Z.of_nat (length vols))))
        | Some cur =>
            let significantlyDifferent :=
              SignificantlyDifferent U (VolumeData.Value cur) normalizedScalar
                (CanonicalConfig.NoiseReductionLevel (Deej.config d)) in
            if significantlyDifferent || ArduinoData.ToggleMute arduinoData then
              let vols' :=
                <[sliderIdx := {| VolumeData.Value := normalizedScalar;
                                  VolumeData.Mute := negb (VolumeData.Mute cur) |}]> vols in
              let ev := {| SliderEvent.SliderID := Z.of_nat sliderIdx;
                           SliderEvent.PercentValue := normalizedScalar;
                           SliderEvent.ToggleMute := ArduinoData.ToggleMute arduinoData |} in
              let tr := if Deej.Verbose d then [Log Debug "Slider event"] else [] in
              let '(tr', r) := rangeData (S sliderIdx) data' vols' (sliderEvents ++ [ev]) in
              (tr ++ tr', r)
            else rangeData (S sliderIdx) data' vols sliderEvents
        end
  end.
End Sliders.

(** [for _, consumer := range sio.sliderMoveConsumers { for _, moveEvent := range sliderEvents { consumer <- moveEvent } }] *)
Definition deliver (consumers : list chan) (sliderEvents : list SliderEvent.t) : list effect :=
  flat_map (fun consumer => map (Send consumer) sliderEvents) consumers.

Definition handleBytes (U : util) (sio : SerialIO) (bytes : list byte)
    : list effect * Go.outcome SerialIO :=
  let tr0 :=
    if negb (Z.of_nat (length bytes) mod 2 =? 0)
    then [Log Warn "Wrong number of bytes received"] else [] in
  match decode bytes with
  | Go.Panics p => (tr0, Go.Panics p)
  | Go.Returns data =>
      let tr1 := tr0 ++ [Log Debug "Reconstructed data"] in
      let numSliders := length data in
      let '(sio1, tr2) := updateSliderCount sio numSliders in
      match rangeData U (deej sio) 0 data (currentVolumeDatas sio1) [] with
      | (tr3, Go.Panics p) => (tr1 ++ tr2 ++ tr3, Go.Panics p)
      | (tr3, Go.Returns ls) =>
          let sio2 := set_sliders sio1 (lastKnownNumSliders sio1) (vols ls) in
          match exit ls with
          | Returned => (tr1 ++ tr2 ++ tr3, Go.Returns sio2)
          | Completed =>
              (tr1 ++ tr2 ++ tr3 ++ deliver (sliderMoveConsumers sio) (sliderEvents ls),
               Go.Returns sio2)
          end
      end
  end.

(** The sends of a trace, in order. *)
Definition sends (tr : list effect) : list (chan * SliderEvent.t) :=
  flat_map (fun e => match e with Send c ev => [(c, ev)] | _ => [] end) tr.

End Binary.

(** ** The line engine (text frames, with handshake) *)

Module Line.

Module SliderMoveEvent.
Record t : Type := { SliderID : Z; PercentValue : Q }.
End SliderMoveEvent.

Inductive effect : Type :=
| Log (l : level) (msg : String.string)
| Send (consumer : chan) (ev : SliderMoveEvent.t).

Record SerialIO : Type := {
  deej : Deej.t;
  connected : bool;
  connOptions : OpenOptions.t;
  conn : option Conn;
  lastKnownNumSliders : Z;
  currentSliderPercentValues : list Q;
  sliderMoveConsumers : list chan
}.

Definition set_connection (sio : SerialIO) (connected' : bool)
    (connOptions' : OpenOptions.t) (conn' : option Conn) : SerialIO :=
  {| deej := deej sio;
     connected := connected';
     connOptions := connOptions';
     conn := conn';
     lastKnownNumSliders := lastKnownNumSliders sio;
     currentSliderPercentValues := currentSliderPercentValues sio;
     sliderMoveConsumers := sliderMoveConsumers sio |}.

Definition set_sliders (sio : SerialIO) (n : Z) (vals : list Q) : SerialIO :=
  {| deej := deej sio;
     connected := connected sio;
     connOptions := connOptions sio;
     conn := conn sio;
     lastKnownNumSliders := n;
     currentSliderPercentValues := vals;
     sliderMoveConsumers := sliderMoveConsumers sio |}.

(** [NewSerialIO]: the fields not listed in the composite literal start at
    their zero values. *)
Definition NewSerialIO (d : Deej.t) : SerialIO :=
  {| deej := d;
     connected := false;
     connOptions := OpenOptions.zero;
     conn := None;
     lastKnownNumSliders := 0;
     currentSliderPercentValues := [];
     sliderMoveConsumers := [] |}.

(** [var expectedLinePattern = regexp.MustCompile(`^\d{1,4}(\|\d{1,4})*\r\n$`)] *)
Definition expectedLinePattern : Regexp.regex :=
  Regexp.Cat Regexp.digits1to4
    (Regexp.Cat (Regexp.Star (Regexp.Cat (Regexp.Lit "|"%char) Regexp.digits1to4))
       Regexp.crlf).

(** *** [Start] and [close] *)

Section Start.
Variable U : util.
(** [serial.Open]: a handle, or the driver's error text. *)
Variable serial_Open : OpenOptions.t -> Conn + list ascii.
(** [performInitializationSequence] (handshake, initial data, acknowledgement)
    talks to the device over the open handle and touches no field of
    [SerialIO]; only whether it failed matters here. *)
Variable performInitializationSequence : Conn -> option (list ascii).
(** Whether [conn.Close()] reports an error. *)
Variable conn_Close : Conn -> bool.

Definition close (sio : SerialIO) : list effect * SerialIO :=
  let tr :=
    match conn sio with
    | Some c =>
        if conn_Close c then [Log Warn "Failed to close serial connection"]
        else [Log Debug "Serial connection closed"]
    | None => []
    end in
  (tr, set_connection sio false (connOptions sio) None).

Definition Start (sio : SerialIO) : list effect * (SerialIO * option error) :=
  if connected sio then
    ([Log Warn "Already connected, can't start another without closing first"],
     (sio, Some ErrAlreadyActive))
  else
    let minimumReadSize := if Linux U then 1 else 0 in
    let opts :=
      {| OpenOptions.PortName :=
           ConnectionInfo.COMPort (CanonicalConfig.ConnectionInfo (Deej.config (deej sio)));
         OpenOptions.BaudRate :=
           Go.uint (ConnectionInfo.BaudRate (CanonicalConfig.ConnectionInfo (Deej.config (deej sio))));
         OpenOptions.DataBits := 8;
         OpenOptions.StopBits := 1;
         OpenOptions.MinimumReadSize := Go.uint minimumReadSize |} in
    let tr := [Log Debug "Attempting serial connection"] in
    match serial_Open opts with
    | inr cause =>
        (tr ++ [Log Warn "Failed to open serial connection"],
         (set_connection sio (connected sio) opts None, Some (ErrOpen cause)))
    | inl c =>
        let sio1 := set_connection sio true opts (Some c) in
        let tr := tr ++ [Log Info "Connected"] in
        match performInitializationSequence c with
        | Some cause =>
            let '(tr', sio2) := close sio1 in
            (tr ++ tr', (sio2, Some (ErrInitialization cause)))
        | None => (tr, (sio1, None))
        end
    end.
End Start.

(** *** [readLine] *)

Record ReadResult : Type := { got : list ascii; err : bool }.

Inductive readerStatus : Type :=
| Reading                (* still in the loop, waiting for the next read *)
| Stopped.               (* left the loop through [return] *)

(** The lines put on the channel, the log, and the final status, for the
    results of the successive [reader.ReadString('\n')] calls. *)
Fixpoint readLine (verbose : bool) (reads : list ReadResult)
    : list (list ascii) * list effect * readerStatus :=
  match reads with
  | [] => ([], [], Reading)
  | r :: reads' =>
      if err r then
        (* just ignore the line, the read loop will stop after this *)
        ([], if verbose then [Log Warn "Failed to read line from serial"] else [], Stopped)
      else
        let tr := if verbose then [Log Debug "Read new line"] else [] in
        let '(lines, tr', st) := readLine verbose reads' in
        (got r :: lines, tr ++ tr', st)
  end.

(** *** [handleLine] *)

Definition updateSliderCount (sio : SerialIO) (numSliders : nat) : SerialIO * list effect :=
  if negb (Z.of_nat numSliders =? lastKnownNumSliders sio) then
    (set_sliders sio (Z.of_nat numSliders)
       (map (fun _ => (-1)%Q) (replicate numSliders 0%Q)),
     [Log Info "Detected sliders"])
  else (sio, []).

Section Sliders.
Variable U : util.
Variable d : Deej.t.

(** The value [normalizedScalar] holds when it is compared with the stored
    one. *)
Definition normalizedScalar (number : Z) : Q :=
  let dirtyFloat := (inject_Z number / 1023)%Q in
  let normalizedScalar := NormalizeScalar U dirtyFloat in
  if CanonicalConfig.InvertSliders (Deej.config d)
  then (1 - normalizedScalar)%Q else normalizedScalar.

Inductive loopExit : Type :=
| Completed    (* ran off the end of [splitLine] *)
| Returned.    (* the [return] on a malformed first value *)

Record loopState : Type := {
  exit : loopExit;
  vals : list Q;
  moveEvents : list SliderMoveEvent.t
}.

(** [for sliderIdx, stringValue := range splitLine { ... }], from index
    [sliderIdx] on. *)
Fixpoint rangeSplitLine (sliderIdx : nat) (splitLine : list (list ascii))
    (vals : list Q) (moveEvents : list SliderMoveEvent.t)
    : list effect * Go.outcome loopState :=
  match splitLine with
  | [] => ([], Go.Returns {| exit := Completed; vals := vals; moveEvents := moveEvents |})
  | stringValue :: splitLine' =>
      let number := fst (strconv.Atoi stringValue) in
      if Nat.eqb sliderIdx 0 && (1023 <? number) then
        ([Log Debug "Got malformed line from serial, ignoring"],
         Go.Returns {| exit := Returned; vals := vals; moveEvents := moveEvents |})
      else
        let normalizedScalar := normalizedScalar number in
        match vals !! sliderIdx with
        | None =>
            ([], Go.Panics (Go.IndexOutOfRange (Z.of_nat sliderIdx) (Z.of_nat (length vals))))
        | Some cur =>
            if SignificantlyDifferent U cur normalizedScalar
                 (CanonicalConfig.NoiseReductionLevel (Deej.config d)) then
              let vals' := <[sliderIdx := normalizedScalar]> vals in
              let ev := {| SliderMoveEvent.SliderID := Z.of_nat sliderIdx;
                           SliderMoveEvent.PercentValue := normalizedScalar |} in
              let tr := if Deej.Verbose d then [Log Debug "Slider moved"] else [] in
              let '(tr', r) := rangeSplitLine (S sliderIdx) splitLine' vals' (moveEvents ++ [ev]) in
              (tr ++ tr', r)
            else rangeSplitLine (S sliderIdx) splitLine' vals moveEvents
        end
  end.
End Sliders.

Definition deliver (consumers : list chan) (moveEvents : list SliderMoveEvent.t) : list effect :=
  flat_map (fun consumer => map (Send consumer) moveEvents) consumers.

Definition handleLine (U : util) (sio : SerialIO) (line : list ascii)
    : list effect * Go.outcome SerialIO :=
  if negb (Regexp.MatchString expectedLinePattern line) then ([], Go.Returns sio)
  else
    let line := strings.TrimSuffix line (Go.str (String "013" (String "010" EmptyString))) in
    let splitLine := strings.Split line "|"%char in
    let numSliders := length splitLine in
    let '(sio1, tr1) := updateSliderCount sio numSliders in
    match rangeSplitLine U (deej sio) 0 splitLine (currentSliderPercentValues sio1) [] with
    | (tr2, Go.Panics p) => (tr1 ++ tr2, Go.Panics p)
    | (tr2, Go.Returns ls) =>
        let sio2 := set_sliders sio1 (lastKnownNumSliders sio1) (vals ls) in
        match exit ls with
        | Returned => (tr1 ++ tr2, Go.Returns sio2)
        | Completed =>
            (tr1 ++ tr2 ++ deliver (sliderMoveConsumers sio) (moveEvents ls), Go.Returns sio2)
        end
    end.

Definition sends (tr : list effect) : list (chan * SliderMoveEvent.t) :=
  flat_map (fun e => match e with Send c ev => [(c, ev)] | _ => [] end) tr.

End Line.

(** ** The link around the binary engine: [Stop], [close], the read loop and
    the reaction to a configuration reload ([pkg/deej/serial.go]) *)

Module BinaryLink.

(** [Stop]: the log, and whether [true] was sent on [stopChannel]. *)
Definition Stop (sio : Binary.SerialIO) : list Binary.effect * bool :=
  if Binary.connected sio then
    ([Binary.Log Debug "Shutting down serial connection"], true)
  else
    ([Binary.Log Debug "Not currently connected, nothing to stop"], false).

(** What [close] comes to: it calls [sio.conn.Close()] first, which is a
    nil dereference when no handle is stored. *)
Inductive closeOutcome : Type :=
| Closed (tr : list Binary.effect) (sio : Binary.SerialIO)
| NilDereference.

Section Close.
(** Whether [conn.Close()] reports an error. *)
Variable conn_Close : Conn -> bool.

Definition close (sio : Binary.SerialIO) : closeOutcome :=
  match Binary.conn sio with
  | None => NilDereference
  | Some c =>
      Closed
        [if conn_Close c
         then Binary.Log Warn "Failed to close serial connection"
         else Binary.Log Debug "Serial connection closed"]
        (Binary.set_connection sio false (Binary.connOptions sio) None)
  end.

(** What the goroutine started by [Start] receives in its [select]: a stop
    signal or a unit from [readBytes]. *)
Inductive received : Type :=
| StopSignal
| Unit (bytes : list byte).

(** The goroutine's loop [for { select { ... } }] has no exit; it ends only
    when a call inside it panics. *)
Inductive loopOutcome : Type :=
| Looping (sio : Binary.SerialIO)
| Died.

Variable U : util.

Definition loopStep (sio : Binary.SerialIO) (r : received)
    : list Binary.effect * loopOutcome :=
  match r with
  | StopSignal =>
      match close sio with
      | Closed tr sio' => (tr, Looping sio')
      | NilDereference => ([], Died)
      end
  | Unit bytes =>
      match Binary.handleBytes U sio bytes with
      | (tr, Go.Returns sio') => (tr, Looping sio')
      | (tr, Go.Panics _) => (tr, Died)
      end
  end.

Fixpoint readLoop (sio : Binary.SerialIO) (rs : list received)
    : list Binary.effect * loopOutcome :=
  match rs with
  | [] => ([], Looping sio)
  | r :: rs' =>
      match loopStep sio r with
      | (tr, Looping sio') =>
          let '(tr', out) := readLoop sio' rs' in (tr ++ tr', out)
      | (tr, Died) => (tr, Died)
      end
  end.
End Close.

(** [setupOnConfigReload]: the body of the delayed goroutine,
    [sio.lastKnownNumSliders = 0]. *)
Definition resetSliderCount (sio : Binary.SerialIO) : Binary.SerialIO :=
  Binary.set_sliders sio 0 (Binary.currentVolumeDatas sio).

(** [setupOnConfigReload]: the test
    [config.ConnectionInfo.COMPort != connOptions.PortName ||
     uint(config.ConnectionInfo.BaudRate) != connOptions.BaudRate]. *)
Definition connectionParamsChanged (sio : Binary.SerialIO) : bool :=
  let info := CanonicalConfig.ConnectionInfo (Deej.config (Binary.deej sio)) in
  negb (strings.eqb (ConnectionInfo.COMPort info) (OpenOptions.PortName (Binary.connOptions sio)))
  || negb (Go.uint (ConnectionInfo.BaudRate info) =? OpenOptions.BaudRate (Binary.connOptions sio)).

(** The configuration file was reloaded: the [Deej] instance now carries the
    new configuration. *)
Definition withConfig (sio : Binary.SerialIO) (config : CanonicalConfig.t) : Binary.SerialIO :=
  {| Binary.deej :=
       {| Deej.config := config;
          Deej.Verbose := Deej.Verbose (Binary.deej sio);
          Deej.sessions_getCurrentVolume := Deej.sessions_getCurrentVolume (Binary.deej sio) |};
     Binary.connected := Binary.connected sio;
     Binary.connOptions := Binary.connOptions sio;
     Binary.conn := Binary.conn sio;
     Binary.lastKnownNumSliders := Binary.lastKnownNumSliders sio;
     Binary.currentVolumeDatas := Binary.currentVolumeDatas sio;
     Binary.sliderMoveConsumers := Binary.sliderMoveConsumers sio |}.

End BinaryLink.

(** ** The handshake and the initialisation sequence of the line engine *)

Module Handshake.

Definition handshakeChar : byte := x3e.   (* '>' *)
Definition ackChar : byte := x3c.         (* '<' *)

(** What one call [sio.conn.Read(buf)] on the one-byte buffer comes to. *)
Inductive readResult : Type :=
| ReadFailed (eof : bool)        (* [err != nil]; [eof]: [err == io.EOF] *)
| ReadCount (n : nat) (b : byte). (* [err == nil], [n] bytes read, [buf[0]] is now [b] *)

(** One pass of the goroutine's [for { select { ... } }]: the ticker case
    was taken, with the result of its write, or the [default] case, with the
    result of its read and of the write of the acknowledgement, should one be
    attempted.  (Nothing ever sends on [handshakeDone] but the goroutine
    itself, so its first case is never taken.) *)
Inductive pass : Type :=
| Tick (writeFails : bool)
| Read (r : readResult) (ackWriteFails : bool).

Inductive goroutineResult : Type :=
| Done                           (* [handshakeDone <- true] *)
| Failed (msg : String.string)   (* [errChan <- ...] *)
| Waiting.                       (* still in the loop *)

(** The bytes written by the loop and how it ends, for the passes it makes. *)
Fixpoint handshakeLoop (passes : list pass) : list byte * goroutineResult :=
  match passes with
  | [] => ([], Waiting)
  | Tick writeFails :: passes' =>
      if writeFails then ([], Failed "failed to resend handshake"%string)
      else let '(written, r) := handshakeLoop passes' in (handshakeChar :: written, r)
  | Read (ReadFailed eof) _ :: passes' =>
      if eof then handshakeLoop passes'
      else ([], Failed "read error during handshake"%string)
  | Read (ReadCount n b) ackWriteFails :: passes' =>
      if Nat.ltb 0 n then
        if Byte.eqb b handshakeChar then
          if ackWriteFails then ([], Failed "write error"%string)
          else ([ackChar], Done)
        else if Byte.eqb b ackChar then ([], Done)
        else handshakeLoop passes'
      else handshakeLoop passes'
  end.

(** [performHandshake]: [passes] are the passes the goroutine makes before
    the timeout of five seconds would fire.  The result is the bytes written
    and the error returned, if any. *)
Definition performHandshake (firstWriteFails : bool) (passes : list pass)
    : list byte * option String.string :=
  if firstWriteFails then ([], Some "failed to send handshake"%string)
  else
    match handshakeLoop passes with
    | (written, Done) => (handshakeChar :: written, None)
    | (written, Failed msg) => (handshakeChar :: written, Some msg)
    | (written, Waiting) => (handshakeChar :: written, Some "handshake timed out after 5s"%string)
    end.

(** [performInitializationSequence], for a call in which [produceInitData]
    returns: besides what [performHandshake] depends on, whether writing the
    initialisation data fails and what the read of the acknowledgement comes
    to. *)
Definition performInitializationSequence (firstWriteFails : bool) (passes : list pass)
    (writeFails : bool) (ack : readResult) : option String.string :=
  match snd (performHandshake firstWriteFails passes) with
  | Some _ => Some "handshake failed"%string
  | None =>
      if writeFails then Some "failed to send initialization data"%string
      else
        match ack with
        | ReadFailed _ => Some "failed to read ACK"%string
        | ReadCount n b =>
            (* [buf] is fresh: [buf[0]] is 0 when nothing was read *)
            let buf0 := if Nat.ltb 0 n then b else x00 in
            if negb (Byte.eqb buf0 ackChar) then Some "invalid ACK received"%string
            else None
        end
  end.

End Handshake.

(** ** [produceInitData] *)

Module InitData.

Inductive result (A : Type) : Type :=
| Ok (a : A)
| Panic (msg : String.string).
Arguments Ok {A} a.
Arguments Panic {A} msg.

(** [byte(value)] *)
Definition u8 (z : Z) : byte :=
  match Byte.of_N (Z.to_N (z mod 256)) with
  | Some b => b
  | None => x00
  end.

(** [int(v)] for a float: the fraction is dropped. *)
Definition truncate (v : Q) : Z := if Qle_bool 0 v then Qfloor v else Qceiling v.

Section ProduceInitData.
(** [sio.deej.sessions.resolveTarget] *)
Variable resolveTarget : list ascii -> list (list ascii).
(** [sio.deej.sessions.get]: the volumes [GetVolume()] of the sessions found
    for a target, or nothing when [ok] is false. *)
Variable sessions_get : list ascii -> option (list Q).

(** [for _, resolvedTarget := range resolvedTargets { ... }]: the volume
    found, if any. *)
Fixpoint overResolvedTargets (resolvedTargets : list (list ascii)) : result (option Z) :=
  match resolvedTargets with
  | [] => Ok None
  | resolvedTarget :: rest =>
      match sessions_get resolvedTarget with
      | None => overResolvedTargets rest                 (* [!ok]: [continue] *)
      | Some [] => Panic "index out of range [0] with length 0"%string   (* [sessions[0]] *)
      | Some (volume :: _) => Ok (Some (truncate volume))  (* [found = true; break] *)
      end
  end.

(** [for _, target := range targets { ... if found { break } }] *)
Fixpoint overTargets (targets : list (list ascii)) : result (option Z) :=
  match targets with
  | [] => Ok None
  | target :: rest =>
      match overResolvedTargets (resolveTarget target) with
      | Panic msg => Panic msg
      | Ok (Some v) => Ok (Some v)
      | Ok None => overTargets rest
      end
  end.

(** [for ind, targets := range sio.deej.config.SliderMapping.m { ... }]: the
    entries of [volumes].  [m] lists the entries of the map in the order the
    iteration visits them. *)
Fixpoint collectVolumes (m : list (Z * list (list ascii))) : result (list (Z * Z)) :=
  match m with
  | [] => Ok []
  | (ind, targets) :: m' =>
      match overTargets targets with
      | Panic msg => Panic msg
      | Ok found =>
          match collectVolumes m' with
          | Panic msg => Panic msg
          | Ok volumes =>
              Ok (match found with Some v => (ind, v) :: volumes | None => volumes end)
          end
      end
  end.
End ProduceInitData.

(** The second half of [produceInitData]: ['>'], one byte per value of
    [volumes] in the order the iteration visits them, ['<']. *)
Fixpoint appendValues (initData : list byte) (values : list Z) : result (list byte) :=
  match values with
  | [] => Ok initData
  | value :: rest =>
      if (value <? 0) || (255 <? value) then Panic "value exceeds 2 bytes"%string
      else appendValues (initData ++ [u8 value]) rest
  end.

Definition frameInitData (values : list Z) : result (list byte) :=
  match appendValues [Handshake.handshakeChar] values with
  | Panic msg => Panic msg
  | Ok initData => Ok (initData ++ [Handshake.ackChar])
  end.

End InitData.

(** ** What the firmwares use of the Arduino core *)

Module Arduino.

(** The decimal digit of a number below ten. *)
Definition digitChar (d : Z) : ascii := ascii_of_nat (48 + Z.to_nat d).

(** The decimal digits of a non-negative number, most significant first;
    [fuel] bounds their number. *)
Fixpoint digits (fuel : nat) (n : Z) (acc : list ascii) : list ascii :=
  match fuel with
  | O => acc
  | S fuel' =>
      let acc := digitChar (n mod 10) :: acc in
      if n / 10 =? 0 then acc else digits fuel' (n / 10) acc
  end.

(** [String(n)] for an [int]: decimal, with a minus sign when negative. *)
Definition String_int (n : Z) : list ascii :=
  if n <? 0 then "-"%char :: digits 20 (- n) [] else digits 20 n [].

End Arduino.

(** ** The firmware with handshake ([arduino/deej-sliders-encoders-combo]) *)

Module ComboFirmware.

(** [receiveData(outArray, size)] with the default markers ['>'] and ['<'].
    [avail] is what the serial buffer holds and goes on to deliver while the
    loop runs.  The result is the array, the flag returned and what is left
    in the buffer; there is none when the loop writes outside the array. *)
Fixpoint receiveLoop (size : nat) (avail : list byte) (outArray : list byte)
    (index : nat) (receiving : bool) : option (list byte * bool * list byte) :=
  match avail with
  | [] => Some (outArray, receiving, [])
  | b :: rest =>
      if Byte.eqb b x3e then receiveLoop size rest outArray index true
      else if negb receiving then receiveLoop size rest outArray index receiving
      else if Byte.eqb b x3c then Some (outArray, receiving, rest)
      else if Nat.ltb index (length outArray) then
        let outArray := <[index := b]> outArray in
        let index := ((index + 1) mod 256)%nat in                  (* [index++] on a [uint8_t] *)
        let index := if Nat.leb size index
                     then ((size + 255) mod 256)%nat               (* [size - 1] *)
                     else index in
        receiveLoop size rest outArray index receiving
      else None
  end.

Definition receiveData (size : nat) (avail : list byte) (outArray : list byte)
    : option (list byte * bool * list byte) :=
  receiveLoop size avail outArray 0 false.

Definition NUM_POTS : nat := 3.
Definition NUM_ENCODERS : nat := 2.

(** [struct VolData { int value; bool mute = false; }] *)
Record VolData : Type := { value : Z; mute : bool }.

(** [getValue(index)], for the entry at [index]. *)
Definition getValue (v : VolData) : Z := if mute v then 0 else value v.

(** The loop of [printValues], from entry [i]: everything it writes to the
    serial port, in order. *)
Fixpoint printFrom (i : nat) (values : list VolData) : list ascii :=
  match values with
  | [] => []
  | v :: rest =>
      let printedString :=
        (Go.str "Value #" ++ Arduino.String_int (Z.of_nat i + 1) ++ Go.str ": "
         ++ Arduino.String_int (getValue v))%list in
      let printedString :=
        if mute v then (printedString ++ Go.str "(m)")%list else printedString in
      (printedString
       ++ (if Nat.ltb i (NUM_POTS + NUM_ENCODERS - 1) then Go.str " | " else ["010"%char])
       ++ printFrom (S i) rest)%list
  end.

(** [printValues], the one output call left in [loop]. *)
Definition printValues (values : list VolData) : list ascii :=
  printFrom 0 (take (NUM_POTS + NUM_ENCODERS) values).

End ComboFirmware.

(** ** The firmware that sends binary frames (sliders, encoders, buttons) *)

Module BinaryFirmware.

Definition NUM_POTS : nat := 3.
Definition NUM_ENCODERS : nat := 2.
Definition DATA_RESOLUTION : Z := 1024.
Definition DENOIZE : Z := 8.
Definition DATA_SEND_THRESHOLD : Z := 5.
Definition START_MARKER : byte := xaa.
Definition END_MARKER : byte := x55.
Definition FRAME_SIZE : nat := (NUM_POTS + NUM_ENCODERS)%nat.

(** [struct VolData { int value; bool toggleMute = false; }].  An [int] is a
    [Z]; the firmware keeps values within [-1023, 1023], where its
    arithmetic does not overflow. *)
Record VolData : Type := { value : Z; toggleMute : bool }.

(** The two global arrays, of [FRAME_SIZE] entries each. *)
Record state : Type := { values : list VolData; lastSentValues : list VolData }.

Definition initial : state :=
  {| values := replicate FRAME_SIZE {| value := 0; toggleMute := false |};
     lastSentValues := replicate FRAME_SIZE {| value := 0; toggleMute := false |} |}.

(** The macro [constrain(amt, low, high)]. *)
Definition constrain (amt low high : Z) : Z :=
  if amt <? low then low else if high <? amt then high else amt.

(** [setValue(index, newValue)]; there is no result when [index] is outside
    the array. *)
Definition setValue (index : nat) (newValue : Z) (st : state) : option state :=
  let clamped := constrain newValue (- (DATA_RESOLUTION - 1)) (DATA_RESOLUTION - 1) in
  match values st !! index with
  | None => None
  | Some v =>
      Some {| values := <[index := {| value := clamped; toggleMute := toggleMute v |}]> (values st);
              lastSentValues := lastSentValues st |}
  end.

(** [tickEncoder(index)], for the direction the encoder reports (-1, 0 or 1). *)
Definition tickEncoder (index : nat) (direction : Z) (st : state) : option state :=
  let newValue := direction * 22 in
  let valueIndex := (NUM_POTS + index)%nat in
  match values st !! valueIndex with
  | None => None
  | Some v =>
      if negb (value v =? newValue) then setValue valueIndex newValue st else Some st
  end.

(** The body of the loop of [tickPots] for pot [i] and the reading
    [rawValue] of its pin. *)
Definition tickPot (i : nat) (rawValue : Z) (st : state) : option state :=
  let mappedValue := rawValue in
  match values st !! i with
  | None => None
  | Some v =>
      if DENOIZE <? Z.abs (Z.abs mappedValue - Z.abs (value v)) then
        let mappedValue := if 1000 <=? mappedValue then 1023 else mappedValue in
        let mappedValue := if mappedValue <=? 10 then 0 else mappedValue in
        setValue i mappedValue st
      else Some st
  end.

(** [tickPots], for the readings of the [NUM_POTS] pins in order. *)
Fixpoint tickPotsFrom (i : nat) (readings : list Z) (st : state) : option state :=
  match readings with
  | [] => Some st
  | rawValue :: readings' =>
      match tickPot i rawValue st with
      | None => None
      | Some st' => tickPotsFrom (S i) readings' st'
      end
  end.

Definition tickPots (readings : list Z) (st : state) : option state :=
  tickPotsFrom 0 (take NUM_POTS readings) st.

(** [tickButton(index)], for what the button reports: whether it is
    pressed, for how long it has been in its state, and whether it has an
    event. *)
Definition tickButton (index : nat) (isPressed : bool) (currentStateTime : Z)
    (isThereAnEvent : bool) (st : state) : option state :=
  match values st !! index with
  | None => None
  | Some v =>
      if isPressed && (300 <=? currentStateTime) && negb (toggleMute v) then
        Some {| values := <[index := {| value := value v; toggleMute := true |}]> (values st);
                lastSentValues := lastSentValues st |}
      else if isThereAnEvent then
        Some {| values :=
                  <[index := {| value := value v; toggleMute := negb (toggleMute v) |}]>
                    (values st);
                lastSentValues := lastSentValues st |}
      else Some st
  end.

(** [uint16_t packed = ((toggleMute & 0x01) << 11) | ((uint16_t)value & 0x07FF)] *)
Definition pack (v : VolData) : Z :=
  Go.uint16
    (Z.lor (Z.shiftl (Z.land (Z.b2z (toggleMute v)) 1) 11)
           (Z.land (Go.uint16 (value v)) 2047)).

(** [(packed >> 8) & 0xFF] and [packed & 0xFF] *)
Definition packedBytes (v : VolData) : list byte :=
  [InitData.u8 (Z.land (Z.shiftr (pack v) 8) 255); InitData.u8 (Z.land (pack v) 255)].

(** [sendValues]: the buffer written to the serial port, and the state with
    [lastSentValues] brought up to date. *)
Definition sendValues (st : state) : list byte * state :=
  (START_MARKER :: flat_map packedBytes (take FRAME_SIZE (values st)) ++ [END_MARKER],
   {| values := values st;
      lastSentValues := take FRAME_SIZE (values st) ++ drop FRAME_SIZE (lastSentValues st) |}).

(** The test of [trySendValues] for entry [i]. *)
Definition changed (i : nat) (lastSent v : VolData) : bool :=
  let minValue := Z.min (value lastSent) (value v) in
  let maxValue := Z.max (value lastSent) (value v) in
  let changeSignificantEnough :=
    if Nat.ltb i NUM_POTS then DATA_SEND_THRESHOLD <=? Z.abs (maxValue - minValue)
    else negb (value lastSent =? value v) in
  changeSignificantEnough || toggleMute v.

(** The loop of [trySendValues] that sets [shouldSendValues], from entry [i]. *)
Fixpoint shouldSendFrom (i : nat) (lastSent vs : list VolData) : bool :=
  match lastSent, vs with
  | l :: lastSent', v :: vs' => if changed i l v then true else shouldSendFrom (S i) lastSent' vs'
  | _, _ => false
  end.

Definition clearToggles (st : state) : state :=
  {| values :=
       map (fun v => {| value := value v; toggleMute := false |}) (take FRAME_SIZE (values st))
       ++ drop FRAME_SIZE (values st);
     lastSentValues := lastSentValues st |}.

(** [trySendValues]: the frame written, if one is, and the new state. *)
Definition trySendValues (st : state) : option (list byte) * state :=
  if shouldSendFrom 0 (take FRAME_SIZE (lastSentValues st)) (take FRAME_SIZE (values st)) then
    let '(frame, st') := sendValues st in (Some frame, clearToggles st')
  else (None, st).

End BinaryFirmware.

(** ** The firmware that sends text lines (sliders only) *)

Module SliderFirmware.

Definition NUM_POTS : nat := 5.

(** The loop of [sendSliderValues], from entry [i]:
    [builtString += String(v); if (i < NUM_POTS - 1) builtString += "|"]. *)
Fixpoint build (i : nat) (analogSliderValues : list Z) (builtString : list ascii)
    : list ascii :=
  match analogSliderValues with
  | [] => builtString
  | v :: rest =>
      let builtString := builtString ++ Arduino.String_int v in
      let builtString :=
        if Nat.ltb i (NUM_POTS - 1) then builtString ++ ["|"%char] else builtString in
      build (S i) rest builtString
  end.

(** [sendSliderValues]: what [Serial.println(builtString)] writes. *)
Definition sendSliderValues (analogSliderValues : list Z) : list ascii :=
  build 0 (take NUM_POTS analogSliderValues) [] ++ ["013"%char; "010"%char].

End SliderFirmware.

(** ** Definitions used to state the properties *)

(** The value field of a word, as [Binary.unpack] reads it from the low
    eleven bits. *)
Definition fieldValue (rawValue : Z) : Z :=
  if negb (Z.land rawValue 1024 =? 0) then Go.int16 (Z.lor rawValue 63488) else rawValue.

(** The eleven-bit field read as two's complement, as a test on one field. *)
Definition fieldValue_ok (rawValue : Z) : bool :=
  Bool.eqb (negb (Z.land rawValue 1024 =? 0)) (Z.testbit rawValue 10)
  && (fieldValue rawValue =? if rawValue <? 1024 then rawValue else rawValue - 2048).

(** The packed words of the maximal even-length prefix of a frame. *)
Fixpoint words (bytes : list byte) : list Z :=
  match bytes with
  | hi :: lo :: rest => Binary.packWord hi lo :: words rest
  | _ => []
  end.

(** The tracker's arrays agree with the recorded slider count.  The count is
    also set to zero on its own after a configuration reload. *)
Definition binary_wf (sio : Binary.SerialIO) : Prop :=
  Binary.lastKnownNumSliders sio = 0
  \/ Binary.lastKnownNumSliders sio = Z.of_nat (length (Binary.currentVolumeDatas sio)).

Definition line_wf (sio : Line.SerialIO) : Prop :=
  Line.lastKnownNumSliders sio = 0
  \/ Line.lastKnownNumSliders sio = Z.of_nat (length (Line.currentSliderPercentValues sio)).

Section BinarySteps.
Variable U : util.
Variable d : Deej.t.

(** Whether slider [i], reading [ad] against the stored [cur], produces an
    event. *)
Definition emits (i : nat) (ad : Binary.ArduinoData.t) (cur : Binary.VolumeData.t) : bool :=
  SignificantlyDifferent U (Binary.VolumeData.Value cur)
    (Binary.normalizedScalar U d (Z.of_nat i) (Binary.ArduinoData.Value ad))
    (CanonicalConfig.NoiseReductionLevel (Deej.config d))
  || Binary.ArduinoData.ToggleMute ad.

Definition newVol (i : nat) (ad : Binary.ArduinoData.t) (cur : Binary.VolumeData.t)
    : Binary.VolumeData.t :=
  if emits i ad cur then
    {| Binary.VolumeData.Value :=
         Binary.normalizedScalar U d (Z.of_nat i) (Binary.ArduinoData.Value ad);
       Binary.VolumeData.Mute := negb (Binary.VolumeData.Mute cur) |}
  else cur.

Definition newEvent (i : nat) (ad : Binary.ArduinoData.t) : Binary.SliderEvent.t :=
  {| Binary.SliderEvent.SliderID := Z.of_nat i;
     Binary.SliderEvent.PercentValue :=
       Binary.normalizedScalar U d (Z.of_nat i) (Binary.ArduinoData.Value ad);
     Binary.SliderEvent.ToggleMute := Binary.ArduinoData.ToggleMute ad |}.

(** The stored values after the sliders [i], [i+1], ... have read [data]. *)
Fixpoint stepVols (i : nat) (data : list Binary.ArduinoData.t)
    (vols : list Binary.VolumeData.t) : list Binary.VolumeData.t :=
  match data with
  | [] => vols
  | ad :: data' =>
      stepVols (S i) data'
        (match vols !! i with
         | Some cur => <[i := newVol i ad cur]> vols
         | None => vols
         end)
  end.

(** The events of the sliders [i], [i+1], ..., in order. *)
Fixpoint stepEvents (i : nat) (data : list Binary.ArduinoData.t)
    (vols : list Binary.VolumeData.t) : list Binary.SliderEvent.t :=
  match data with
  | [] => []
  | ad :: data' =>
      match vols !! i with
      | Some cur => (if emits i ad cur then [newEvent i ad] else []) ++ stepEvents (S i) data' vols
      | None => []
      end
  end.
(** One event per reading, in ascending slider order. *)
Fixpoint allEvents (i : nat) (data : list Binary.ArduinoData.t) : list Binary.SliderEvent.t :=
  match data with
  | [] => []
  | ad :: data' => newEvent i ad :: allEvents (S i) data'
  end.
End BinarySteps.

Section LineSteps.
Variable U : util.
Variable d : Deej.t.

(** Whether a slider, reading the text [field] against the stored [cur],
    produces an event. *)
Definition lineEmits (field : list ascii) (cur : Q) : bool :=
  SignificantlyDifferent U cur
    (Line.normalizedScalar U d (fst (strconv.Atoi field)))
    (CanonicalConfig.NoiseReductionLevel (Deej.config d)).

Definition lineNewVal (field : list ascii) (cur : Q) : Q :=
  if lineEmits field cur
  then Line.normalizedScalar U d (fst (strconv.Atoi field)) else cur.

Definition lineNewEvent (i : nat) (field : list ascii) : Line.SliderMoveEvent.t :=
  {| Line.SliderMoveEvent.SliderID := Z.of_nat i;
     Line.SliderMoveEvent.PercentValue :=
       Line.normalizedScalar U d (fst (strconv.Atoi field)) |}.

(** The stored values after the sliders [i], [i+1], ... have read [fields]. *)
Fixpoint lineStepVals (i : nat) (fields : list (list ascii)) (vals : list Q) : list Q :=
  match fields with
  | [] => vals
  | field :: fields' =>
      lineStepVals (S i) fields'
        (match vals !! i with
         | Some cur => <[i := lineNewVal field cur]> vals
         | None => vals
         end)
  end.

(** The events of the sliders [i], [i+1], ..., in order. *)
Fixpoint lineStepEvents (i : nat) (fields : list (list ascii)) (vals : list Q)
    : list Line.SliderMoveEvent.t :=
  match fields with
  | [] => []
  | field :: fields' =>
      match vals !! i with
      | Some cur =>
          (if lineEmits field cur then [lineNewEvent i field] else [])
          ++ lineStepEvents (S i) fields' vals
      | None => []
      end
  end.
End LineSteps.

(** The line terminator. *)
Definition CRLF : list ascii := ["013"%char; "010"%char].

(** The fields of a line, as [handleLine] splits them. *)
Definition fieldsOf (line : list ascii) : list (list ascii) :=
  strings.Split (strings.TrimSuffix line CRLF) "|"%char.

(** *** Concrete instances for the examples *)

(** Package [util] as the specification describes it, with a threshold of
    0.025 at every noise-reduction level. *)
Definition exampleUtil : util := spec_util (fun _ => 25 # 1000)%Q false.

Definition exampleDeej (invert : bool) (additive : list Z) : Deej.t :=
  {| Deej.config :=
       {| CanonicalConfig.ConnectionInfo :=
            {| ConnectionInfo.COMPort := Go.str "COM4"; ConnectionInfo.BaudRate := 9600 |};
          CanonicalConfig.InvertSliders := invert;
          CanonicalConfig.AdditiveIndices := additive;
          CanonicalConfig.NoiseReductionLevel := Go.str "default" |};
     Deej.Verbose := false;
     Deej.sessions_getCurrentVolume := fun _ => (1 # 2)%Q |}.

(** A connected binary engine with one consumer (channel 7). *)
Definition exampleBinary (invert : bool) (additive : list Z) (count : Z)
    (vols : list Binary.VolumeData.t) : Binary.SerialIO :=
  {| Binary.deej := exampleDeej invert additive;
     Binary.connected := true;
     Binary.connOptions :=
       {| OpenOptions.PortName := Go.str "COM4"; OpenOptions.BaudRate := 9600;
          OpenOptions.DataBits := 8; OpenOptions.StopBits := 1;
          OpenOptions.MinimumReadSize := 0 |};
     Binary.conn := Some 0%nat;
     Binary.lastKnownNumSliders := count;
     Binary.currentVolumeDatas := vols;
     Binary.sliderMoveConsumers := [7%nat] |}.

(** A connected line engine with one consumer (channel 7). *)
Definition exampleLine (invert : bool) (count : Z) (vals : list Q) : Line.SerialIO :=
  {| Line.deej := exampleDeej invert [];
     Line.connected := true;
     Line.connOptions :=
       {| OpenOptions.PortName := Go.str "COM4"; OpenOptions.BaudRate := 9600;
          OpenOptions.DataBits := 8; OpenOptions.StopBits := 1;
          OpenOptions.MinimumReadSize := 0 |};
     Line.conn := Some 0%nat;
     Line.lastKnownNumSliders := count;
     Line.currentSliderPercentValues := vals;
     Line.sliderMoveConsumers := [7%nat] |}.

(** The dirty first line quoted in the source: ["4558|925|41"], terminated. *)
Definition dirtyLine : list ascii := Go.str "4558|925|41" ++ CRLF.

(** A line tracker that knows five sliders, all at one half. *)
Definition fiveSliders : Line.SerialIO :=
  exampleLine false 5 [(1 # 2)%Q; (1 # 2)%Q; (1 # 2)%Q; (1 # 2)%Q; (1 # 2)%Q].

(** A binary tracker that knows one slider, at zero and unmuted. *)
Definition oneSliderAtZero : Binary.SerialIO :=
  exampleBinary false [] 1
    [{| Binary.VolumeData.Value := 0; Binary.VolumeData.Mute := false |}].

(** The frame of the single word 0x0200: value 512, no toggle. *)
Definition frame512 : list byte := [x02; x00].

(** A binary tracker that has seen no frame yet. *)
Definition freshBinary : Binary.SerialIO := exampleBinary false [] 0 [].

(** A line tracker that has seen no line yet. *)
Definition freshLine : Line.SerialIO := exampleLine false 0 [].

(** The strings an expression denotes. *)
Fixpoint lang (r : Regexp.regex) (s : list ascii) : Prop :=
  match r with
  | Regexp.Void => False
  | Regexp.Eps => s = []
  | Regexp.Class p => exists c, s = [c] /\ p c = true
  | Regexp.Cat a b => exists s1 s2, s = s1 ++ s2 /\ lang a s1 /\ lang b s2
  | Regexp.Alt a b => lang a s \/ lang b s
  | Regexp.Star a => exists ss, s = concat ss /\ Forall (lang a) ss
  end.

(** One to four decimal digits. *)
Definition isField (f : list ascii) : Prop :=
  (1 <= length f <= 4)%nat /\ Forall (fun c => Regexp.isDigit c = true) f.

(** Every consumer paired with every event, consumer by consumer. *)
Definition broadcast {E : Type} (consumers : list chan) (events : list E) : list (chan * E) :=
  flat_map (fun consumer => map (pair consumer) events) consumers.

(** ** Definitions used to state the further properties *)

(** A pass of the handshake loop that neither fails nor brings a marker: a
    resend that is written, a read that ends in [io.EOF], a read of no byte,
    or a read of a byte that is neither ['>'] nor ['<']. *)
Definition quietPass (p : Handshake.pass) : bool :=
  match p with
  | Handshake.Tick writeFails => negb writeFails
  | Handshake.Read (Handshake.ReadFailed eof) _ => eof
  | Handshake.Read (Handshake.ReadCount n b) _ =>
      negb (Nat.ltb 0 n)
      || negb (Byte.eqb b Handshake.handshakeChar || Byte.eqb b Handshake.ackChar)
  end.

(** One handshake marker per resend. *)
Definition resends (passes : list Handshake.pass) : list byte :=
  flat_map (fun p => match p with
                     | Handshake.Tick _ => [Handshake.handshakeChar]
                     | Handshake.Read _ _ => []
                     end) passes.

(** The volume [produceInitData] looks for on behalf of one slider: that of
    the first session of the first resolved target that has sessions, the
    targets and their resolutions taken in order. *)
Definition firstResolvedVolume (resolveTarget : list ascii -> list (list ascii))
    (sessions_get : list ascii -> option (list Q)) (targets : list (list ascii)) : option Z :=
  match find (fun t => match sessions_get t with Some _ => true | None => false end)
             (flat_map resolveTarget targets) with
  | Some t =>
      match sessions_get t with
      | Some (volume :: _) => Some (InitData.truncate volume)
      | _ => None
      end
  | None => None
  end.

(** A value that can travel in the initialisation data: a byte that is
    neither of the two markers. *)
Definition plainByte (v : Z) : Prop := 0 <= v <= 255 /\ v <> 60 /\ v <> 62.


(** The reading the host is to recover from an entry of the firmware. *)
Definition readingOf (v : BinaryFirmware.VolData) : Binary.ArduinoData.t :=
  {| Binary.ArduinoData.Value := BinaryFirmware.value v;
     Binary.ArduinoData.ToggleMute := BinaryFirmware.toggleMute v |}.

(** Whether an entry survives packing by the firmware and unpacking by the
    host, as a test. *)
Definition roundTrips (v : BinaryFirmware.VolData) : bool :=
  match BinaryFirmware.packedBytes v with
  | [hi; lo] =>
      let u := Binary.unpack (Binary.packWord hi lo) in
      (Binary.ArduinoData.Value u =? BinaryFirmware.value v)
      && Bool.eqb (Binary.ArduinoData.ToggleMute u) (BinaryFirmware.toggleMute v)
  | _ => false
  end.

(** Every value of the eleven-bit field, [-1024 .. 1023], with both flags. *)
Definition allEntries : list BinaryFirmware.VolData :=
  flat_map (fun n => [ {| BinaryFirmware.value := Z.of_nat n - 1024;
                          BinaryFirmware.toggleMute := false |};
                       {| BinaryFirmware.value := Z.of_nat n - 1024;
                          BinaryFirmware.toggleMute := true |} ])
           (seq 0 2048).

(** What the firmware's loop does to its state between two frames. *)
Inductive firmwareStep : Type :=
| SetValue (index : nat) (newValue : Z)
| TickEncoder (index : nat) (direction : Z)
| TickPots (readings : list Z)
| TickButton (index : nat) (isPressed : bool) (currentStateTime : Z) (isThereAnEvent : bool)
| TrySendValues.

Definition firmwareStepRun (s : firmwareStep) (st : BinaryFirmware.state)
    : option BinaryFirmware.state :=
  match s with
  | SetValue index newValue => BinaryFirmware.setValue index newValue st
  | TickEncoder index direction => BinaryFirmware.tickEncoder index direction st
  | TickPots readings => BinaryFirmware.tickPots readings st
  | TickButton index p t e => BinaryFirmware.tickButton index p t e st
  | TrySendValues => Some (snd (BinaryFirmware.trySendValues st))
  end.

Fixpoint firmwareRun (steps : list firmwareStep) (st : BinaryFirmware.state)
    : option BinaryFirmware.state :=
  match steps with
  | [] => Some st
  | s :: steps' =>
      match firmwareStepRun s st with
      | None => None
      | Some st' => firmwareRun steps' st'
      end
  end.

(** The arrays have their size and every value is within [-1023, 1023]. *)
Definition firmwareInv (st : BinaryFirmware.state) : Prop :=
  length (BinaryFirmware.values st) = BinaryFirmware.FRAME_SIZE
  /\ length (BinaryFirmware.lastSentValues st) = BinaryFirmware.FRAME_SIZE
  /\ Forall (fun v => -1023 <= BinaryFirmware.value v <= 1023) (BinaryFirmware.values st).

(** One to four decimal digits, as a test. *)
Definition isFieldb (f : list ascii) : bool :=
  Nat.leb 1 (length f) && Nat.leb (length f) 4 && forallb Regexp.isDigit f.

(** Whether a number is printed as a field that reads back as the number. *)
Definition printsBack (n : Z) : bool :=
  let s := Arduino.String_int n in
  isFieldb s && (fst (strconv.Atoi s) =? n) && negb (snd (strconv.Atoi s)).

(** A state of the binary firmware: pot 0 at 512, the button of entry 1
    held, the first encoder turned back by one step, nothing sent yet. *)
Definition exampleFirmwareState : BinaryFirmware.state :=
  {| BinaryFirmware.values :=
       [ {| BinaryFirmware.value := 512; BinaryFirmware.toggleMute := false |};
         {| BinaryFirmware.value := 0; BinaryFirmware.toggleMute := true |};
         {| BinaryFirmware.value := 0; BinaryFirmware.toggleMute := false |};
         {| BinaryFirmware.value := -22; BinaryFirmware.toggleMute := false |};
         {| BinaryFirmware.value := 0; BinaryFirmware.toggleMute := false |} ];
     BinaryFirmware.lastSentValues :=
       replicate 5 {| BinaryFirmware.value := 0; BinaryFirmware.toggleMute := false |} |}.

(** * Properties *)

(** ** Binary decoding *)

Lemma byteZ_range (b : byte) : 0 <= Go.byteZ b < 256.
Proof.
  unfold Go.byteZ. pose proof (Byte.to_N_bounded b). lia.
Qed.

Lemma land_shiftl_low (hi lo n : Z) :
  0 <= n -> 0 <= lo < 2 ^ n -> Z.land (Z.shiftl hi n) lo = 0.
Proof.
  intros Hn Hlo. apply Z.bits_inj'. intros k Hk.
  rewrite Z.land_spec, Z.bits_0.
  destruct (Z.ltb_spec k n) as [Hlt | Hge].
  - rewrite Z.shiftl_spec_low by lia. reflexivity.
  - assert (Hb : Z.testbit lo k = false).
    { destruct (Z.eq_dec lo 0) as [-> | Hnz]; [apply Z.bits_0 |].
      apply Z.bits_above_log2; [lia |].
      apply Z.log2_lt_pow2; [lia |].
      apply Z.lt_le_trans with (2 ^ n); [lia |].
      apply Z.pow_le_mono_r; lia. }
    rewrite Hb. apply andb_false_r.
Qed.

(** The packed word is the big-endian value of its two bytes. *)
Lemma packWord_big_endian (hi lo : byte) :
  Binary.packWord hi lo = 256 * Go.byteZ hi + Go.byteZ lo.
Proof.
  unfold Binary.packWord, Go.uint16.
  pose proof (byteZ_range hi) as Hhi. pose proof (byteZ_range lo) as Hlo.
  rewrite Z.shiftl_mul_pow2 by lia. change (2 ^ 8) with 256.
  rewrite Z.mod_small by lia.
  rewrite <- Z.add_nocarry_lor; [lia |].
  replace (Go.byteZ hi * 256) with (Z.shiftl (Go.byteZ hi) 8)
    by (rewrite Z.shiftl_mul_pow2 by lia; reflexivity).
  apply land_shiftl_low; [lia | change (2 ^ 8) with 256; lia].
Qed.

Lemma unpack_Value (packed : Z) :
  Binary.ArduinoData.Value (Binary.unpack packed) = fieldValue (Z.land packed 2047).
Proof.
  unfold Binary.unpack, fieldValue.
  destruct (negb (Z.land (Z.land packed 2047) 1024 =? 0)); reflexivity.
Qed.

Lemma unpack_ToggleMute (packed : Z) :
  Binary.ArduinoData.ToggleMute (Binary.unpack packed) = Z.testbit packed 11.
Proof.
  assert (Ht : Binary.ArduinoData.ToggleMute (Binary.unpack packed)
               = negb (Z.land (Z.shiftr packed 11) 1 =? 0)).
  { unfold Binary.unpack.
    destruct (negb (Z.land (Z.land packed 2047) 1024 =? 0)); reflexivity. }
  rewrite Ht, Z.testbit_eqb by lia.
  change 1 with (Z.ones 1) at 1. rewrite Z.land_ones by lia.
  rewrite Z.shiftr_div_pow2 by lia. change (2 ^ 1) with 2.
  pose proof (Z.mod_pos_bound (packed / 2 ^ 11) 2 ltac:(lia)) as Hm.
  destruct (Z.eqb_spec ((packed / 2 ^ 11) mod 2) 0) as [E0 | E0];
    destruct (Z.eqb_spec ((packed / 2 ^ 11) mod 2) 1) as [E1 | E1];
    simpl; try reflexivity; lia.
Qed.

Lemma fieldValue_ok_all : forallb fieldValue_ok (map Z.of_nat (seq 0 2048)) = true.
Proof. vm_compute. reflexivity. Qed.

Lemma fieldValue_ok_field (rawValue : Z) :
  0 <= rawValue < 2048 -> fieldValue_ok rawValue = true.
Proof.
  intros H. pose proof fieldValue_ok_all as Hall.
  rewrite forallb_forall in Hall. apply Hall.
  apply in_map_iff. exists (Z.to_nat rawValue). split; [lia |].
  apply in_seq. lia.
Qed.

Lemma land_2047 (packed : Z) : Z.land packed 2047 = packed mod 2048.
Proof. change 2047 with (Z.ones 11). rewrite Z.land_ones by lia. reflexivity. Qed.

Lemma fieldValue_twos_complement (packed : Z) :
  let m := packed mod 2048 in
  fieldValue (Z.land packed 2047) = (if m <? 1024 then m else m - 2048)
  /\ Z.testbit packed 10 = negb (m <? 1024)
  /\ negb (Z.land (Z.land packed 2047) 1024 =? 0) = Z.testbit packed 10.
Proof.
  intros m. rewrite land_2047. fold m.
  assert (Hm : 0 <= m < 2048) by (apply Z.mod_pos_bound; lia).
  pose proof (fieldValue_ok_field m Hm) as Hok. unfold fieldValue_ok in Hok.
  apply andb_true_iff in Hok. destruct Hok as [Hbit Hval].
  apply Bool.eqb_prop in Hbit. apply Z.eqb_eq in Hval.
  assert (Hlow : Z.testbit m 10 = Z.testbit packed 10).
  { unfold m. change 2048 with (2 ^ 11). apply Z.mod_pow2_bits_low. lia. }
  assert (Hsign : Z.testbit m 10 = negb (m <? 1024)).
  { rewrite <- Hbit. unfold fieldValue in Hval.
    destruct (negb (Z.land m 1024 =? 0)); destruct (Z.ltb_spec m 1024);
      try reflexivity; unfold Go.int16 in Hval; exfalso.
    - assert (Hl : Z.lor m 63488 = m + 63488).
      { symmetry. apply Z.add_nocarry_lor. rewrite Z.land_comm.
        change 63488 with (Z.shiftl 31 11). apply land_shiftl_low; lia. }
      rewrite Hl in Hval. rewrite Z.mod_small in Hval by lia.
      destruct (Z.ltb_spec (m + 63488) 32768); lia.
    - lia. }
  split; [exact Hval |]. split; [congruence | congruence].
Qed.

Lemma unpack_Value_range (packed : Z) :
  -1024 <= Binary.ArduinoData.Value (Binary.unpack packed) <= 1023.
Proof.
  rewrite unpack_Value.
  destruct (fieldValue_twos_complement packed) as [Hv _]. rewrite Hv.
  pose proof (Z.mod_pos_bound packed 2048 ltac:(lia)).
  destruct (Z.ltb_spec (packed mod 2048) 1024); lia.
Qed.

(** C1 (as amended).  A channel word is the big-endian value of its two
    bytes.  Bit 11 gives [ToggleMute].  Bits 0-10 give the value: when bit 10
    is set the field is OR-ed with 0xF800 and read as a signed 16-bit integer,
    otherwise it is taken as it is; in both cases the result is the eleven-bit
    field read in two's complement.  Word 0x0000 decodes to (false, 0), 0x0800
    to (true, 0), 0x03FF to 1023, 0x0400 to -1024 and 0x07FF to -1. *)
Theorem unpack_word_layout (hi lo : byte) :
  let packed := Binary.packWord hi lo in
  let u := Binary.unpack packed in
  let m := packed mod 2048 in
  packed = 256 * Go.byteZ hi + Go.byteZ lo
  /\ Binary.ArduinoData.ToggleMute u = Z.testbit packed 11
  /\ Binary.ArduinoData.Value u =
       (if Z.testbit packed 10
        then Go.int16 (Z.lor (Z.land packed 2047) 63488)
        else Z.land packed 2047)
  /\ Binary.ArduinoData.Value u = (if m <? 1024 then m else m - 2048)
  /\ Binary.unpack (Binary.packWord x00 x00)
       = {| Binary.ArduinoData.Value := 0; Binary.ArduinoData.ToggleMute := false |}
  /\ Binary.unpack (Binary.packWord x08 x00)
       = {| Binary.ArduinoData.Value := 0; Binary.ArduinoData.ToggleMute := true |}
  /\ Binary.ArduinoData.Value (Binary.unpack (Binary.packWord x03 xff)) = 1023
  /\ Binary.ArduinoData.Value (Binary.unpack (Binary.packWord x04 x00)) = -1024
  /\ Binary.ArduinoData.Value (Binary.unpack (Binary.packWord x07 xff)) = -1.
Proof.
  intros packed u m.
  destruct (fieldValue_twos_complement packed) as (Hv & Hs & Hb).
  split; [apply packWord_big_endian |].
  split; [apply unpack_ToggleMute |].
  split.
  - unfold u. rewrite unpack_Value. unfold fieldValue. rewrite Hb.
    destruct (Z.testbit packed 10); reflexivity.
  - split; [unfold u; rewrite unpack_Value; exact Hv |].
    repeat split; reflexivity.
Qed.

(** C1, the claim as written fails: word 0x07FF has bit 10 set, so it is
    sign-extended and decodes to -1, not to 1023. *)
Lemma unpack_07FF_is_not_1023 :
  Z.testbit (Binary.packWord x07 xff) 10 = true
  /\ Binary.ArduinoData.Value (Binary.unpack (Binary.packWord x07 xff)) = -1
  /\ Binary.ArduinoData.Value (Binary.unpack (Binary.packWord x07 xff)) <> 1023.
Proof. repeat split. vm_compute. discriminate. Qed.

(** ** Frames of even and of odd length *)

Lemma decodeFrom_even (n : nat) :
  forall (rest : list byte) (len i : Z) (data : list Binary.ArduinoData.t),
    length rest = (2 * n)%nat ->
    Binary.decodeFrom len i rest data = Go.Returns (data ++ map Binary.unpack (words rest)).
Proof.
  induction n as [| n IH]; intros rest len i data Hlen.
  - destruct rest; [| discriminate]. simpl. rewrite app_nil_r. reflexivity.
  - destruct rest as [| hi [| lo rest]]; simpl in Hlen; try lia.
    simpl. rewrite IH by lia. rewrite <- app_assoc. reflexivity.
Qed.

Lemma decodeFrom_odd (n : nat) :
  forall (rest : list byte) (len i : Z) (data : list Binary.ArduinoData.t),
    length rest = (2 * n + 1)%nat ->
    Binary.decodeFrom len i rest data
    = Go.Panics (Go.IndexOutOfRange (i + Z.of_nat (length rest)) len).
Proof.
  induction n as [| n IH]; intros rest len i data Hlen.
  - destruct rest as [| b [| ? ?]]; simpl in Hlen; try lia. reflexivity.
  - destruct rest as [| hi [| lo rest]]; simpl in Hlen; try lia.
    cbn [Binary.decodeFrom]. rewrite IH by lia. do 2 f_equal.
    cbn [length]. lia.
Qed.

Lemma words_length (n : nat) :
  forall bytes : list byte,
    (length bytes = 2 * n \/ length bytes = 2 * n + 1)%nat -> length (words bytes) = n.
Proof.
  induction n as [| n IH]; intros bytes H.
  - destruct bytes as [| b [| ? ?]]; simpl in *; try reflexivity; lia.
  - destruct bytes as [| hi [| lo rest]]; simpl in *; try lia.
    f_equal. apply IH. lia.
Qed.

(** A frame of even length decodes to one reading per pair of bytes. *)
Lemma decode_even (bytes : list byte) :
  Nat.even (length bytes) = true ->
  Binary.decode bytes = Go.Returns (map Binary.unpack (words bytes))
  /\ length (words bytes) = Nat.div2 (length bytes).
Proof.
  intros He. apply Nat.even_spec in He. destruct He as [n Hn].
  split.
  - unfold Binary.decode. rewrite (decodeFrom_even n) by exact Hn. reflexivity.
  - rewrite (words_length n) by lia. rewrite Hn. symmetry. apply Nat.div2_double.
Qed.

Lemma decode_odd (bytes : list byte) :
  Nat.odd (length bytes) = true ->
  Binary.decode bytes
  = Go.Panics (Go.IndexOutOfRange (Z.of_nat (length bytes)) (Z.of_nat (length bytes))).
Proof.
  intros Ho. apply Nat.odd_spec in Ho. destruct Ho as [n Hn].
  unfold Binary.decode. rewrite (decodeFrom_odd n) by exact Hn. reflexivity.
Qed.

(** C2, what the code does: on every frame of odd length [handleBytes] logs
    the warning and then stops with an index-out-of-range panic at
    [bytes[len(bytes)]]: the loop condition [i < len(bytes)] admits the last
    index and the body reads [bytes[i+1]].  No reading is produced and the
    call does not return. *)
Theorem handleBytes_odd_length_panics (U : util) (sio : Binary.SerialIO) (bytes : list byte) :
  Nat.odd (length bytes) = true ->
  Binary.handleBytes U sio bytes
  = ([Binary.Log Warn "Wrong number of bytes received"],
     Go.Panics (Go.IndexOutOfRange (Z.of_nat (length bytes)) (Z.of_nat (length bytes)))).
Proof.
  intros Ho. unfold Binary.handleBytes. rewrite (decode_odd bytes Ho).
  assert (Hm : (Z.of_nat (length bytes) mod 2 =? 0) = false).
  { apply Nat.odd_spec in Ho. destruct Ho as [n Hn]. rewrite Hn.
    apply Z.eqb_neq. replace (Z.of_nat (2 * n + 1)) with (1 + Z.of_nat n * 2) by lia.
    rewrite Z.mod_add by lia. discriminate. }
  rewrite Hm. reflexivity.
Qed.

(** ** The per-slider loop of [handleBytes] *)

Section BinaryLoop.
Variable U : util.
Variable d : Deej.t.

Lemma stepVols_length (data : list Binary.ArduinoData.t) :
  forall (i : nat) (vols : list Binary.VolumeData.t),
    length (stepVols U d i data vols) = length vols.
Proof.
  induction data as [| ad data IH]; intros i vols; simpl; [reflexivity |].
  rewrite IH. destruct (vols !! i); [apply length_insert | reflexivity].
Qed.

Lemma stepVols_lookup_lt (data : list Binary.ArduinoData.t) :
  forall (i j : nat) (vols : list Binary.VolumeData.t),
    (j < i)%nat -> stepVols U d i data vols !! j = vols !! j.
Proof.
  induction data as [| ad data IH]; intros i j vols Hj; simpl; [reflexivity |].
  rewrite IH by lia.
  destruct (vols !! i); [apply list_lookup_insert_ne; lia | reflexivity].
Qed.

(** Slider [i + k] ends with [newVol] of its reading and of the value stored
    before the loop. *)
Lemma stepVols_lookup (data : list Binary.ArduinoData.t) :
  forall (i k : nat) (vols : list Binary.VolumeData.t) ad cur,
    data !! k = Some ad -> vols !! (i + k)%nat = Some cur ->
    stepVols U d i data vols !! (i + k)%nat = Some (newVol U d (i + k) ad cur).
Proof.
  induction data as [| ad0 data IH]; intros i k vols ad cur Hd Hv; [discriminate |].
  destruct k as [| k]; simpl in Hd.
  - injection Hd as ->. rewrite Nat.add_0_r in *. simpl. rewrite Hv.
    rewrite stepVols_lookup_lt by lia.
    apply list_lookup_insert_eq. apply lookup_lt_Some in Hv. exact Hv.
  - simpl. replace (i + S k)%nat with (S i + k)%nat in * by lia.
    apply IH; [exact Hd |].
    destruct (vols !! i); [| exact Hv].
    rewrite list_lookup_insert_ne by lia. exact Hv.
Qed.

Lemma stepVols_lookup_ge (data : list Binary.ArduinoData.t) :
  forall (i j : nat) (vols : list Binary.VolumeData.t),
    (i + length data <= j)%nat -> stepVols U d i data vols !! j = vols !! j.
Proof.
  induction data as [| ad data IH]; intros i j vols Hj; simpl in *; [reflexivity |].
  rewrite IH by lia.
  destruct (vols !! i); [apply list_lookup_insert_ne; lia | reflexivity].
Qed.

Lemma stepEvents_insert (data : list Binary.ArduinoData.t) :
  forall (i j : nat) (vols : list Binary.VolumeData.t) v,
    (j < i)%nat -> stepEvents U d i data (<[j := v]> vols) = stepEvents U d i data vols.
Proof.
  induction data as [| ad data IH]; intros i j vols v Hj; simpl; [reflexivity |].
  rewrite list_lookup_insert_ne by lia.
  destruct (vols !! i); [| reflexivity].
  rewrite IH by lia. reflexivity.
Qed.

(** An event is in the list exactly when it is the event of a slider that
    [emits]. *)
Lemma stepEvents_In (data : list Binary.ArduinoData.t) :
  forall (i : nat) (vols : list Binary.VolumeData.t) ev,
    (i + length data <= length vols)%nat ->
    (In ev (stepEvents U d i data vols) <->
     exists k ad cur,
       data !! k = Some ad /\ vols !! (i + k)%nat = Some cur
       /\ emits U d (i + k) ad cur = true /\ ev = newEvent U d (i + k) ad).
Proof.
  induction data as [| ad0 data IH]; intros i vols ev Hlen; simpl in *.
  - split; [intros [] | intros (k & ad & cur & Hd & _); discriminate].
  - destruct (lookup_lt_is_Some_2 vols i ltac:(lia)) as [cur0 Hcur0]. rewrite Hcur0.
    rewrite in_app_iff, IH by lia. split.
    + intros [Hin | (k & ad & cur & Hd & Hv & He & Hev)].
      * exists 0%nat, ad0, cur0. rewrite Nat.add_0_r.
        destruct (emits U d i ad0 cur0) eqn:E; [| destruct Hin].
        destruct Hin as [<- | []]. repeat split; assumption.
      * exists (S k), ad, cur. replace (i + S k)%nat with (S i + k)%nat by lia.
        repeat split; assumption.
    + intros (k & ad & cur & Hd & Hv & He & Hev). destruct k as [| k].
      * left. rewrite Nat.add_0_r in *. simpl in Hd. injection Hd as ->.
        rewrite Hcur0 in Hv. injection Hv as ->. rewrite He. left. symmetry. exact Hev.
      * right. exists k, ad, cur. replace (S i + k)%nat with (i + S k)%nat by lia.
        repeat split; assumption.
Qed.

Lemma sends_app (a b : list Binary.effect) :
  Binary.sends (a ++ b) = Binary.sends a ++ Binary.sends b.
Proof. unfold Binary.sends. apply flat_map_app. Qed.

(** When the arrays are long enough and the first value does not trip the
    malformed-line test, the loop runs to completion and computes
    [stepVols] and [stepEvents]; it only logs, the events are sent after it. *)
Lemma rangeData_completes (data : list Binary.ArduinoData.t) :
  forall (i : nat) (vols : list Binary.VolumeData.t) (evs : list Binary.SliderEvent.t),
    (i + length data <= length vols)%nat ->
    (i = 0%nat -> forall ad, head data = Some ad -> Binary.ArduinoData.Value ad <= 1023) ->
    exists tr,
      Binary.rangeData U d i data vols evs
      = (tr, Go.Returns {| Binary.exit := Binary.Completed;
                           Binary.vols := stepVols U d i data vols;
                           Binary.sliderEvents := evs ++ stepEvents U d i data vols |})
      /\ Binary.sends tr = [].
Proof.
  induction data as [| ad data IH]; intros i vols evs Hlen Hfirst.
  - exists []. simpl. rewrite app_nil_r. split; reflexivity.
  - cbn [Binary.rangeData stepVols stepEvents]. cbn [length] in Hlen.
    assert (Hguard : Nat.eqb i 0 && (1023 <? Binary.ArduinoData.Value ad) = false).
    { destruct (Nat.eqb_spec i 0) as [-> | Hne]; [| reflexivity].
      simpl. apply Z.ltb_ge. apply Hfirst; reflexivity. }
    rewrite Hguard.
    destruct (lookup_lt_is_Some_2 vols i ltac:(lia)) as [cur Hcur]. rewrite Hcur.
    unfold newVol. fold (emits U d i ad cur).
    destruct (emits U d i ad cur) eqn:E.
    + match goal with
      | |- context [Binary.rangeData U d (S i) data ?v ?e] =>
          destruct (IH (S i) v e) as (tr & Htr & Hlogs);
            [rewrite length_insert; lia | intros; lia |]
      end.
      rewrite Htr. eexists. split.
      * rewrite stepEvents_insert by lia. rewrite <- app_assoc. reflexivity.
      * rewrite sends_app, Hlogs.
        destruct (Deej.Verbose d); reflexivity.
    + destruct (IH (S i) vols evs) as (tr & Htr & Hlogs); [lia | intros; lia |].
      rewrite Htr. exists tr. split; [| exact Hlogs].
      rewrite list_insert_id by exact Hcur. reflexivity.
Qed.

End BinaryLoop.

(** ** [handleBytes] as a whole *)

Lemma binary_sends_deliver (consumers : list chan) (evs : list Binary.SliderEvent.t) :
  Binary.sends (Binary.deliver consumers evs) = broadcast consumers evs.
Proof.
  unfold Binary.deliver, broadcast.
  induction consumers as [| c cs IH]; [reflexivity |].
  cbn [flat_map]. rewrite sends_app, IH. f_equal. clear IH.
  induction evs as [| ev evs IHe]; [reflexivity |].
  simpl. f_equal. exact IHe.
Qed.

Lemma broadcast_In {E : Type} (consumers : list chan) (events : list E) c ev :
  In (c, ev) (broadcast consumers events) <-> In c consumers /\ In ev events.
Proof.
  unfold broadcast. rewrite in_flat_map. split.
  - intros (c' & Hc & Hin). apply in_map_iff in Hin.
    destruct Hin as (ev' & Heq & Hev). injection Heq as -> ->. split; assumption.
  - intros [Hc Hev]. exists c. split; [exact Hc |].
    apply in_map_iff. exists ev. split; [reflexivity | exact Hev].
Qed.

Lemma resetVolumeDatas_length (n : nat) : length (Binary.resetVolumeDatas n) = n.
Proof. unfold Binary.resetVolumeDatas. rewrite length_map. apply length_replicate. Qed.

(** After the reset every entry is the sentinel [-1.0], unmuted. *)
Lemma resetVolumeDatas_lookup (n k : nat) :
  (k < n)%nat ->
  Binary.resetVolumeDatas n !! k
  = Some {| Binary.VolumeData.Value := -1; Binary.VolumeData.Mute := false |}.
Proof.
  intros Hk. unfold Binary.resetVolumeDatas.
  rewrite list_lookup_fmap, lookup_replicate_2 by exact Hk. reflexivity.
Qed.

(** The arrays are long enough for the frame once the count is up to date. *)
Lemma updateSliderCount_length (sio : Binary.SerialIO) (n : nat) :
  binary_wf sio ->
  (n <= length (Binary.currentVolumeDatas (fst (Binary.updateSliderCount sio n))))%nat.
Proof.
  intros Hwf. unfold Binary.updateSliderCount.
  destruct (Z.eqb_spec (Z.of_nat n) (Binary.lastKnownNumSliders sio)) as [He | Hne]; simpl.
  - destruct Hwf as [H0 | Hl]; lia.
  - rewrite resetVolumeDatas_length. lia.
Qed.

Lemma binary_sends_updateSliderCount (sio : Binary.SerialIO) (n : nat) :
  Binary.sends (snd (Binary.updateSliderCount sio n)) = [].
Proof.
  unfold Binary.updateSliderCount.
  destruct (negb (Z.of_nat n =? Binary.lastKnownNumSliders sio)); reflexivity.
Qed.

(** On a well-formed tracker every frame of even length is processed to the
    end: the call returns, the stored values are [stepVols] of the readings,
    and what is sent is every event of [stepEvents] to every consumer. *)
Lemma handleBytes_returns (U : util) (sio : Binary.SerialIO) (bytes : list byte) :
  binary_wf sio ->
  Nat.even (length bytes) = true ->
  let data := map Binary.unpack (words bytes) in
  let sio1 := fst (Binary.updateSliderCount sio (length data)) in
  exists tr,
    Binary.handleBytes U sio bytes
    = (tr, Go.Returns
             (Binary.set_sliders sio1 (Binary.lastKnownNumSliders sio1)
                (stepVols U (Binary.deej sio) 0 data (Binary.currentVolumeDatas sio1))))
    /\ Binary.sends tr
       = broadcast (Binary.sliderMoveConsumers sio)
           (stepEvents U (Binary.deej sio) 0 data (Binary.currentVolumeDatas sio1)).
Proof.
  intros Hwf He data sio1.
  destruct (decode_even bytes He) as [Hdec _].
  unfold Binary.handleBytes. rewrite Hdec. fold data.
  pose proof (binary_sends_updateSliderCount sio (length data)) as Hl2.
  pose proof (updateSliderCount_length sio (length data) Hwf) as Hlen.
  fold sio1 in Hlen.
  destruct (Binary.updateSliderCount sio (length data)) as [s1 tr2] eqn:Eu.
  simpl in sio1, Hl2. subst sio1.
  destruct (rangeData_completes U (Binary.deej sio) data 0
              (Binary.currentVolumeDatas s1) []) as (tr3 & Hr & Hl3).
  - simpl. exact Hlen.
  - intros _ ad Hhd. subst data. destruct (words bytes) as [| w ws]; [discriminate |].
    simpl in Hhd. injection Hhd as <-. apply unpack_Value_range.
  - rewrite Hr. cbn [Binary.exit Binary.vols Binary.sliderEvents app].
    eexists. split; [reflexivity |].
    rewrite !sends_app, Hl2, Hl3, binary_sends_deliver.
    destruct (negb (Z.of_nat (length bytes) mod 2 =? 0)); reflexivity.
Qed.

(** ** The per-slider loop of [handleLine] *)

Section LineLoop.
Variable U : util.
Variable d : Deej.t.

Lemma lineStepVals_length (fields : list (list ascii)) :
  forall (i : nat) (vals : list Q), length (lineStepVals U d i fields vals) = length vals.
Proof.
  induction fields as [| f fields IH]; intros i vals; simpl; [reflexivity |].
  rewrite IH. destruct (vals !! i); [apply length_insert | reflexivity].
Qed.

Lemma lineStepVals_lookup_lt (fields : list (list ascii)) :
  forall (i j : nat) (vals : list Q),
    (j < i)%nat -> lineStepVals U d i fields vals !! j = vals !! j.
Proof.
  induction fields as [| f fields IH]; intros i j vals Hj; simpl; [reflexivity |].
  rewrite IH by lia.
  destruct (vals !! i); [apply list_lookup_insert_ne; lia | reflexivity].
Qed.

Lemma lineStepVals_lookup (fields : list (list ascii)) :
  forall (i k : nat) (vals : list Q) field cur,
    fields !! k = Some field -> vals !! (i + k)%nat = Some cur ->
    lineStepVals U d i fields vals !! (i + k)%nat = Some (lineNewVal U d field cur).
Proof.
  induction fields as [| f0 fields IH]; intros i k vals field cur Hf Hv; [discriminate |].
  destruct k as [| k]; simpl in Hf.
  - injection Hf as ->. rewrite Nat.add_0_r in *. simpl. rewrite Hv.
    rewrite lineStepVals_lookup_lt by lia.
    apply list_lookup_insert_eq. apply lookup_lt_Some in Hv. exact Hv.
  - simpl. replace (i + S k)%nat with (S i + k)%nat in * by lia.
    apply IH; [exact Hf |].
    destruct (vals !! i); [| exact Hv].
    rewrite list_lookup_insert_ne by lia. exact Hv.
Qed.

Lemma lineStepEvents_insert (fields : list (list ascii)) :
  forall (i j : nat) (vals : list Q) v,
    (j < i)%nat -> lineStepEvents U d i fields (<[j := v]> vals) = lineStepEvents U d i fields vals.
Proof.
  induction fields as [| f fields IH]; intros i j vals v Hj; simpl; [reflexivity |].
  rewrite list_lookup_insert_ne by lia.
  destruct (vals !! i); [| reflexivity].
  rewrite IH by lia. reflexivity.
Qed.

Lemma lineStepEvents_In (fields : list (list ascii)) :
  forall (i : nat) (vals : list Q) ev,
    (i + length fields <= length vals)%nat ->
    (In ev (lineStepEvents U d i fields vals) <->
     exists k field cur,
       fields !! k = Some field /\ vals !! (i + k)%nat = Some cur
       /\ lineEmits U d field cur = true /\ ev = lineNewEvent U d (i + k) field).
Proof.
  induction fields as [| f0 fields IH]; intros i vals ev Hlen; simpl in *.
  - split; [intros [] | intros (k & f & cur & Hf & _); discriminate].
  - destruct (lookup_lt_is_Some_2 vals i ltac:(lia)) as [cur0 Hcur0]. rewrite Hcur0.
    rewrite in_app_iff, IH by lia. split.
    + intros [Hin | (k & f & cur & Hf & Hv & He & Hev)].
      * exists 0%nat, f0, cur0. rewrite Nat.add_0_r.
        destruct (lineEmits U d f0 cur0) eqn:E; [| destruct Hin].
        destruct Hin as [<- | []]. repeat split; assumption.
      * exists (S k), f, cur. replace (i + S k)%nat with (S i + k)%nat by lia.
        repeat split; assumption.
    + intros (k & f & cur & Hf & Hv & He & Hev). destruct k as [| k].
      * left. rewrite Nat.add_0_r in *. simpl in Hf. injection Hf as ->.
        rewrite Hcur0 in Hv. injection Hv as ->. rewrite He. left. symmetry. exact Hev.
      * right. exists k, f, cur. replace (S i + k)%nat with (i + S k)%nat by lia.
        repeat split; assumption.
Qed.

Lemma line_sends_app (a b : list Line.effect) :
  Line.sends (a ++ b) = Line.sends a ++ Line.sends b.
Proof. unfold Line.sends. apply flat_map_app. Qed.

(** A first value above 1023 leaves the loop at once, before anything is
    read from or written to the stored values. *)
Lemma rangeSplitLine_returned (first : list ascii) (rest : list (list ascii))
    (vals : list Q) (evs : list Line.SliderMoveEvent.t) :
  1023 < fst (strconv.Atoi first) ->
  Line.rangeSplitLine U d 0 (first :: rest) vals evs
  = ([Line.Log Debug "Got malformed line from serial, ignoring"],
     Go.Returns {| Line.exit := Line.Returned; Line.vals := vals; Line.moveEvents := evs |}).
Proof.
  intros H. cbn [Line.rangeSplitLine].
  apply Z.ltb_lt in H. rewrite H. reflexivity.
Qed.

Lemma rangeSplitLine_completes (fields : list (list ascii)) :
  forall (i : nat) (vals : list Q) (evs : list Line.SliderMoveEvent.t),
    (i + length fields <= length vals)%nat ->
    (i = 0%nat -> forall f, head fields = Some f -> fst (strconv.Atoi f) <= 1023) ->
    exists tr,
      Line.rangeSplitLine U d i fields vals evs
      = (tr, Go.Returns {| Line.exit := Line.Completed;
                           Line.vals := lineStepVals U d i fields vals;
                           Line.moveEvents := evs ++ lineStepEvents U d i fields vals |})
      /\ Line.sends tr = [].
Proof.
  induction fields as [| f fields IH]; intros i vals evs Hlen Hfirst.
  - exists []. simpl. rewrite app_nil_r. split; reflexivity.
  - cbn [Line.rangeSplitLine lineStepVals lineStepEvents]. cbn [length] in Hlen.
    assert (Hguard : Nat.eqb i 0 && (1023 <? fst (strconv.Atoi f)) = false).
    { destruct (Nat.eqb_spec i 0) as [-> | Hne]; [| reflexivity].
      simpl. apply Z.ltb_ge. apply Hfirst; reflexivity. }
    rewrite Hguard.
    destruct (lookup_lt_is_Some_2 vals i ltac:(lia)) as [cur Hcur]. rewrite Hcur.
    unfold lineNewVal. fold (lineEmits U d f cur).
    destruct (lineEmits U d f cur) eqn:E.
    + match goal with
      | |- context [Line.rangeSplitLine U d (S i) fields ?v ?e] =>
          destruct (IH (S i) v e) as (tr & Htr & Hlogs);
            [rewrite length_insert; lia | intros; lia |]
      end.
      rewrite Htr. eexists. split.
      * rewrite lineStepEvents_insert by lia. rewrite <- app_assoc. reflexivity.
      * rewrite line_sends_app, Hlogs. destruct (Deej.Verbose d); reflexivity.
    + destruct (IH (S i) vals evs) as (tr & Htr & Hlogs); [lia | intros; lia |].
      rewrite Htr. exists tr. split; [| exact Hlogs].
      rewrite list_insert_id by exact Hcur. reflexivity.
Qed.

End LineLoop.

(** ** [handleLine] as a whole *)

Lemma Split_nonempty (s : list ascii) (sep : ascii) :
  exists first rest, strings.Split s sep = first :: rest.
Proof.
  destruct s as [| c s]; simpl; [eauto |].
  destruct (Ascii.eqb c sep); [eauto |].
  destruct (strings.Split s sep); eauto.
Qed.

Lemma line_set_sliders_id (sio : Line.SerialIO) :
  Line.set_sliders sio (Line.lastKnownNumSliders sio) (Line.currentSliderPercentValues sio) = sio.
Proof. destruct sio. reflexivity. Qed.

Lemma line_sends_deliver (consumers : list chan) (evs : list Line.SliderMoveEvent.t) :
  Line.sends (Line.deliver consumers evs) = broadcast consumers evs.
Proof.
  unfold Line.deliver, broadcast.
  induction consumers as [| c cs IH]; [reflexivity |].
  cbn [flat_map]. rewrite line_sends_app, IH. f_equal. clear IH.
  induction evs as [| ev evs IHe]; [reflexivity |].
  simpl. f_equal. exact IHe.
Qed.

Lemma line_sends_updateSliderCount (sio : Line.SerialIO) (n : nat) :
  Line.sends (snd (Line.updateSliderCount sio n)) = [].
Proof.
  unfold Line.updateSliderCount.
  destruct (negb (Z.of_nat n =? Line.lastKnownNumSliders sio)); reflexivity.
Qed.

Lemma line_updateSliderCount_length (sio : Line.SerialIO) (n : nat) :
  line_wf sio ->
  (n <= length (Line.currentSliderPercentValues (fst (Line.updateSliderCount sio n))))%nat.
Proof.
  intros Hwf. unfold Line.updateSliderCount.
  destruct (Z.eqb_spec (Z.of_nat n) (Line.lastKnownNumSliders sio)) as [He | Hne]; simpl.
  - destruct Hwf as [H0 | Hl]; lia.
  - rewrite length_map, length_replicate. lia.
Qed.

(** A unit the pattern rejects is dropped on the spot. *)
Lemma handleLine_discards (U : util) (sio : Line.SerialIO) (line : list ascii) :
  Regexp.MatchString Line.expectedLinePattern line = false ->
  Line.handleLine U sio line = ([], Go.Returns sio).
Proof. intros H. unfold Line.handleLine. rewrite H. reflexivity. Qed.

(** A matching line whose first value is above 1023: the slider count is
    brought up to date, then the frame is dropped. *)
Lemma handleLine_dropped (U : util) (sio : Line.SerialIO) (line : list ascii) first rest :
  Regexp.MatchString Line.expectedLinePattern line = true ->
  fieldsOf line = first :: rest ->
  1023 < fst (strconv.Atoi first) ->
  exists tr,
    Line.handleLine U sio line
    = (tr, Go.Returns (fst (Line.updateSliderCount sio (length (first :: rest)))))
    /\ Line.sends tr = [].
Proof.
  intros Hm Hf Hbig. unfold Line.handleLine. rewrite Hm. cbn [negb].
  change (strings.Split (strings.TrimSuffix line _) "|"%char) with (fieldsOf line).
  rewrite Hf.
  pose proof (line_sends_updateSliderCount sio (length (first :: rest))) as Hl.
  destruct (Line.updateSliderCount sio (length (first :: rest))) as [s1 tr1].
  rewrite rangeSplitLine_returned by exact Hbig.
  cbn [Line.exit Line.vals fst snd] in *.
  rewrite line_set_sliders_id. eexists. split; [reflexivity |].
  rewrite line_sends_app, Hl. reflexivity.
Qed.

(** A matching line whose first value is at most 1023 is processed to the
    end on a well-formed tracker. *)
Lemma handleLine_processed (U : util) (sio : Line.SerialIO) (line : list ascii) first rest :
  line_wf sio ->
  Regexp.MatchString Line.expectedLinePattern line = true ->
  fieldsOf line = first :: rest ->
  fst (strconv.Atoi first) <= 1023 ->
  let sio1 := fst (Line.updateSliderCount sio (length (first :: rest))) in
  exists tr,
    Line.handleLine U sio line
    = (tr, Go.Returns
             (Line.set_sliders sio1 (Line.lastKnownNumSliders sio1)
                (lineStepVals U (Line.deej sio) 0 (first :: rest)
                   (Line.currentSliderPercentValues sio1))))
    /\ Line.sends tr
       = broadcast (Line.sliderMoveConsumers sio)
           (lineStepEvents U (Line.deej sio) 0 (first :: rest)
              (Line.currentSliderPercentValues sio1)).
Proof.
  intros Hwf Hm Hf Hsmall sio1. unfold Line.handleLine. rewrite Hm. cbn [negb].
  change (strings.Split (strings.TrimSuffix line _) "|"%char) with (fieldsOf line).
  rewrite Hf.
  pose proof (line_sends_updateSliderCount sio (length (first :: rest))) as Hl.
  pose proof (line_updateSliderCount_length sio (length (first :: rest)) Hwf) as Hlen.
  fold sio1 in Hlen.
  destruct (Line.updateSliderCount sio (length (first :: rest))) as [s1 tr1] eqn:Eu.
  simpl in sio1, Hl. subst sio1.
  destruct (rangeSplitLine_completes U (Line.deej sio) (first :: rest) 0
              (Line.currentSliderPercentValues s1) []) as (tr2 & Hr & Hl2).
  - simpl. exact Hlen.
  - intros _ f Hhd. simpl in Hhd. injection Hhd as <-. exact Hsmall.
  - rewrite Hr. cbn [Line.exit Line.vals Line.moveEvents app].
    eexists. split; [reflexivity |].
    rewrite !line_sends_app, Hl, Hl2, line_sends_deliver. reflexivity.
Qed.

(** ** Frames dropped for a malformed first value *)

Lemma decode_Returns_inv (bytes : list byte) (data : list Binary.ArduinoData.t) :
  Binary.decode bytes = Go.Returns data -> data = map Binary.unpack (words bytes).
Proof.
  intros H. destruct (Nat.even (length bytes)) eqn:E.
  - destruct (decode_even bytes E) as [Hd _]. rewrite Hd in H. injection H as <-. reflexivity.
  - assert (Ho : Nat.odd (length bytes) = true) by (unfold Nat.odd; rewrite E; reflexivity).
    rewrite (decode_odd bytes Ho) in H. discriminate.
Qed.

Lemma line_reset_values (n : nat) :
  map (fun _ : Q => (-1)%Q) (replicate n 0%Q) = replicate n (-1)%Q.
Proof. induction n as [| n IH]; simpl; [reflexivity | f_equal; exact IH]. Qed.

(** C3 (as amended).  A line whose first parsed value is greater than 1023
    sends no event to any consumer and takes no value from its readings.  The
    slider count is compared before the value is tested: when the line has as
    many fields as the last known count the tracker is left exactly as it was,
    otherwise the count becomes the number of fields and every stored value
    becomes the sentinel -1.0, the rest of the tracker being untouched.  A
    value decoded from a binary frame lies in [-1024, 1023], so the test on
    the first value never fires there. *)
Theorem dirty_first_value_drops_frame (U : util) (sio : Line.SerialIO)
    (line first : list ascii) (rest : list (list ascii)) :
  Regexp.MatchString Line.expectedLinePattern line = true ->
  fieldsOf line = first :: rest ->
  1023 < fst (strconv.Atoi first) ->
  (exists tr sio',
     Line.handleLine U sio line = (tr, Go.Returns sio')
     /\ Line.sends tr = []
     /\ (Z.of_nat (length (first :: rest)) = Line.lastKnownNumSliders sio -> sio' = sio)
     /\ (Z.of_nat (length (first :: rest)) <> Line.lastKnownNumSliders sio ->
         sio' = Line.set_sliders sio (Z.of_nat (length (first :: rest)))
                  (replicate (length (first :: rest)) (-1)%Q)))
  /\ (forall bytes data ad,
        Binary.decode bytes = Go.Returns data -> In ad data ->
        -1024 <= Binary.ArduinoData.Value ad <= 1023).
Proof.
  intros Hm Hf Hbig. split.
  - destruct (handleLine_dropped U sio line first rest Hm Hf Hbig) as (tr & Hh & Hs).
    exists tr, (fst (Line.updateSliderCount sio (length (first :: rest)))).
    split; [exact Hh |]. split; [exact Hs |].
    unfold Line.updateSliderCount.
    destruct (Z.eqb_spec (Z.of_nat (length (first :: rest))) (Line.lastKnownNumSliders sio))
      as [He | Hne]; cbn [negb fst].
    + split; [reflexivity | intros Hc; contradiction].
    + split; [intros Hc; contradiction |]. intros _. rewrite line_reset_values. reflexivity.
  - intros bytes data ad Hd Hin. apply decode_Returns_inv in Hd. subst data.
    apply in_map_iff in Hin. destruct Hin as (w & <- & _). apply unpack_Value_range.
Qed.

Lemma dirty_first_value_drops_frame_witness :
  exists tr sio',
    Line.handleLine exampleUtil fiveSliders dirtyLine = (tr, Go.Returns sio')
    /\ Line.sends tr = []
    /\ (Z.of_nat 3 = Line.lastKnownNumSliders fiveSliders -> sio' = fiveSliders)
    /\ (Z.of_nat 3 <> Line.lastKnownNumSliders fiveSliders ->
        sio' = Line.set_sliders fiveSliders (Z.of_nat 3) (replicate 3 (-1)%Q)).
Proof.
  apply (dirty_first_value_drops_frame exampleUtil fiveSliders dirtyLine
           (Go.str "4558") [Go.str "925"; Go.str "41"]).
  - vm_compute. reflexivity.
  - vm_compute. reflexivity.
  - vm_compute. reflexivity.
Defined.

(** C3, the claim as written fails: the line ["4558|925|41"] arriving at a
    tracker that knows five sliders is dropped without an event, but the
    tracker is not left alone: its count becomes 3 and its stored values are
    reset to the sentinel. *)
Lemma dirty_frame_resets_tracker :
  1023 < fst (strconv.Atoi (Go.str "4558"))
  /\ exists tr sio',
       Line.handleLine exampleUtil fiveSliders dirtyLine = (tr, Go.Returns sio')
       /\ Line.sends tr = []
       /\ Line.lastKnownNumSliders fiveSliders = 5
       /\ Line.lastKnownNumSliders sio' = 3
       /\ Line.currentSliderPercentValues sio' = [(-1)%Q; (-1)%Q; (-1)%Q]
       /\ sio' <> fiveSliders.
Proof.
  split; [vm_compute; reflexivity |].
  eexists. eexists. split; [vm_compute; reflexivity |].
  repeat split.
  intros H. apply (f_equal Line.lastKnownNumSliders) in H. discriminate H.
Qed.

(** ** Which sliders report, and what a report does to the stored state *)

Lemma Qltb_lt (a b : Q) : Go.Qltb a b = true <-> (a < b)%Q.
Proof.
  unfold Go.Qltb. rewrite negb_true_iff. split.
  - intros H. apply Qnot_le_lt. intros Hle. apply Qle_bool_iff in Hle. congruence.
  - intros H. destruct (Qle_bool b a) eqn:E; [| reflexivity].
    apply Qle_bool_iff in E. exfalso. exact (Qlt_not_le _ _ H E).
Qed.

Lemma newEvent_inj (U : util) (d : Deej.t) (k k' : nat) ad ad' :
  newEvent U d k ad = newEvent U d k' ad' -> k = k'.
Proof.
  intros H. apply (f_equal Binary.SliderEvent.SliderID) in H. simpl in H. lia.
Qed.

(** Slider by slider: on a well-formed tracker a frame of even length leaves
    slider [k] with [newVol] of its reading, and an event reaches a consumer
    exactly when it is the event of a slider that [emits]. *)
Lemma handleBytes_per_slider (U : util) (sio : Binary.SerialIO) (bytes : list byte) :
  binary_wf sio ->
  Nat.even (length bytes) = true ->
  let data := map Binary.unpack (words bytes) in
  let sio1 := fst (Binary.updateSliderCount sio (length data)) in
  exists tr sio',
    Binary.handleBytes U sio bytes = (tr, Go.Returns sio')
    /\ (forall k ad cur,
          data !! k = Some ad -> Binary.currentVolumeDatas sio1 !! k = Some cur ->
          Binary.currentVolumeDatas sio' !! k = Some (newVol U (Binary.deej sio) k ad cur))
    /\ (forall c ev,
          In (c, ev) (Binary.sends tr) <->
          In c (Binary.sliderMoveConsumers sio)
          /\ exists k ad cur,
               data !! k = Some ad /\ Binary.currentVolumeDatas sio1 !! k = Some cur
               /\ emits U (Binary.deej sio) k ad cur = true
               /\ ev = newEvent U (Binary.deej sio) k ad).
Proof.
  intros Hwf He data sio1.
  destruct (handleBytes_returns U sio bytes Hwf He) as (tr & Hh & Hs).
  fold data in Hh, Hs. fold sio1 in Hh, Hs.
  eexists. eexists. split; [exact Hh |]. split.
  - intros k ad cur Hd Hv. cbn [Binary.set_sliders Binary.currentVolumeDatas].
    apply (stepVols_lookup U (Binary.deej sio) data 0 k); assumption.
  - intros c ev. rewrite Hs, broadcast_In.
    rewrite (stepEvents_In U (Binary.deej sio) data 0).
    + reflexivity.
    + simpl. apply updateSliderCount_length. exact Hwf.
Qed.

(** C10.  In the binary engine every event that is sent for a slider comes
    with a flip of that slider's stored [Mute] flag; this includes the event
    of a reading whose [ToggleMute] is false and whose value differs
    significantly from the stored one. *)
Theorem every_event_flips_mute (U : util) (sio : Binary.SerialIO) (bytes : list byte) :
  binary_wf sio ->
  Nat.even (length bytes) = true ->
  let data := map Binary.unpack (words bytes) in
  let sio1 := fst (Binary.updateSliderCount sio (length data)) in
  exists tr sio',
    Binary.handleBytes U sio bytes = (tr, Go.Returns sio')
    /\ forall k ad cur,
         data !! k = Some ad -> Binary.currentVolumeDatas sio1 !! k = Some cur ->
         ((exists c, In (c, newEvent U (Binary.deej sio) k ad) (Binary.sends tr)) ->
          exists cur',
            Binary.currentVolumeDatas sio' !! k = Some cur'
            /\ Binary.VolumeData.Mute cur' = negb (Binary.VolumeData.Mute cur))
         /\ (SignificantlyDifferent U (Binary.VolumeData.Value cur)
               (Binary.normalizedScalar U (Binary.deej sio) (Z.of_nat k)
                  (Binary.ArduinoData.Value ad))
               (CanonicalConfig.NoiseReductionLevel (Deej.config (Binary.deej sio))) = true ->
             Binary.ArduinoData.ToggleMute ad = false ->
             (forall c, In c (Binary.sliderMoveConsumers sio) ->
                        In (c, newEvent U (Binary.deej sio) k ad) (Binary.sends tr))
             /\ exists cur',
                  Binary.currentVolumeDatas sio' !! k = Some cur'
                  /\ Binary.VolumeData.Mute cur' = negb (Binary.VolumeData.Mute cur)).
Proof.
  intros Hwf He data sio1.
  destruct (handleBytes_per_slider U sio bytes Hwf He) as (tr & sio' & Hh & Hvol & Hev).
  fold data in Hvol, Hev. fold sio1 in Hvol, Hev.
  exists tr, sio'. split; [exact Hh |].
  intros k ad cur Hd Hv. specialize (Hvol k ad cur Hd Hv).
  assert (Hflip : emits U (Binary.deej sio) k ad cur = true ->
                  exists cur',
                    Binary.currentVolumeDatas sio' !! k = Some cur'
                    /\ Binary.VolumeData.Mute cur' = negb (Binary.VolumeData.Mute cur)).
  { intros E. eexists. split; [exact Hvol |]. unfold newVol. rewrite E. reflexivity. }
  split.
  - intros [c Hin]. apply Hev in Hin.
    destruct Hin as (_ & k' & ad' & cur' & Hd' & Hv' & E & Heq).
    apply newEvent_inj in Heq. subst k'.
    rewrite Hd in Hd'. injection Hd' as <-. rewrite Hv in Hv'. injection Hv' as <-.
    apply Hflip. exact E.
  - intros Hsd Htm.
    assert (E : emits U (Binary.deej sio) k ad cur = true)
      by (unfold emits; rewrite Hsd; reflexivity).
    split; [| apply Hflip; exact E].
    intros c Hc. apply Hev. split; [exact Hc |].
    exists k, ad, cur. repeat split; assumption.
Qed.

Lemma every_event_flips_mute_witness :
  binary_wf oneSliderAtZero
  /\ Nat.even (length frame512) = true
  /\ exists tr sio',
       Binary.handleBytes exampleUtil oneSliderAtZero frame512 = (tr, Go.Returns sio')
       /\ Binary.ArduinoData.ToggleMute (Binary.unpack (Binary.packWord x02 x00)) = false
       /\ (exists c ev, In (c, ev) (Binary.sends tr))
       /\ exists cur',
            Binary.currentVolumeDatas sio' !! 0%nat = Some cur'
            /\ Binary.VolumeData.Mute cur' = negb false.
Proof.
  assert (Hwf : binary_wf oneSliderAtZero) by (right; reflexivity).
  assert (He : Nat.even (length frame512) = true) by reflexivity.
  split; [exact Hwf |]. split; [exact He |].
  destruct (every_event_flips_mute exampleUtil oneSliderAtZero frame512 Hwf He)
    as (tr & sio' & Hh & Hall).
  specialize (Hall 0%nat (Binary.unpack (Binary.packWord x02 x00))
                {| Binary.VolumeData.Value := 0; Binary.VolumeData.Mute := false |}
                eq_refl eq_refl).
  destruct Hall as [_ Hplain].
  destruct Hplain as [Hsent Hflip]; [vm_compute; reflexivity | vm_compute; reflexivity |].
  exists tr, sio'. split; [exact Hh |]. split; [vm_compute; reflexivity |].
  split; [| exact Hflip].
  exists 7%nat. eexists. apply Hsent. left. reflexivity.
Defined.

Lemma handleLine_per_slider (U : util) (sio : Line.SerialIO) (line : list ascii) :
  line_wf sio ->
  let sio1 := fst (Line.updateSliderCount sio (length (fieldsOf line))) in
  exists tr sio',
    Line.handleLine U sio line = (tr, Go.Returns sio')
    /\ forall c ev,
         In (c, ev) (Line.sends tr) ->
         In c (Line.sliderMoveConsumers sio)
         /\ exists k field cur,
              fieldsOf line !! k = Some field
              /\ Line.currentSliderPercentValues sio1 !! k = Some cur
              /\ lineEmits U (Line.deej sio) field cur = true
              /\ ev = lineNewEvent U (Line.deej sio) k field.
Proof.
  intros Hwf sio1.
  destruct (Regexp.MatchString Line.expectedLinePattern line) eqn:Hm.
  - destruct (Split_nonempty (strings.TrimSuffix line CRLF) "|"%char) as (first & rest & Hf).
    fold (fieldsOf line) in Hf.
    destruct (Z.ltb_spec 1023 (fst (strconv.Atoi first))) as [Hbig | Hsmall].
    + destruct (handleLine_dropped U sio line first rest Hm Hf Hbig) as (tr & Hh & Hs).
      eexists. eexists. split; [exact Hh |].
      intros c ev Hin. rewrite Hs in Hin. destruct Hin.
    + destruct (handleLine_processed U sio line first rest Hwf Hm Hf Hsmall) as (tr & Hh & Hs).
      eexists. eexists. split; [exact Hh |].
      intros c ev Hin. rewrite Hs in Hin. apply broadcast_In in Hin.
      destruct Hin as [Hc Hev]. split; [exact Hc |].
      unfold sio1. rewrite Hf.
      apply (lineStepEvents_In U (Line.deej sio) (first :: rest) 0) in Hev; [exact Hev |].
      simpl. apply (line_updateSliderCount_length sio (length (first :: rest)) Hwf).
  - rewrite (handleLine_discards U sio line Hm).
    eexists. eexists. split; [reflexivity |]. intros c ev [].
Qed.

(** C4.  With [SignificantlyDifferent] as the specification describes it
    (a change is significant when [|new - old|] exceeds the threshold of the
    configured level): in the binary engine an event is sent for a slider
    only if its new value differs from the stored one by more than the
    threshold or its reading has [ToggleMute] set; a reading with
    [ToggleMute] set always has its event sent to every consumer, whatever
    the difference, and the stored [Mute] flag of its slider is flipped.  In
    the line engine an event is sent only if the new value differs from the
    stored one by more than the threshold. *)
Theorem events_need_significant_change_or_toggle
    (significantDifferenceThreshold : list ascii -> Q) (linux : bool)
    (sio : Binary.SerialIO) (bytes : list byte)
    (lsio : Line.SerialIO) (line : list ascii) :
  binary_wf sio ->
  Nat.even (length bytes) = true ->
  line_wf lsio ->
  let U := spec_util significantDifferenceThreshold linux in
  let data := map Binary.unpack (words bytes) in
  let sio1 := fst (Binary.updateSliderCount sio (length data)) in
  let lsio1 := fst (Line.updateSliderCount lsio (length (fieldsOf line))) in
  (exists tr sio',
     Binary.handleBytes U sio bytes = (tr, Go.Returns sio')
     /\ (forall c ev,
           In (c, ev) (Binary.sends tr) ->
           exists k ad cur,
             data !! k = Some ad /\ Binary.currentVolumeDatas sio1 !! k = Some cur
             /\ ev = newEvent U (Binary.deej sio) k ad
             /\ ((significantDifferenceThreshold
                    (CanonicalConfig.NoiseReductionLevel (Deej.config (Binary.deej sio)))
                  < Qabs (Binary.SliderEvent.PercentValue ev - Binary.VolumeData.Value cur))%Q
                 \/ Binary.ArduinoData.ToggleMute ad = true))
     /\ (forall k ad cur,
           data !! k = Some ad -> Binary.currentVolumeDatas sio1 !! k = Some cur ->
           Binary.ArduinoData.ToggleMute ad = true ->
           (forall c, In c (Binary.sliderMoveConsumers sio) ->
                      In (c, newEvent U (Binary.deej sio) k ad) (Binary.sends tr))
           /\ exists cur',
                Binary.currentVolumeDatas sio' !! k = Some cur'
                /\ Binary.VolumeData.Mute cur' = negb (Binary.VolumeData.Mute cur)))
  /\ (exists tr lsio',
        Line.handleLine U lsio line = (tr, Go.Returns lsio')
        /\ forall c ev,
             In (c, ev) (Line.sends tr) ->
             exists k field cur,
               fieldsOf line !! k = Some field
               /\ Line.currentSliderPercentValues lsio1 !! k = Some cur
               /\ ev = lineNewEvent U (Line.deej lsio) k field
               /\ (significantDifferenceThreshold
                     (CanonicalConfig.NoiseReductionLevel (Deej.config (Line.deej lsio)))
                   < Qabs (Line.SliderMoveEvent.PercentValue ev - cur))%Q).
Proof.
  intros Hwf He Hlwf U data sio1 lsio1. split.
  - destruct (handleBytes_per_slider U sio bytes Hwf He) as (tr & sio' & Hh & Hvol & Hev).
    fold data in Hvol, Hev. fold sio1 in Hvol, Hev.
    exists tr, sio'. split; [exact Hh |]. split.
    + intros c ev Hin. apply Hev in Hin.
      destruct Hin as (_ & k & ad & cur & Hd & Hv & E & ->).
      exists k, ad, cur. repeat split; try assumption.
      unfold emits in E. apply orb_true_iff in E. destruct E as [E | E]; [left | right; exact E].
      apply Qltb_lt in E. exact E.
    + intros k ad cur Hd Hv Htm.
      assert (E : emits U (Binary.deej sio) k ad cur = true)
        by (unfold emits; rewrite Htm; apply orb_true_r).
      split.
      * intros c Hc. apply Hev. split; [exact Hc |].
        exists k, ad, cur. repeat split; assumption.
      * eexists. split; [exact (Hvol k ad cur Hd Hv) |].
        unfold newVol. rewrite E. reflexivity.
  - destruct (handleLine_per_slider U lsio line Hlwf) as (tr & lsio' & Hh & Hev).
    fold lsio1 in Hev. exists tr, lsio'. split; [exact Hh |].
    intros c ev Hin. apply Hev in Hin.
    destruct Hin as (_ & k & field & cur & Hf & Hv & E & ->).
    exists k, field, cur. repeat split; try assumption.
    apply Qltb_lt in E. exact E.
Qed.

Lemma events_need_significant_change_or_toggle_witness :
  binary_wf oneSliderAtZero
  /\ Nat.even (length [x08; x00]) = true
  /\ line_wf freshLine
  /\ exists tr sio',
       Binary.handleBytes exampleUtil oneSliderAtZero [x08; x00] = (tr, Go.Returns sio')
       /\ In (7%nat,
              {| Binary.SliderEvent.SliderID := 0;
                 Binary.SliderEvent.PercentValue :=
                   Binary.normalizedScalar exampleUtil (Binary.deej oneSliderAtZero) 0 0;
                 Binary.SliderEvent.ToggleMute := true |})
            (Binary.sends tr)
       /\ exists cur',
            Binary.currentVolumeDatas sio' !! 0%nat = Some cur'
            /\ Binary.VolumeData.Mute cur' = negb false.
Proof.
  assert (Hwf : binary_wf oneSliderAtZero) by (right; reflexivity).
  assert (He : Nat.even (length [x08; x00]) = true) by reflexivity.
  assert (Hlwf : line_wf freshLine) by (left; reflexivity).
  split; [exact Hwf |]. split; [exact He |]. split; [exact Hlwf |].
  destruct (events_need_significant_change_or_toggle (fun _ => 25 # 1000)%Q false
              oneSliderAtZero [x08; x00] freshLine (Go.str "512" ++ CRLF) Hwf He Hlwf)
    as [(tr & sio' & Hh & _ & Htoggle) _].
  specialize (Htoggle 0%nat (Binary.unpack (Binary.packWord x08 x00))
                {| Binary.VolumeData.Value := 0; Binary.VolumeData.Mute := false |}
                eq_refl eq_refl eq_refl).
  destruct Htoggle as [Hsent Hflip].
  exists tr, sio'. split; [exact Hh |]. split; [| exact Hflip].
  apply (Hsent 7%nat). left. reflexivity.
Defined.

(** ** Resynchronisation after a change of the slider count *)

(** C5, what the code does: the sentinel -1.0 is itself a value a reading can
    produce.  The one-word frame 0x0401 carries the value -1023, which
    normalises to exactly -1.0.  Arriving at a tracker with no sliders it
    changes the slider count to 1 and resets the stored value to the
    sentinel, and then no event at all is sent, whatever the (non-negative)
    threshold: the reading is not different from the sentinel. *)
Theorem resync_misses_reading_equal_to_sentinel
    (significantDifferenceThreshold : list ascii -> Q) (linux : bool) :
  (forall level, 0 <= significantDifferenceThreshold level)%Q ->
  let U := spec_util significantDifferenceThreshold linux in
  Binary.ArduinoData.Value (Binary.unpack (Binary.packWord x04 x01)) = -1023
  /\ Binary.lastKnownNumSliders freshBinary = 0
  /\ exists tr sio',
       Binary.handleBytes U freshBinary [x04; x01] = (tr, Go.Returns sio')
       /\ Binary.lastKnownNumSliders sio' = 1
       /\ Binary.currentVolumeDatas sio'
          = [{| Binary.VolumeData.Value := -1; Binary.VolumeData.Mute := false |}]
       /\ Binary.sends tr = [].
Proof.
  intros Hthr U. split; [reflexivity |]. split; [reflexivity |].
  assert (Hwf : binary_wf freshBinary) by (left; reflexivity).
  assert (He : Nat.even (length [x04; x01]) = true) by reflexivity.
  destruct (handleBytes_returns U freshBinary [x04; x01] Hwf He) as (tr & Hh & Hs).
  assert (Hquiet :
    emits U (Binary.deej freshBinary) 0
      (Binary.unpack (Binary.packWord x04 x01))
      {| Binary.VolumeData.Value := -1; Binary.VolumeData.Mute := false |} = false).
  { unfold emits. apply orb_false_iff. split; [| reflexivity].
    destruct (SignificantlyDifferent U _ _ _) eqn:E; [| reflexivity].
    apply Qltb_lt in E. exfalso.
    apply (Qlt_not_le _ _ E). eapply Qle_trans; [| apply Hthr].
    vm_compute. discriminate. }
  eexists. eexists. split; [exact Hh |].
  cbn [Binary.set_sliders Binary.lastKnownNumSliders Binary.currentVolumeDatas].
  split; [reflexivity |]. split.
  - change (stepVols U (Binary.deej freshBinary) 0 _ _)
      with (<[0%nat := newVol U (Binary.deej freshBinary) 0
                        (Binary.unpack (Binary.packWord x04 x01))
                        {| Binary.VolumeData.Value := -1; Binary.VolumeData.Mute := false |}]>
              [{| Binary.VolumeData.Value := (-1)%Q; Binary.VolumeData.Mute := false |}]).
    unfold newVol. rewrite Hquiet. reflexivity.
  - rewrite Hs.
    change (stepEvents U (Binary.deej freshBinary) 0 _ _)
      with ((if emits U (Binary.deej freshBinary) 0
                  (Binary.unpack (Binary.packWord x04 x01))
                  {| Binary.VolumeData.Value := -1; Binary.VolumeData.Mute := false |}
             then [newEvent U (Binary.deej freshBinary) 0
                     (Binary.unpack (Binary.packWord x04 x01))]
             else []) ++ []).
    rewrite Hquiet. reflexivity.
Qed.

Lemma resync_misses_reading_equal_to_sentinel_witness :
  exists tr sio',
    Binary.handleBytes exampleUtil freshBinary [x04; x01] = (tr, Go.Returns sio')
    /\ Binary.lastKnownNumSliders sio' = 1
    /\ Binary.currentVolumeDatas sio'
       = [{| Binary.VolumeData.Value := -1; Binary.VolumeData.Mute := false |}]
    /\ Binary.sends tr = [].
Proof.
  apply (resync_misses_reading_equal_to_sentinel (fun _ => 25 # 1000)%Q false).
  intros level. vm_compute. discriminate.
Defined.

(** ** Matching by derivatives agrees with the language of an expression *)

Lemma nullable_lang (r : Regexp.regex) : Regexp.nullable r = true <-> lang r [].
Proof.
  induction r as [| | p | a IHa b IHb | a IHa b IHb | a IHa]; simpl.
  - split; [discriminate | intros []].
  - split; reflexivity.
  - split; [discriminate | intros (c & Hc & _); discriminate].
  - rewrite andb_true_iff, IHa, IHb. split.
    + intros [Ha Hb]. exists [], []. repeat split; assumption.
    + intros (s1 & s2 & Hs & Ha & Hb). symmetry in Hs.
      apply app_eq_nil in Hs. destruct Hs as [-> ->]. split; assumption.
  - rewrite orb_true_iff, IHa, IHb. reflexivity.
  - split; [| reflexivity]. intros _. exists []. split; [reflexivity | constructor].
Qed.

Lemma star_cons_inv (a : Regexp.regex) (c : ascii) (ss : list (list ascii)) :
  forall s, c :: s = concat ss -> Forall (lang a) ss ->
  exists s1 s2, s = s1 ++ s2 /\ lang a (c :: s1) /\ lang (Regexp.Star a) s2.
Proof.
  induction ss as [| x ss IH]; intros s Hs Hall; [discriminate |].
  apply Forall_cons_iff in Hall. destruct Hall as [Hx Hall].
  destruct x as [| c' x]; simpl in Hs.
  - apply IH; assumption.
  - injection Hs as <- ->. exists x, (concat ss). split; [reflexivity |].
    split; [exact Hx |]. simpl. exists ss. split; [reflexivity | exact Hall].
Qed.

Lemma deriv_lang (r : Regexp.regex) :
  forall (c : ascii) (s : list ascii), lang (Regexp.deriv c r) s <-> lang r (c :: s).
Proof.
  induction r as [| | p | a IHa b IHb | a IHa b IHb | a IHa]; intros c s.
  - simpl. reflexivity.
  - simpl. split; [intros [] | discriminate].
  - simpl. destruct (p c) eqn:E; simpl.
    + split.
      * intros ->. exists c. split; [reflexivity | exact E].
      * intros (c' & Hc & _). injection Hc as _ ->. reflexivity.
    + split; [intros [] |]. intros (c' & Hc & Hp). injection Hc as -> ->. congruence.
  - assert (Hcat : (exists s1 s2, s = s1 ++ s2 /\ lang (Regexp.deriv c a) s1 /\ lang b s2)
                   \/ (Regexp.nullable a = true /\ lang (Regexp.deriv c b) s)
                   <-> lang (Regexp.Cat a b) (c :: s)).
    { simpl. split.
      - intros [(s1 & s2 & -> & Ha & Hb) | [Hn Hb]].
        + exists (c :: s1), s2. split; [reflexivity |]. split; [apply IHa; exact Ha | exact Hb].
        + exists [], (c :: s). split; [reflexivity |].
          split; [apply nullable_lang; exact Hn | apply IHb; exact Hb].
      - intros (t1 & t2 & Ht & Ha & Hb). destruct t1 as [| c' t1]; simpl in Ht.
        + right. subst t2. split; [apply nullable_lang; exact Ha | apply IHb; exact Hb].
        + injection Ht as <- ->. left. exists t1, t2.
          split; [reflexivity |]. split; [apply IHa; exact Ha | exact Hb]. }
    rewrite <- Hcat. cbn [Regexp.deriv].
    destruct (Regexp.nullable a); simpl.
    + split.
      * intros [H | H]; [left; exact H | right; split; [reflexivity | exact H]].
      * intros [H | [_ H]]; [left; exact H | right; exact H].
    + split; [intros H; left; exact H |]. intros [H | [H _]]; [exact H | discriminate].
  - simpl. rewrite IHa, IHb. reflexivity.
  - cbn [Regexp.deriv]. split.
    + intros (s1 & s2 & -> & Ha & (ss & -> & Hall)).
      exists ((c :: s1) :: ss). split; [reflexivity |].
      constructor; [apply IHa; exact Ha | exact Hall].
    + intros (ss & Hs & Hall).
      destruct (star_cons_inv a c ss s Hs Hall) as (s1 & s2 & -> & Ha & Hstar).
      exists s1, s2. split; [reflexivity |]. split; [apply IHa; exact Ha | exact Hstar].
Qed.

Lemma MatchString_lang (s : list ascii) :
  forall r : Regexp.regex, Regexp.MatchString r s = true <-> lang r s.
Proof.
  induction s as [| c s IH]; intros r; simpl.
  - apply nullable_lang.
  - rewrite IH. apply deriv_lang.
Qed.

(** ** The language of the line pattern *)

Lemma lang_Lit (c : ascii) (s : list ascii) : lang (Regexp.Lit c) s <-> s = [c].
Proof.
  unfold Regexp.Lit. simpl. split.
  - intros (c' & -> & Hc). apply Ascii.eqb_eq in Hc. subst c'. reflexivity.
  - intros ->. exists c. split; [reflexivity | apply Ascii.eqb_refl].
Qed.

Lemma lang_Upto_digits (n : nat) :
  forall s : list ascii,
    lang (Regexp.Upto n (Regexp.Class Regexp.isDigit)) s
    <-> (length s <= n)%nat /\ Forall (fun c => Regexp.isDigit c = true) s.
Proof.
  induction n as [| n IH]; intros s.
  - simpl. split.
    + intros ->. split; [reflexivity | constructor].
    + intros [Hl _]. destruct s; [reflexivity | simpl in Hl; lia].
  - cbn [Regexp.Upto Regexp.Opt lang]. split.
    + intros [(s1 & s2 & -> & (c & -> & Hc) & H2) | ->].
      * apply IH in H2. destruct H2 as [Hl Hall]. split; [simpl; lia |].
        constructor; assumption.
      * split; [simpl; lia | constructor].
    + intros [Hl Hall]. destruct s as [| c s]; [right; reflexivity | left].
      apply Forall_cons_iff in Hall. destruct Hall as [Hc Hall].
      exists [c], s. split; [reflexivity |]. split.
      * exists c. split; [reflexivity | exact Hc].
      * apply IH. split; [simpl in Hl; lia | exact Hall].
Qed.

Lemma lang_digits1to4 (s : list ascii) : lang Regexp.digits1to4 s <-> isField s.
Proof.
  unfold Regexp.digits1to4, isField. cbn [lang]. split.
  - intros (s1 & s2 & -> & (c & -> & Hc) & H2).
    apply lang_Upto_digits in H2. destruct H2 as [Hl Hall].
    split; [simpl; lia | constructor; assumption].
  - intros [Hl Hall]. destruct s as [| c s]; [simpl in Hl; lia |].
    apply Forall_cons_iff in Hall. destruct Hall as [Hc Hall].
    exists [c], s. split; [reflexivity |]. split.
    + exists c. split; [reflexivity | exact Hc].
    + apply lang_Upto_digits. split; [simpl in Hl; lia | exact Hall].
Qed.

Lemma lang_crlf (s : list ascii) : lang Regexp.crlf s <-> s = CRLF.
Proof.
  unfold Regexp.crlf. cbn [lang]. split.
  - intros (s1 & s2 & -> & H1 & H2). apply lang_Lit in H1. apply lang_Lit in H2.
    subst. reflexivity.
  - intros ->. exists ["013"%char], ["010"%char].
    split; [reflexivity |]. split; apply lang_Lit; reflexivity.
Qed.

Lemma lang_more_fields (s : list ascii) :
  lang (Regexp.Star (Regexp.Cat (Regexp.Lit "|"%char) Regexp.digits1to4)) s
  <-> exists fs, Forall isField fs /\ s = concat (map (cons "|"%char) fs).
Proof.
  cbn [lang]. split.
  - intros (ss & -> & Hall). induction Hall as [| x ss Hx _ IH].
    + exists []. split; [constructor | reflexivity].
    + destruct IH as (fs & Hfs & Heq).
      destruct Hx as (s1 & s2 & -> & H1 & H2).
      apply lang_Lit in H1. apply lang_digits1to4 in H2. subst s1.
      exists (s2 :: fs). split; [constructor; assumption |].
      simpl. rewrite Heq. reflexivity.
  - intros (fs & Hfs & ->). exists (map (cons "|"%char) fs). split; [reflexivity |].
    induction Hfs as [| f fs Hf _ IH]; cbn [map]; constructor; [| exact IH].
    exists ["|"%char], f. split; [reflexivity |].
    split; [apply lang_Lit; reflexivity | apply lang_digits1to4; exact Hf].
Qed.

Lemma Join_cons (f : list ascii) (fs : list (list ascii)) (sep : ascii) :
  strings.Join (f :: fs) sep = f ++ concat (map (cons sep) fs).
Proof.
  revert f. induction fs as [| g fs IH]; intros f.
  - simpl. rewrite app_nil_r. reflexivity.
  - change (strings.Join (f :: g :: fs) sep) with (f ++ sep :: strings.Join (g :: fs) sep).
    rewrite IH. reflexivity.
Qed.

(** The line pattern matches exactly the terminated ['|']-joined sequences of
    one or more unsigned fields of one to four digits. *)
Lemma line_pattern_language (line : list ascii) :
  Regexp.MatchString Line.expectedLinePattern line = true
  <-> exists fields,
        fields <> [] /\ Forall isField fields /\ line = strings.Join fields "|"%char ++ CRLF.
Proof.
  rewrite MatchString_lang. unfold Line.expectedLinePattern. cbn [lang]. split.
  - intros (s1 & s2 & -> & H1 & (s3 & s4 & -> & H3 & H4)).
    assert (Hf : isField s1) by (apply lang_digits1to4; exact H1).
    assert (Hm : exists fs, Forall isField fs /\ s3 = concat (map (cons "|"%char) fs))
      by (apply lang_more_fields; exact H3).
    assert (Hc : s4 = CRLF) by (apply lang_crlf; exact H4).
    destruct Hm as (fs & Hfs & ->). subst s4.
    exists (s1 :: fs). split; [discriminate |]. split; [constructor; assumption |].
    rewrite Join_cons, <- app_assoc. reflexivity.
  - intros (fields & Hne & Hall & ->). destruct fields as [| f fs]; [contradiction |].
    apply Forall_cons_iff in Hall. destruct Hall as [Hf Hfs].
    exists f, (concat (map (cons "|"%char) fs) ++ CRLF).
    split; [rewrite Join_cons, <- app_assoc; reflexivity |].
    split; [apply lang_digits1to4; exact Hf |].
    exists (concat (map (cons "|"%char) fs)), CRLF. split; [reflexivity |].
    split; [| apply lang_crlf; reflexivity].
    assert (Hm : exists fs', Forall isField fs'
                             /\ concat (map (cons "|"%char) fs) = concat (map (cons "|"%char) fs'))
      by (exists fs; split; [exact Hfs | reflexivity]).
    apply lang_more_fields in Hm. exact Hm.
Qed.

(** ** What [handleLine] makes of a line that matches *)

Lemma TrimSuffix_app (s suffix : list ascii) :
  strings.eqb suffix suffix = true ->
  strings.TrimSuffix (s ++ suffix) suffix = s.
Proof.
  intros Hrefl. unfold strings.TrimSuffix, strings.HasSuffix.
  rewrite length_app.
  replace (length s + length suffix - length suffix)%nat with (length s) by lia.
  rewrite drop_app_length, take_app_length, Hrefl.
  destruct (Nat.leb_spec (length suffix) (length s + length suffix)); [reflexivity | lia].
Qed.

Lemma Split_no_sep (f : list ascii) (sep : ascii) :
  Forall (fun c => Ascii.eqb c sep = false) f -> strings.Split f sep = [f].
Proof.
  induction 1 as [| c f Hc _ IH]; [reflexivity |].
  simpl. rewrite Hc, IH. reflexivity.
Qed.

Lemma Split_app_sep (f rest : list ascii) (sep : ascii) :
  Forall (fun c => Ascii.eqb c sep = false) f ->
  strings.Split (f ++ sep :: rest) sep = f :: strings.Split rest sep.
Proof.
  induction 1 as [| c f Hc _ IH].
  - simpl. rewrite Ascii.eqb_refl. reflexivity.
  - simpl. rewrite Hc, IH. reflexivity.
Qed.

Lemma Split_Join (fields : list (list ascii)) (sep : ascii) :
  fields <> [] ->
  Forall (Forall (fun c => Ascii.eqb c sep = false)) fields ->
  strings.Split (strings.Join fields sep) sep = fields.
Proof.
  intros Hne Hall. induction Hall as [| f fs Hf Hfs IH]; [contradiction |].
  destruct fs as [| g fs].
  - simpl. apply Split_no_sep. exact Hf.
  - change (strings.Join (f :: g :: fs) sep) with (f ++ sep :: strings.Join (g :: fs) sep).
    rewrite Split_app_sep by exact Hf. f_equal. apply IH. discriminate.
Qed.

Lemma digit_is_not_bar (c : ascii) : Regexp.isDigit c = true -> Ascii.eqb c "|"%char = false.
Proof.
  intros H. destruct (Ascii.eqb_spec c "|"%char) as [-> | _]; [discriminate H | reflexivity].
Qed.

Lemma fieldsOf_Join (fields : list (list ascii)) :
  fields <> [] -> Forall isField fields ->
  fieldsOf (strings.Join fields "|"%char ++ CRLF) = fields.
Proof.
  intros Hne Hall. unfold fieldsOf. rewrite TrimSuffix_app by reflexivity.
  apply Split_Join; [exact Hne |].
  eapply Forall_impl; [exact Hall |].
  intros f [_ Hd]. eapply Forall_impl; [exact Hd |].
  intros c Hc. apply digit_is_not_bar. exact Hc.
Qed.

Lemma digit_value (c : ascii) :
  Regexp.isDigit c = true -> 0 <= Z.of_nat (nat_of_ascii c) - 48 <= 9.
Proof.
  unfold Regexp.isDigit. intros H. apply andb_true_iff in H. destruct H as [H1 H2].
  apply Nat.leb_le in H1. apply Nat.leb_le in H2. lia.
Qed.

(** A field of the pattern is read by [Atoi] without error, as a number
    between 0 and 9999. *)
Lemma Atoi_field (f : list ascii) :
  isField f ->
  snd (strconv.Atoi f) = false /\ 0 <= fst (strconv.Atoi f) <= 9999.
Proof.
  intros [Hlen Hd].
  assert (Hv : strconv.Atoi f = (strconv.digitsValue f, false)
               /\ 0 <= strconv.digitsValue f <= 9999).
  { assert (Hb : 0 <= strconv.digitsValue f <= 9999).
    { unfold strconv.digitsValue.
      destruct f as [| c1 [| c2 [| c3 [| c4 [| c5 f]]]]]; simpl in Hlen; try lia;
        repeat match goal with
               | H : Forall _ (_ :: _) |- _ =>
                   apply Forall_cons_iff in H; destruct H as [?%digit_value ?]
               end; simpl; lia. }
    split; [| exact Hb].
    destruct f as [| c f]; [simpl in Hlen; lia |].
    pose proof Hd as Hd'. apply Forall_cons_iff in Hd'. destruct Hd' as [Hc _].
    assert (Hall : forallb Regexp.isDigit (c :: f) = true).
    { apply forallb_forall. intros x Hx. rewrite Forall_forall in Hd.
      apply Hd. apply list_elem_of_In. exact Hx. }
    unfold strconv.Atoi.
    destruct c as [[] [] [] [] [] [] [] []]; try discriminate Hc;
      cbv beta iota; rewrite Hall; cbn [negb];
      unfold strconv.maxInt, strconv.minInt;
      repeat match goal with
             | |- context [?a <? ?b] => destruct (Z.ltb_spec a b); try lia
             end; reflexivity. }
  destruct Hv as [-> Hb]. split; [reflexivity | exact Hb].
Qed.

(** C7 (as amended).  A unit gets past the pattern test of [handleLine] if
    and only if it is a sequence of one or more unsigned integers of one to
    four digits, separated by ['|'] and followed by the line terminator
    (pattern [^\d{1,4}(\|\d{1,4})*\r\n$]), with no other characters; a sign
    in front of a field is not admitted.  Such a unit is split into exactly
    these fields, and each is read without error as a number between 0 and
    9999.  Every unit that does not match is discarded: the call returns, the
    tracker is unchanged, and nothing is logged or sent. *)
Theorem line_pattern_accepts_unsigned_fields (U : util) (sio : Line.SerialIO)
    (line : list ascii) :
  (Regexp.MatchString Line.expectedLinePattern line = true
   <-> exists fields,
         fields <> [] /\ Forall isField fields
         /\ line = strings.Join fields "|"%char ++ CRLF)
  /\ (forall fields,
        fields <> [] -> Forall isField fields ->
        line = strings.Join fields "|"%char ++ CRLF ->
        fieldsOf line = fields
        /\ Forall (fun f => snd (strconv.Atoi f) = false
                            /\ 0 <= fst (strconv.Atoi f) <= 9999) fields)
  /\ (Regexp.MatchString Line.expectedLinePattern line = false ->
      Line.handleLine U sio line = ([], Go.Returns sio)).
Proof.
  split; [apply line_pattern_language |]. split; [| apply handleLine_discards].
  intros fields Hne Hall ->. split; [apply fieldsOf_Join; assumption |].
  eapply Forall_impl; [exact Hall |]. intros f Hf. apply Atoi_field. exact Hf.
Qed.

Lemma line_pattern_accepts_unsigned_fields_witness :
  Regexp.MatchString Line.expectedLinePattern (Go.str "-5" ++ CRLF) = false
  /\ Line.handleLine exampleUtil fiveSliders (Go.str "-5" ++ CRLF)
     = ([], Go.Returns fiveSliders).
Proof.
  assert (H : Regexp.MatchString Line.expectedLinePattern (Go.str "-5" ++ CRLF) = false)
    by reflexivity.
  split; [exact H |].
  exact (proj2 (proj2 (line_pattern_accepts_unsigned_fields exampleUtil fiveSliders
                         (Go.str "-5" ++ CRLF))) H).
Defined.

(** C7, the claim as written fails: the unit ["-5\r\n"] matches the signed
    pattern [^-?\d{1,4}(\|-?\d{1,4})*\r\n$], yet [handleLine] tests the
    unsigned pattern and discards it. *)
Lemma signed_line_is_discarded :
  Regexp.MatchString Binary.expectedLinePattern (Go.str "-5" ++ CRLF) = true
  /\ Regexp.MatchString Line.expectedLinePattern (Go.str "-5" ++ CRLF) = false
  /\ Line.handleLine exampleUtil fiveSliders (Go.str "-5" ++ CRLF)
     = ([], Go.Returns fiveSliders).
Proof. repeat split. Qed.

(** ** Read errors in the reader goroutines *)

(** The line reader leaves its loop on the first read error, whatever the
    verbosity, and delivers nothing from that read. *)
Lemma readLine_error_stops (verbose : bool) (r : Line.ReadResult)
    (reads : list Line.ReadResult) :
  Line.err r = true ->
  fst (fst (Line.readLine verbose (r :: reads))) = []
  /\ snd (Line.readLine verbose (r :: reads)) = Line.Stopped.
Proof. intros H. simpl. rewrite H. split; reflexivity. Qed.

(** The byte reader does the same when the instance is verbose. *)
Lemma readBytes_error_verbose_stops (r : Binary.ReadResult) (reads : list Binary.ReadResult) :
  Binary.err r = true ->
  Binary.readBytes true (r :: reads)
  = ([], [Binary.Log Warn "Failed to read bytes from serial"], Binary.Stopped).
Proof. intros H. simpl. rewrite H. reflexivity. Qed.

(** C6, what the code does: in [readBytes] the [return] is inside the test
    of the verbosity.  When the instance is not verbose a read error does not
    end the loop: the bytes that came with the error, less the last one, are
    put on the channel as a unit and the loop goes on to the next read; when
    no byte came with the error, slicing [bytes[:len(bytes)-1]] panics. *)
Theorem readBytes_error_not_verbose_goes_on (r : Binary.ReadResult)
    (reads : list Binary.ReadResult) :
  Binary.err r = true ->
  (Binary.got r <> [] ->
   Binary.readBytes false (r :: reads)
   = (removelast (Binary.got r) :: fst (fst (Binary.readBytes false reads)),
      snd (fst (Binary.readBytes false reads)),
      snd (Binary.readBytes false reads)))
  /\ (Binary.got r = [] ->
      Binary.readBytes false (r :: reads)
      = ([], [], Binary.Crashed (Go.SliceBoundsOutOfRange (-1)))).
Proof.
  intros H. split; intros Hg.
  - cbn [Binary.readBytes]. rewrite H. cbn [andb].
    destruct (Binary.got r) as [| b bs] eqn:E; [contradiction |].
    cbn [Binary.dropLast].
    destruct (Binary.readBytes false reads) as [[units tr] st]. reflexivity.
  - cbn [Binary.readBytes]. rewrite H, Hg. reflexivity.
Qed.

Lemma readBytes_error_not_verbose_goes_on_witness :
  Binary.readBytes false
    [ {| Binary.got := [x01; x02]; Binary.err := true |};
      {| Binary.got := [x00; x2a; x0a]; Binary.err := false |} ]
  = ([[x01]; [x00; x2a]], [], Binary.Reading).
Proof.
  exact (proj1 (readBytes_error_not_verbose_goes_on
                  {| Binary.got := [x01; x02]; Binary.err := true |}
                  [ {| Binary.got := [x00; x2a; x0a]; Binary.err := false |} ]
                  eq_refl)
           ltac:(discriminate)).
Defined.

(** ** [Start] on an active connection *)

(** C9.  [Start] called while a connection is active returns the
    already-active error and leaves the engine exactly as it was: handle,
    connected flag, connection options and everything else.  This holds for
    both engines, whatever the platform, the driver and the device would
    answer. *)
Theorem Start_while_connected
    (U : util) (serial_Open : OpenOptions.t -> Conn + list ascii)
    (performInitializationSequence : Conn -> option (list ascii))
    (conn_Close : Conn -> bool)
    (sio : Binary.SerialIO) (lsio : Line.SerialIO) :
  Binary.connected sio = true ->
  Line.connected lsio = true ->
  snd (Binary.Start U serial_Open sio) = (sio, Some ErrAlreadyActive)
  /\ Binary.sends (fst (Binary.Start U serial_Open sio)) = []
  /\ snd (Line.Start U serial_Open performInitializationSequence conn_Close lsio)
     = (lsio, Some ErrAlreadyActive)
  /\ Line.sends (fst (Line.Start U serial_Open performInitializationSequence conn_Close lsio))
     = [].
Proof.
  intros Hb Hl. unfold Binary.Start, Line.Start. rewrite Hb, Hl.
  repeat split.
Qed.

Lemma Start_while_connected_witness :
  snd (Binary.Start exampleUtil (fun _ => inl 1%nat) oneSliderAtZero)
  = (oneSliderAtZero, Some ErrAlreadyActive)
  /\ Binary.sends (fst (Binary.Start exampleUtil (fun _ => inl 1%nat) oneSliderAtZero)) = []
  /\ snd (Line.Start exampleUtil (fun _ => inl 1%nat) (fun _ => None) (fun _ => false)
            fiveSliders)
     = (fiveSliders, Some ErrAlreadyActive)
  /\ Line.sends (fst (Line.Start exampleUtil (fun _ => inl 1%nat) (fun _ => None)
                        (fun _ => false) fiveSliders)) = [].
Proof.
  apply (Start_while_connected exampleUtil (fun _ => inl 1%nat) (fun _ => None)
           (fun _ => false) oneSliderAtZero fiveSliders); reflexivity.
Defined.

(** ** The range of the reported values *)

Lemma clampVolume_range (v : Q) : (0 <= Binary.clampVolume v <= 1)%Q.
Proof.
  unfold Binary.clampVolume.
  destruct (Go.Qltb v 0) eqn:E0.
  - destruct (Go.Qltb 1 0) eqn:E1; [apply Qltb_lt in E1; lra | lra].
  - assert (H0 : (0 <= v)%Q).
    { apply Qnot_lt_le. intros H. apply Qltb_lt in H. congruence. }
    destruct (Go.Qltb 1 v) eqn:E1; [lra |].
    assert (H1 : (v <= 1)%Q).
    { apply Qnot_lt_le. intros H. apply Qltb_lt in H. congruence. }
    lra.
Qed.

(** On an additive slider a non-zero reading is reported after clamping to
    [0, 1]. *)
Lemma additive_value_range (U : util) (d : Deej.t) (sliderIdx number : Z) :
  Go.slices_Contains (CanonicalConfig.AdditiveIndices (Deej.config d)) sliderIdx = true ->
  number <> 0 ->
  (0 <= Binary.normalizedScalar U d sliderIdx number <= 1)%Q.
Proof.
  intros Ha Hn. unfold Binary.normalizedScalar. rewrite Ha.
  destruct (Z.eqb_spec number 0) as [E | E]; [contradiction |].
  cbn [negb]. apply clampVolume_range.
Qed.

(** C8, what the code does: the raw value is divided by 1023 as it is; no
    clamp comes before the division, and only the additive path clamps
    afterwards.  On a plain slider the one-word binary frame 0x07EA (value
    -22) is reported with a negative [PercentValue] (-0.03), and the line
    ["0|9999"] reports its second slider with a [PercentValue] above 1
    (9.77). *)
Theorem plain_slider_reports_outside_unit_range :
  Binary.ArduinoData.Value (Binary.unpack (Binary.packWord x07 xea)) = -22
  /\ (exists tr sio' ev,
        Binary.handleBytes exampleUtil freshBinary [x07; xea] = (tr, Go.Returns sio')
        /\ Binary.sends tr = [(7%nat, ev)]
        /\ Binary.SliderEvent.SliderID ev = 0
        /\ (Binary.SliderEvent.PercentValue ev == - (3 # 100))%Q
        /\ (Binary.SliderEvent.PercentValue ev < 0)%Q)
  /\ (exists tr sio' ev0 ev1,
        Line.handleLine exampleUtil freshLine (Go.str "0|9999" ++ CRLF) = (tr, Go.Returns sio')
        /\ Line.sends tr = [(7%nat, ev0); (7%nat, ev1)]
        /\ Line.SliderMoveEvent.SliderID ev1 = 1
        /\ (Line.SliderMoveEvent.PercentValue ev1 == 977 # 100)%Q
        /\ (1 < Line.SliderMoveEvent.PercentValue ev1)%Q).
Proof.
  split; [reflexivity |]. split.
  - do 3 eexists. split; [vm_compute; reflexivity |].
    split; [vm_compute; reflexivity |]. repeat split.
  - do 4 eexists. split; [vm_compute; reflexivity |].
    split; [vm_compute; reflexivity |]. repeat split.
Qed.

(** ** The tracker stays well formed *)

Lemma NewSerialIO_wf (d : Deej.t) :
  binary_wf (Binary.NewSerialIO d) /\ line_wf (Line.NewSerialIO d).
Proof. split; left; reflexivity. Qed.

Lemma handleBytes_preserves_wf (U : util) (sio : Binary.SerialIO) (bytes : list byte) :
  binary_wf sio ->
  Nat.even (length bytes) = true ->
  exists tr sio',
    Binary.handleBytes U sio bytes = (tr, Go.Returns sio') /\ binary_wf sio'.
Proof.
  intros Hwf He.
  destruct (handleBytes_returns U sio bytes Hwf He) as (tr & Hh & _).
  eexists. eexists. split; [exact Hh |].
  unfold binary_wf. cbn [Binary.set_sliders Binary.lastKnownNumSliders Binary.currentVolumeDatas].
  rewrite stepVols_length. unfold Binary.updateSliderCount.
  destruct (Z.eqb_spec (Z.of_nat (length (map Binary.unpack (words bytes))))
              (Binary.lastKnownNumSliders sio)) as [E | E]; cbn [negb fst].
  - exact Hwf.
  - right. cbn [Binary.set_sliders Binary.lastKnownNumSliders Binary.currentVolumeDatas].
    rewrite resetVolumeDatas_length. reflexivity.
Qed.

Lemma handleBytes_odd_length_panics_witness :
  Nat.odd (length [x00; x0a; x01]) = true
  /\ Binary.handleBytes exampleUtil oneSliderAtZero [x00; x0a; x01]
     = ([Binary.Log Warn "Wrong number of bytes received"],
        Go.Panics (Go.IndexOutOfRange 3 3)).
Proof.
  split; [reflexivity |].
  exact (handleBytes_odd_length_panics exampleUtil oneSliderAtZero [x00; x0a; x01] eq_refl).
Defined.

(** ** Readings in the nominal range [0, 1023] *)

Lemma hundredths_range (z : Z) : 0 <= z <= 100 -> (0 <= inject_Z z / 100 <= 1)%Q.
Proof.
  intros H. unfold Qdiv, Qmult, Qle, inject_Z. simpl. lia.
Qed.

Lemma spec_NormalizeScalar_range (v : Q) :
  (0 <= v <= 1)%Q -> (0 <= spec_NormalizeScalar v <= 1)%Q.
Proof.
  intros [H0 H1]. unfold spec_NormalizeScalar. apply hundredths_range. split.
  - rewrite <- (Qfloor_Z 0). apply Qfloor_resp_le.
    change (inject_Z 0) with 0%Q. lra.
  - rewrite <- (Qfloor_Z 100) at 2. apply Qfloor_resp_le.
    change (inject_Z 100) with 100%Q. lra.
Qed.

Lemma dirtyFloat_range (number : Z) :
  0 <= number <= 1023 -> (0 <= inject_Z number / 1023 <= 1)%Q.
Proof.
  intros H. unfold Qdiv, Qmult, Qle, inject_Z. simpl. lia.
Qed.

(** A reading in [0, 1023] on a slider that is not additive is reported
    within [0, 1], inverted or not. *)
Lemma plain_value_range (significantDifferenceThreshold : list ascii -> Q) (linux : bool)
    (d : Deej.t) (sliderIdx number : Z) :
  Go.slices_Contains (CanonicalConfig.AdditiveIndices (Deej.config d)) sliderIdx = false ->
  0 <= number <= 1023 ->
  (0 <= Binary.normalizedScalar (spec_util significantDifferenceThreshold linux) d
          sliderIdx number <= 1)%Q.
Proof.
  intros Ha Hn. unfold Binary.normalizedScalar. rewrite Ha.
  cbn [NormalizeScalar spec_util].
  pose proof (spec_NormalizeScalar_range _ (dirtyFloat_range number Hn)) as Hr.
  destruct (CanonicalConfig.InvertSliders (Deej.config d)); lra.
Qed.

Section Resync.
Variable U : util.
Variable d : Deej.t.

Lemma stepEvents_all (data : list Binary.ArduinoData.t) :
  forall (i : nat) (vols : list Binary.VolumeData.t),
    (forall k ad, data !! k = Some ad ->
       exists cur, vols !! (i + k)%nat = Some cur /\ emits U d (i + k) ad cur = true) ->
    stepEvents U d i data vols = allEvents U d i data.
Proof.
  induction data as [| ad data IH]; intros i vols H; [reflexivity |].
  cbn [stepEvents allEvents].
  destruct (H 0%nat ad eq_refl) as (cur & Hcur & E). rewrite Nat.add_0_r in Hcur, E.
  rewrite Hcur, E. cbn [app]. f_equal. apply IH.
  intros k ad' Hk. replace (S i + k)%nat with (i + S k)%nat by lia.
  apply (H (S k) ad'). exact Hk.
Qed.

Lemma allEvents_length (data : list Binary.ArduinoData.t) :
  forall i : nat, length (allEvents U d i data) = length data.
Proof.
  induction data as [| ad data IH]; intros i; simpl; [reflexivity |].
  rewrite IH. reflexivity.
Qed.

End Resync.

(** After a change of the slider count, a frame all of whose readings differ
    significantly from the sentinel sends exactly one event per slider, in
    ascending order, to every consumer. *)
Lemma resync_reports_every_slider (U : util) (sio : Binary.SerialIO) (bytes : list byte) :
  binary_wf sio ->
  Nat.even (length bytes) = true ->
  let data := map Binary.unpack (words bytes) in
  Z.of_nat (length data) <> Binary.lastKnownNumSliders sio ->
  (forall k ad, data !! k = Some ad ->
     emits U (Binary.deej sio) k ad
       {| Binary.VolumeData.Value := -1; Binary.VolumeData.Mute := false |} = true) ->
  exists tr sio',
    Binary.handleBytes U sio bytes = (tr, Go.Returns sio')
    /\ Binary.lastKnownNumSliders sio' = Z.of_nat (length data)
    /\ Binary.sends tr
       = broadcast (Binary.sliderMoveConsumers sio) (allEvents U (Binary.deej sio) 0 data)
    /\ length (allEvents U (Binary.deej sio) 0 data) = length data.
Proof.
  intros Hwf He data Hne Hall.
  destruct (handleBytes_returns U sio bytes Hwf He) as (tr & Hh & Hs).
  fold data in Hh, Hs.
  assert (Hu : fst (Binary.updateSliderCount sio (length data))
               = Binary.set_sliders sio (Z.of_nat (length data))
                   (Binary.resetVolumeDatas (length data))).
  { unfold Binary.updateSliderCount.
    destruct (Z.eqb_spec (Z.of_nat (length data)) (Binary.lastKnownNumSliders sio));
      [contradiction | reflexivity]. }
  rewrite Hu in Hh, Hs.
  cbn [Binary.set_sliders Binary.lastKnownNumSliders Binary.currentVolumeDatas] in Hh, Hs.
  eexists. eexists. split; [exact Hh |]. split; [reflexivity |].
  split; [| apply allEvents_length].
  rewrite Hs. f_equal. apply stepEvents_all.
  intros k ad Hk. eexists. split.
  - apply resetVolumeDatas_lookup. apply lookup_lt_Some in Hk. exact Hk.
  - apply Hall. exact Hk.
Qed.

(** In particular, with a threshold below 1, no additive slider and every
    reading in [0, 1023], the frame that changes the slider count reports
    every slider. *)
Lemma resync_reports_nominal_readings
    (significantDifferenceThreshold : list ascii -> Q) (linux : bool)
    (sio : Binary.SerialIO) (bytes : list byte) :
  binary_wf sio ->
  Nat.even (length bytes) = true ->
  let U := spec_util significantDifferenceThreshold linux in
  let data := map Binary.unpack (words bytes) in
  Z.of_nat (length data) <> Binary.lastKnownNumSliders sio ->
  (significantDifferenceThreshold
     (CanonicalConfig.NoiseReductionLevel (Deej.config (Binary.deej sio))) < 1)%Q ->
  CanonicalConfig.AdditiveIndices (Deej.config (Binary.deej sio)) = [] ->
  (forall ad, In ad data -> 0 <= Binary.ArduinoData.Value ad) ->
  exists tr sio',
    Binary.handleBytes U sio bytes = (tr, Go.Returns sio')
    /\ Binary.sends tr
       = broadcast (Binary.sliderMoveConsumers sio) (allEvents U (Binary.deej sio) 0 data)
    /\ length (allEvents U (Binary.deej sio) 0 data) = length data.
Proof.
  intros Hwf He U data Hne Hthr Hadd Hpos.
  destruct (resync_reports_every_slider U sio bytes Hwf He Hne) as (tr & sio' & Hh & _ & Hs).
  - intros k ad Hk. unfold emits. apply orb_true_iff. left.
    cbn [SignificantlyDifferent U spec_util]. unfold spec_SignificantlyDifferent.
    apply Qltb_lt.
    assert (Hin : In ad data) by (apply list_elem_of_In; eapply list_elem_of_lookup_2; exact Hk).
    assert (Hrange : 0 <= Binary.ArduinoData.Value ad <= 1023).
    { split; [apply Hpos; exact Hin |].
      apply in_map_iff in Hin. destruct Hin as (w & <- & _). apply unpack_Value_range. }
    assert (Hc : Go.slices_Contains
                   (CanonicalConfig.AdditiveIndices (Deej.config (Binary.deej sio)))
                   (Z.of_nat k) = false) by (rewrite Hadd; reflexivity).
    pose proof (plain_value_range significantDifferenceThreshold linux (Binary.deej sio)
                  (Z.of_nat k) _ Hc Hrange) as Hv.
    fold U in Hv. cbn [Binary.VolumeData.Value].
    eapply Qlt_le_trans; [exact Hthr |].
    eapply Qle_trans; [| apply Qle_Qabs]. lra.
  - exists tr, sio'. split; [exact Hh | exact Hs].
Qed.

(** * Further properties of the engines *)

(** ** What a frame can and cannot change *)

Lemma strings_eqb_eq (a b : list ascii) : strings.eqb a b = true <-> a = b.
Proof.
  unfold strings.eqb. revert b. induction a as [| x a IH]; intros [| y b]; simpl;
    try (split; [discriminate | discriminate]); [split; reflexivity |].
  rewrite andb_true_iff in *. split.
  - intros [Hl Hf]. apply andb_true_iff in Hf. destruct Hf as [Hxy Hf].
    apply Ascii.eqb_eq in Hxy. subst y. f_equal. apply IH.
    apply andb_true_iff. split; assumption.
  - intros H. injection H as -> ->.
    assert (Hb : Nat.eqb (length b) (length b)
                 && forallb (fun p => Ascii.eqb (fst p) (snd p)) (combine b b) = true)
      by (apply IH; reflexivity).
    apply andb_true_iff in Hb. destruct Hb as [Hl Hf].
    split; [exact Hl |]. rewrite Ascii.eqb_refl, Hf. reflexivity.
Qed.

(** A call of [handleBytes] that returns hands back the tracker it was
    given, with the slider count and the volume data replaced. *)
Lemma handleBytes_Returns_sliders (U : util) (sio sio' : Binary.SerialIO)
    (bytes : list byte) (tr : list Binary.effect) :
  Binary.handleBytes U sio bytes = (tr, Go.Returns sio') ->
  sio' = Binary.set_sliders sio (Binary.lastKnownNumSliders sio')
           (Binary.currentVolumeDatas sio').
Proof.
  unfold Binary.handleBytes. intros H.
  destruct (Binary.decode bytes) as [data | p]; [| discriminate].
  assert (Hu : forall s1 t1, Binary.updateSliderCount sio (length data) = (s1, t1) ->
               s1 = Binary.set_sliders sio (Binary.lastKnownNumSliders s1)
                      (Binary.currentVolumeDatas s1)).
  { unfold Binary.updateSliderCount. intros s1 t1 E.
    destruct (negb (Z.of_nat (length data) =? Binary.lastKnownNumSliders sio));
      injection E as <- <-; [reflexivity | destruct sio; reflexivity]. }
  destruct (Binary.updateSliderCount sio (length data)) as [s1 t1].
  specialize (Hu s1 t1 eq_refl).
  destruct (Binary.rangeData U (Binary.deej sio) 0 data (Binary.currentVolumeDatas s1) [])
    as [tr3 [ls | p]]; [| discriminate].
  destruct (Binary.exit ls); injection H as <- <-; rewrite Hu at 1; reflexivity.
Qed.

(** X1.  Whatever the frame and whatever the tracker, a call of
    [handleBytes] that returns has changed nothing but the slider count and
    the stored volume data: the [Deej] instance, the connected flag, the
    connection options, the handle and the list of consumers are as before. *)
Theorem handleBytes_leaves_link_alone (U : util) (sio sio' : Binary.SerialIO)
    (bytes : list byte) (tr : list Binary.effect) :
  Binary.handleBytes U sio bytes = (tr, Go.Returns sio') ->
  Binary.deej sio' = Binary.deej sio
  /\ Binary.connected sio' = Binary.connected sio
  /\ Binary.connOptions sio' = Binary.connOptions sio
  /\ Binary.conn sio' = Binary.conn sio
  /\ Binary.sliderMoveConsumers sio' = Binary.sliderMoveConsumers sio.
Proof.
  intros H. apply handleBytes_Returns_sliders in H.
  rewrite H. cbn [Binary.set_sliders Binary.deej Binary.connected Binary.connOptions
                  Binary.conn Binary.sliderMoveConsumers].
  repeat split.
Qed.

Lemma handleBytes_leaves_link_alone_witness :
  exists tr sio',
    Binary.handleBytes exampleUtil oneSliderAtZero frame512 = (tr, Go.Returns sio')
    /\ Binary.connected sio' = true
    /\ Binary.conn sio' = Some 0%nat
    /\ Binary.sliderMoveConsumers sio' = [7%nat].
Proof.
  eexists. eexists. split; [vm_compute; reflexivity |].
  pose proof (handleBytes_leaves_link_alone exampleUtil oneSliderAtZero _ frame512 _ eq_refl)
    as (_ & Hc & _ & Hh & Hs).
  split; [exact Hc |]. split; [exact Hh | exact Hs].
Defined.

(** ** The events of one frame *)

Section FrameEvents.
Variable U : util.
Variable d : Deej.t.

Lemma stepEvents_ids (data : list Binary.ArduinoData.t) :
  forall (i : nat) (vols : list Binary.VolumeData.t),
    StronglySorted Z.lt (map Binary.SliderEvent.SliderID (stepEvents U d i data vols))
    /\ Forall (fun ev => Z.of_nat i <= Binary.SliderEvent.SliderID ev
                         < Z.of_nat (i + length data))
         (stepEvents U d i data vols).
Proof.
  induction data as [| ad data IH]; intros i vols; cbn [stepEvents].
  - split; constructor.
  - destruct (vols !! i) as [cur |]; [| split; constructor].
    destruct (IH (S i) vols) as [Hs Hf].
    assert (Hf' : Forall (fun ev => Z.of_nat i <= Binary.SliderEvent.SliderID ev
                                    < Z.of_nat (i + length (ad :: data)))
                    (stepEvents U d (S i) data vols)).
    { eapply Forall_impl; [exact Hf |]. cbn beta. intros ev Hev. cbn [length]. lia. }
    destruct (emits U d i ad cur); cbn [app]; [| split; assumption].
    split.
    + cbn [map]. constructor; [exact Hs |].
      apply Forall_map. eapply Forall_impl; [exact Hf |].
      cbn beta. intros ev Hev. cbn [newEvent Binary.SliderEvent.SliderID]. lia.
    + constructor; [| exact Hf'].
      cbn [newEvent Binary.SliderEvent.SliderID length]. lia.
Qed.

Lemma stepEvents_quiet (data : list Binary.ArduinoData.t) :
  forall (i : nat) (vols : list Binary.VolumeData.t),
    (forall k ad cur, data !! k = Some ad -> vols !! (i + k)%nat = Some cur ->
                      emits U d (i + k) ad cur = false) ->
    stepEvents U d i data vols = [] /\ stepVols U d i data vols = vols.
Proof.
  induction data as [| ad data IH]; intros i vols H; cbn [stepEvents stepVols];
    [split; reflexivity |].
  assert (Hrest : forall k ad' cur, data !! k = Some ad' -> vols !! (S i + k)%nat = Some cur ->
                                    emits U d (S i + k) ad' cur = false).
  { intros k ad' cur Hk Hv. replace (S i + k)%nat with (i + S k)%nat in * by lia.
    apply (H (S k)); assumption. }
  destruct (vols !! i) as [cur |] eqn:Ecur.
  - assert (E : emits U d i ad cur = false).
    { specialize (H 0%nat ad cur eq_refl). rewrite Nat.add_0_r in H. apply H. exact Ecur. }
    unfold newVol. rewrite E. rewrite list_insert_id by exact Ecur.
    destruct (IH (S i) vols Hrest) as [-> ->]. split; reflexivity.
  - split; [reflexivity |]. apply (IH (S i) vols Hrest).
Qed.

End FrameEvents.

Lemma length_words_div2 (bytes : list byte) :
  length (words bytes) = Nat.div2 (length bytes).
Proof.
  destruct (Nat.even (length bytes)) eqn:E.
  - apply decode_even. exact E.
  - assert (Ho : Nat.odd (length bytes) = true) by (unfold Nat.odd; rewrite E; reflexivity).
    apply Nat.odd_spec in Ho. destruct Ho as [n Hn].
    rewrite (words_length n) by lia. rewrite Hn.
    replace (2 * n + 1)%nat with (S (2 * n)) by lia. symmetry. apply Nat.div2_succ_double.
Qed.

(** X2.  On a well-formed tracker, what a frame of even length sends is one
    list of events, the same for every consumer, consumer after consumer in
    the order of subscription.  In that list the slider indices strictly
    increase, so a slider has at most one event per frame, and every index is
    below the number of words of the frame. *)
Theorem frame_events_ascending (U : util) (sio : Binary.SerialIO) (bytes : list byte) :
  binary_wf sio ->
  Nat.even (length bytes) = true ->
  exists tr sio' evs,
    Binary.handleBytes U sio bytes = (tr, Go.Returns sio')
    /\ Binary.sends tr = broadcast (Binary.sliderMoveConsumers sio) evs
    /\ StronglySorted Z.lt (map Binary.SliderEvent.SliderID evs)
    /\ Forall (fun ev => 0 <= Binary.SliderEvent.SliderID ev
                         < Z.of_nat (Nat.div2 (length bytes))) evs.
Proof.
  intros Hwf He.
  destruct (handleBytes_returns U sio bytes Hwf He) as (tr & Hh & Hs).
  eexists. eexists. eexists. split; [exact Hh |]. split; [exact Hs |].
  match goal with
  | |- context [stepEvents U ?d 0 ?data ?vols] =>
      destruct (stepEvents_ids U d data 0 vols) as [Hsorted Hids]
  end.
  split; [exact Hsorted |].
  eapply Forall_impl; [exact Hids |]. cbn beta. intros ev Hev.
  rewrite length_map, length_words_div2 in Hev. simpl in Hev. lia.
Qed.

Lemma frame_events_ascending_witness :
  exists tr sio' evs,
    Binary.handleBytes exampleUtil freshBinary [x02; x00; x00; x00; x03; xff]
    = (tr, Go.Returns sio')
    /\ Binary.sends tr = broadcast [7%nat] evs
    /\ StronglySorted Z.lt (map Binary.SliderEvent.SliderID evs)
    /\ Forall (fun ev => 0 <= Binary.SliderEvent.SliderID ev < Z.of_nat 3) evs.
Proof.
  apply (frame_events_ascending exampleUtil freshBinary [x02; x00; x00; x00; x03; xff]).
  - left. reflexivity.
  - reflexivity.
Defined.

(** ** A frame that repeats the previous one *)

Lemma broadcast_nil {E : Type} (consumers : list chan) :
  broadcast consumers (@nil E) = [].
Proof.
  unfold broadcast. induction consumers as [| c cs IH]; [reflexivity | exact IH].
Qed.

Lemma binary_set_sliders_same (sio : Binary.SerialIO) :
  Binary.set_sliders sio (Binary.lastKnownNumSliders sio) (Binary.currentVolumeDatas sio) = sio.
Proof. destruct sio. reflexivity. Qed.

Lemma updateSliderCount_count (sio : Binary.SerialIO) (n : nat) :
  Binary.lastKnownNumSliders (fst (Binary.updateSliderCount sio n)) = Z.of_nat n.
Proof.
  unfold Binary.updateSliderCount.
  destruct (Z.eqb_spec (Z.of_nat n) (Binary.lastKnownNumSliders sio)) as [E | E];
    cbn [negb fst]; [symmetry; exact E | reflexivity].
Qed.

Lemma updateSliderCount_same (sio : Binary.SerialIO) (n : nat) :
  Binary.lastKnownNumSliders sio = Z.of_nat n ->
  Binary.updateSliderCount sio n = (sio, []).
Proof.
  intros H. unfold Binary.updateSliderCount. rewrite H, Z.eqb_refl. reflexivity.
Qed.

(** X3.  Debouncing, on sliders that are not additive: when no value is
    significantly different from itself, a frame without mute toggles that
    arrives a second time in a row sends nothing and leaves the tracker
    exactly as the first arrival left it. *)
Theorem repeated_frame_is_silent (U : util) (sio : Binary.SerialIO) (bytes : list byte) :
  binary_wf sio ->
  Nat.even (length bytes) = true ->
  (forall x level, SignificantlyDifferent U x x level = false) ->
  (forall ad, In ad (map Binary.unpack (words bytes)) ->
              Binary.ArduinoData.ToggleMute ad = false) ->
  CanonicalConfig.AdditiveIndices (Deej.config (Binary.deej sio)) = [] ->
  exists tr1 sio1 tr2,
    Binary.handleBytes U sio bytes = (tr1, Go.Returns sio1)
    /\ Binary.handleBytes U sio1 bytes = (tr2, Go.Returns sio1)
    /\ Binary.sends tr2 = [].
Proof.
  intros Hwf He Hirr Htog _.
  set (data := map Binary.unpack (words bytes)) in *.
  destruct (handleBytes_returns U sio bytes Hwf He) as (tr1 & Hh1 & _).
  fold data in Hh1.
  set (s0 := fst (Binary.updateSliderCount sio (length data))) in *.
  set (sio1 := Binary.set_sliders s0 (Binary.lastKnownNumSliders s0)
                 (stepVols U (Binary.deej sio) 0 data (Binary.currentVolumeDatas s0))) in *.
  assert (Hwf1 : binary_wf sio1).
  { destruct (handleBytes_preserves_wf U sio bytes Hwf He) as (tr & s & Hh & Hw).
    rewrite Hh1 in Hh. injection Hh as _ <-. exact Hw. }
  assert (Hd1 : Binary.deej sio1 = Binary.deej sio).
  { rewrite (handleBytes_Returns_sliders U sio sio1 bytes tr1 Hh1). reflexivity. }
  assert (Hcount : Binary.lastKnownNumSliders sio1 = Z.of_nat (length data)).
  { unfold sio1. cbn [Binary.set_sliders Binary.lastKnownNumSliders].
    apply updateSliderCount_count. }
  destruct (handleBytes_returns U sio1 bytes Hwf1 He) as (tr2 & Hh2 & Hs2).
  fold data in Hh2, Hs2.
  rewrite (updateSliderCount_same sio1 (length data) Hcount) in Hh2, Hs2.
  cbn [fst] in Hh2, Hs2. rewrite Hd1 in Hh2, Hs2.
  assert (Hlen0 : (length data <= length (Binary.currentVolumeDatas s0))%nat)
    by (apply updateSliderCount_length; exact Hwf).
  destruct (stepEvents_quiet U (Binary.deej sio) data 0 (Binary.currentVolumeDatas sio1))
    as [Hev Hvol].
  { intros k ad cur1 Hk Hv. simpl in Hv.
    destruct (lookup_lt_is_Some_2 (Binary.currentVolumeDatas s0) k) as [cur0 Hcur0].
    { apply lookup_lt_Some in Hk. lia. }
    pose proof (stepVols_lookup U (Binary.deej sio) data 0 k _ ad cur0 Hk Hcur0) as Hnew.
    unfold sio1 in Hv. cbn [Binary.set_sliders Binary.currentVolumeDatas] in Hv.
    simpl in Hnew. rewrite Hnew in Hv. injection Hv as <-.
    assert (Ht : Binary.ArduinoData.ToggleMute ad = false).
    { apply Htog. apply list_elem_of_In. eapply list_elem_of_lookup_2. exact Hk. }
    simpl. unfold newVol. destruct (emits U (Binary.deej sio) k ad cur0) eqn:E.
    - unfold emits. cbn [Binary.VolumeData.Value]. rewrite Hirr, Ht. reflexivity.
    - exact E. }
  rewrite Hev in Hs2. rewrite Hvol in Hh2. rewrite binary_set_sliders_same in Hh2.
  exists tr1, sio1, tr2. split; [exact Hh1 |]. split; [exact Hh2 |].
  rewrite Hs2. apply broadcast_nil.
Qed.

Lemma repeated_frame_is_silent_witness :
  exists tr1 sio1 tr2,
    Binary.handleBytes exampleUtil freshBinary [x02; x00; x03; xff] = (tr1, Go.Returns sio1)
    /\ Binary.handleBytes exampleUtil sio1 [x02; x00; x03; xff] = (tr2, Go.Returns sio1)
    /\ Binary.sends tr2 = [].
Proof.
  apply (repeated_frame_is_silent exampleUtil freshBinary [x02; x00; x03; xff]).
  - left. reflexivity.
  - reflexivity.
  - intros x level. cbn [SignificantlyDifferent exampleUtil spec_util].
    unfold spec_SignificantlyDifferent.
    destruct (Go.Qltb (25 # 1000) (Qabs (x - x))) eqn:E; [| reflexivity].
    apply Qltb_lt in E. exfalso.
    assert (H0 : (Qabs (x - x) == 0)%Q).
    { assert (Hx : (x - x == 0)%Q) by ring. rewrite Hx. reflexivity. }
    rewrite H0 in E. revert E. vm_compute. discriminate.
  - intros ad Hin. simpl in Hin.
    destruct Hin as [<- | [<- | []]]; reflexivity.
  - reflexivity.
Defined.

(** ** The empty frame *)

(** X4.  A frame with no bytes (a bare terminator) is handled without any
    event.  If the tracker knew some sliders, it forgets them: the slider
    count becomes 0 and no volume data is kept; a tracker whose count was
    already 0 is left exactly as it was. *)
Theorem empty_frame_forgets_sliders (U : util) (sio : Binary.SerialIO) :
  exists tr sio',
    Binary.handleBytes U sio [] = (tr, Go.Returns sio')
    /\ Binary.sends tr = []
    /\ Binary.lastKnownNumSliders sio' = 0
    /\ (Binary.lastKnownNumSliders sio <> 0 -> Binary.currentVolumeDatas sio' = [])
    /\ (Binary.lastKnownNumSliders sio = 0 -> sio' = sio).
Proof.
  unfold Binary.handleBytes. cbn [Binary.decode Binary.decodeFrom length].
  unfold Binary.updateSliderCount. change (Z.of_nat 0%nat) with 0.
  destruct (Z.eqb_spec 0 (Binary.lastKnownNumSliders sio)) as [E | E]; cbn [negb].
  - cbn [Binary.rangeData Binary.exit Binary.vols Binary.sliderEvents].
    eexists. eexists. split; [reflexivity |].
    rewrite binary_set_sliders_same.
    split; [| split; [symmetry; exact E | split; [intros H; congruence | reflexivity]]].
    rewrite !sends_app, binary_sends_deliver. apply broadcast_nil.
  - cbn [Binary.rangeData Binary.exit Binary.vols Binary.sliderEvents].
    eexists. eexists. split; [reflexivity |].
    split; [| split; [reflexivity | split; [reflexivity | intros H; congruence]]].
    rewrite !sends_app, binary_sends_deliver. apply broadcast_nil.
Qed.

(** ** Subscribing *)

Lemma broadcast_snoc {E : Type} (consumers : list chan) (ch : chan) (events : list E) :
  broadcast (consumers ++ [ch]) events = broadcast consumers events ++ map (pair ch) events.
Proof.
  unfold broadcast. rewrite flat_map_app. cbn [flat_map]. rewrite app_nil_r. reflexivity.
Qed.

(** X5.  A consumer that subscribes is served after the consumers already
    there and receives the same events as each of them; the frame is
    otherwise handled as without it. *)
Theorem new_subscriber_receives_same_events (U : util) (sio : Binary.SerialIO)
    (ch : chan) (bytes : list byte) :
  binary_wf sio ->
  Nat.even (length bytes) = true ->
  exists tr sio' evs tr_s,
    Binary.handleBytes U sio bytes = (tr, Go.Returns sio')
    /\ Binary.sends tr = broadcast (Binary.sliderMoveConsumers sio) evs
    /\ Binary.handleBytes U (Binary.SubscribeToSliderMoveEvents sio ch) bytes
       = (tr_s, Go.Returns (Binary.SubscribeToSliderMoveEvents sio' ch))
    /\ Binary.sends tr_s = Binary.sends tr ++ map (pair ch) evs.
Proof.
  intros Hwf He.
  destruct (handleBytes_returns U sio bytes Hwf He) as (tr & Hh & Hs).
  assert (Hwf' : binary_wf (Binary.SubscribeToSliderMoveEvents sio ch)) by exact Hwf.
  destruct (handleBytes_returns U (Binary.SubscribeToSliderMoveEvents sio ch) bytes Hwf' He)
    as (tr_s & Hh' & Hs').
  set (data := map Binary.unpack (words bytes)) in *.
  assert (Hu : fst (Binary.updateSliderCount (Binary.SubscribeToSliderMoveEvents sio ch)
                      (length data))
               = Binary.SubscribeToSliderMoveEvents
                   (fst (Binary.updateSliderCount sio (length data))) ch).
  { unfold Binary.updateSliderCount. cbn [Binary.SubscribeToSliderMoveEvents
      Binary.lastKnownNumSliders].
    destruct (negb (Z.of_nat (length data) =? Binary.lastKnownNumSliders sio)); reflexivity. }
  rewrite Hu in Hh', Hs'.
  cbn [Binary.SubscribeToSliderMoveEvents Binary.deej Binary.currentVolumeDatas
       Binary.sliderMoveConsumers Binary.lastKnownNumSliders] in Hh', Hs'.
  eexists. eexists. eexists. eexists.
  split; [exact Hh |]. split; [exact Hs |]. split; [exact Hh' |].
  rewrite Hs', Hs. apply broadcast_snoc.
Qed.

Lemma new_subscriber_receives_same_events_witness :
  exists tr sio' evs tr_s,
    Binary.handleBytes exampleUtil freshBinary frame512 = (tr, Go.Returns sio')
    /\ Binary.sends tr = broadcast [7%nat] evs
    /\ Binary.handleBytes exampleUtil (Binary.SubscribeToSliderMoveEvents freshBinary 9%nat)
         frame512
       = (tr_s, Go.Returns (Binary.SubscribeToSliderMoveEvents sio' 9%nat))
    /\ Binary.sends tr_s = Binary.sends tr ++ map (pair 9%nat) evs.
Proof.
  apply (new_subscriber_receives_same_events exampleUtil freshBinary 9%nat frame512).
  - left. reflexivity.
  - reflexivity.
Defined.

(** ** Opening, stopping and reopening the link *)

Ltac crush_outcomes :=
  repeat match goal with
         | |- _ /\ _ => split
         | |- _ <-> _ => split
         | |- forall _, _ => intro
         | H : _ /\ _ |- _ => destruct H
         | H : _ \/ _ |- _ => destruct H
         | H : exists _, _ |- _ => destruct H
         end;
  try reflexivity; try discriminate; try congruence; eauto.

(** X6.  [Start] of the binary engine never touches the tracker, the list
    of consumers or the [Deej] instance, and sends nothing.  It returns no
    error exactly when the engine was not connected and is now connected with
    a handle; after a failed open the engine is not connected and holds no
    handle; the engine is connected afterwards only if [Start] succeeded or
    refused because a connection was already active. *)
Theorem binary_Start_outcomes (U : util) (serial_Open : OpenOptions.t -> Conn + list ascii)
    (sio : Binary.SerialIO) :
  let r := Binary.Start U serial_Open sio in
  let sio' := fst (snd r) in
  let e := snd (snd r) in
  (Binary.lastKnownNumSliders sio' = Binary.lastKnownNumSliders sio
   /\ Binary.currentVolumeDatas sio' = Binary.currentVolumeDatas sio
   /\ Binary.sliderMoveConsumers sio' = Binary.sliderMoveConsumers sio
   /\ Binary.deej sio' = Binary.deej sio)
  /\ Binary.sends (fst r) = []
  /\ (e = None <->
      Binary.connected sio = false /\ Binary.connected sio' = true
      /\ exists c, Binary.conn sio' = Some c)
  /\ (forall cause, e = Some (ErrOpen cause) ->
      Binary.connected sio' = false /\ Binary.conn sio' = None)
  /\ (Binary.connected sio' = true <-> e = None \/ e = Some ErrAlreadyActive).
Proof.
  unfold Binary.Start. destruct (Binary.connected sio) eqn:Ec.
  - cbn [fst snd]. crush_outcomes.
  - cbv zeta.
    destruct (serial_Open _) as [c | cause]; cbn [fst snd Binary.set_connection
      Binary.lastKnownNumSliders Binary.currentVolumeDatas Binary.sliderMoveConsumers
      Binary.deej Binary.connected Binary.conn]; crush_outcomes.
Qed.

(** X7.  After any [Start] that was not refused, whether the port could be
    opened or not, the connection options mirror the configuration.  So when
    a configuration is loaded later, the reload handler finds the connection
    parameters changed exactly when the new port name differs from the one
    [Start] used or the new baud rate, converted to [uint], differs. *)
Theorem reconnect_exactly_on_parameter_change (U : util)
    (serial_Open : OpenOptions.t -> Conn + list ascii)
    (sio : Binary.SerialIO) (config' : CanonicalConfig.t) :
  Binary.connected sio = false ->
  let sio' := fst (snd (Binary.Start U serial_Open sio)) in
  let info := CanonicalConfig.ConnectionInfo (Deej.config (Binary.deej sio)) in
  let info' := CanonicalConfig.ConnectionInfo config' in
  BinaryLink.connectionParamsChanged sio' = false
  /\ (BinaryLink.connectionParamsChanged (BinaryLink.withConfig sio' config') = true
      <-> ConnectionInfo.COMPort info' <> ConnectionInfo.COMPort info
          \/ Go.uint (ConnectionInfo.BaudRate info') <> Go.uint (ConnectionInfo.BaudRate info)).
Proof.
  intros Hc. unfold Binary.Start. rewrite Hc. cbv zeta.
  assert (Hiff : forall a b x y,
            negb (strings.eqb a b) || negb (x =? y) = true <-> a <> b \/ x <> y).
  { intros a b x y. rewrite orb_true_iff, !negb_true_iff. split.
    - intros [H | H]; [left | right].
      + intros E. apply strings_eqb_eq in E. congruence.
      + apply Z.eqb_neq. exact H.
    - intros [H | H]; [left | right].
      + destruct (strings.eqb a b) eqn:E; [| reflexivity].
        apply strings_eqb_eq in E. contradiction.
      + apply Z.eqb_neq. exact H. }
  destruct (serial_Open _) as [c | cause];
    cbn [fst snd]; unfold BinaryLink.connectionParamsChanged;
    cbn [Binary.set_connection Binary.deej Binary.connOptions BinaryLink.withConfig
         Deej.config OpenOptions.PortName OpenOptions.BaudRate].
  - split; [| apply Hiff].
    destruct (negb _ || negb _) eqn:E; [| reflexivity].
    apply Hiff in E. destruct E as [E | E]; contradiction.
  - split; [| apply Hiff].
    destruct (negb _ || negb _) eqn:E; [| reflexivity].
    apply Hiff in E. destruct E as [E | E]; contradiction.
Qed.

Lemma reconnect_exactly_on_parameter_change_witness :
  BinaryLink.connectionParamsChanged
    (fst (snd (Binary.Start exampleUtil (fun _ => inr (Go.str "busy"))
                 (Binary.NewSerialIO (exampleDeej false [])))))
  = false.
Proof.
  apply (reconnect_exactly_on_parameter_change exampleUtil (fun _ => inr (Go.str "busy"))
           (Binary.NewSerialIO (exampleDeej false []))
           (Deej.config (exampleDeej false []))).
  reflexivity.
Defined.

(** X8.  Stopping and starting again.  On a connected engine [Stop] signals
    the read loop, whose [close] drops the handle and the connected flag and
    nothing else: connection options, slider count, stored volume data and
    consumers survive.  After that [Stop] signals nothing, and a new [Start]
    is not refused: if the port opens, the engine is connected again with
    the tracker it had before. *)
Theorem restart_after_stop (U : util) (serial_Open : OpenOptions.t -> Conn + list ascii)
    (conn_Close : Conn -> bool) (sio : Binary.SerialIO) (c : Conn) :
  Binary.connected sio = true ->
  Binary.conn sio = Some c ->
  snd (BinaryLink.Stop sio) = true
  /\ exists tr sio1,
       BinaryLink.close conn_Close sio = BinaryLink.Closed tr sio1
       /\ sio1 = Binary.set_connection sio false (Binary.connOptions sio) None
       /\ snd (BinaryLink.Stop sio1) = false
       /\ snd (snd (Binary.Start U serial_Open sio1)) <> Some ErrAlreadyActive
       /\ forall c',
            serial_Open (Binary.connOptions (fst (snd (Binary.Start U serial_Open sio1))))
            = inl c' ->
            let sio2 := fst (snd (Binary.Start U serial_Open sio1)) in
            snd (snd (Binary.Start U serial_Open sio1)) = None
            /\ Binary.connected sio2 = true
            /\ Binary.conn sio2 = Some c'
            /\ Binary.lastKnownNumSliders sio2 = Binary.lastKnownNumSliders sio
            /\ Binary.currentVolumeDatas sio2 = Binary.currentVolumeDatas sio
            /\ Binary.sliderMoveConsumers sio2 = Binary.sliderMoveConsumers sio.
Proof.
  intros Hc Hh. unfold BinaryLink.Stop, BinaryLink.close. rewrite Hc, Hh.
  split; [reflexivity |]. eexists. eexists. split; [reflexivity |].
  split; [reflexivity |].
  cbn [Binary.set_connection Binary.connected]. split; [reflexivity |].
  unfold Binary.Start. cbn [Binary.set_connection Binary.connected]. cbv zeta.
  destruct (serial_Open _) as [c1 | cause] eqn:Eo; cbn [fst snd].
  - split; [discriminate |]. intros c' Hc'.
    cbn [Binary.set_connection Binary.connOptions Binary.deej] in Hc', Eo.
    rewrite Eo in Hc'. injection Hc' as <-. repeat split.
  - split; [discriminate |]. intros c' Hc'.
    cbn [Binary.set_connection Binary.connOptions Binary.deej] in Hc', Eo.
    rewrite Eo in Hc'. discriminate Hc'.
Qed.

Lemma restart_after_stop_witness :
  snd (BinaryLink.Stop oneSliderAtZero) = true
  /\ exists tr sio1,
       BinaryLink.close (fun _ => false) oneSliderAtZero = BinaryLink.Closed tr sio1
       /\ snd (BinaryLink.Stop sio1) = false
       /\ snd (snd (Binary.Start exampleUtil (fun _ => inl 4%nat) sio1)) = None
       /\ Binary.currentVolumeDatas (fst (snd (Binary.Start exampleUtil (fun _ => inl 4%nat) sio1)))
          = Binary.currentVolumeDatas oneSliderAtZero.
Proof.
  destruct (restart_after_stop exampleUtil (fun _ => inl 4%nat) (fun _ => false)
              oneSliderAtZero 0%nat eq_refl eq_refl)
    as (Hs & tr & sio1 & Hcl & _ & Hs1 & _ & Hre).
  split; [exact Hs |]. exists tr, sio1. split; [exact Hcl |]. split; [exact Hs1 |].
  destruct (Hre 4%nat eq_refl) as (He & _ & _ & _ & Hv & _).
  split; [exact He | exact Hv].
Defined.

(** ** The read loop and the reload of the configuration *)

Lemma resetSliderCount_wf (sio : Binary.SerialIO) : binary_wf (BinaryLink.resetSliderCount sio).
Proof. left. reflexivity. Qed.

(** X9.  The read loop on a well-formed tracker: as long as the units it is
    given have even length, the loop never dies, whatever their number and
    content; the tracker stays well formed and the link (flag, options,
    handle, consumers) is as before. *)
Theorem readLoop_survives_even_frames (U : util) (conn_Close : Conn -> bool)
    (rs : list BinaryLink.received) :
  forall sio : Binary.SerialIO,
    binary_wf sio ->
    Forall (fun r => exists bytes,
                r = BinaryLink.Unit bytes /\ Nat.even (length bytes) = true) rs ->
    exists tr sio',
      BinaryLink.readLoop conn_Close U sio rs = (tr, BinaryLink.Looping sio')
      /\ binary_wf sio'
      /\ Binary.connected sio' = Binary.connected sio
      /\ Binary.connOptions sio' = Binary.connOptions sio
      /\ Binary.conn sio' = Binary.conn sio
      /\ Binary.sliderMoveConsumers sio' = Binary.sliderMoveConsumers sio.
Proof.
  induction rs as [| r rs IH]; intros sio Hwf Hall.
  - exists [], sio. repeat split; try reflexivity. exact Hwf.
  - apply Forall_cons_iff in Hall. destruct Hall as [(bytes & -> & He) Hall].
    destruct (handleBytes_preserves_wf U sio bytes Hwf He) as (tr & sio1 & Hh & Hwf1).
    pose proof (handleBytes_Returns_sliders U sio sio1 bytes tr Hh) as Hs1.
    assert (Hc : Binary.connected sio1 = Binary.connected sio) by (rewrite Hs1; reflexivity).
    assert (Ho : Binary.connOptions sio1 = Binary.connOptions sio) by (rewrite Hs1; reflexivity).
    assert (Hcn : Binary.conn sio1 = Binary.conn sio) by (rewrite Hs1; reflexivity).
    assert (Hcs : Binary.sliderMoveConsumers sio1 = Binary.sliderMoveConsumers sio)
      by (rewrite Hs1; reflexivity).
    destruct (IH sio1 Hwf1 Hall) as (tr' & sio' & Hl & Hwf' & Hc' & Ho' & Hcn' & Hcs').
    cbn [BinaryLink.readLoop BinaryLink.loopStep]. rewrite Hh, Hl.
    eexists. eexists. split; [reflexivity |].
    repeat split; try assumption; congruence.
Qed.

Lemma readLoop_survives_even_frames_witness :
  exists tr sio',
    BinaryLink.readLoop (fun _ => false) exampleUtil freshBinary
      [BinaryLink.Unit frame512; BinaryLink.Unit []; BinaryLink.Unit [x08; x00; x04; x00]]
    = (tr, BinaryLink.Looping sio')
    /\ binary_wf sio'
    /\ Binary.connected sio' = Binary.connected freshBinary
    /\ Binary.connOptions sio' = Binary.connOptions freshBinary
    /\ Binary.conn sio' = Binary.conn freshBinary
    /\ Binary.sliderMoveConsumers sio' = Binary.sliderMoveConsumers freshBinary.
Proof.
  apply (readLoop_survives_even_frames exampleUtil (fun _ => false)).
  - left. reflexivity.
  - repeat constructor; eexists; (split; [reflexivity | reflexivity]).
Defined.

(** X10.  A reload of the configuration sets the slider count to zero.  The
    next frame with at least one word then finds the count changed, resets
    every stored value to the sentinel, and, provided each reading is
    significantly different from the sentinel, sends one event per slider,
    in ascending order, to every consumer. *)
Theorem reload_forces_full_report (U : util) (sio : Binary.SerialIO) (bytes : list byte) :
  binary_wf sio ->
  Nat.even (length bytes) = true ->
  bytes <> [] ->
  let data := map Binary.unpack (words bytes) in
  (forall k ad, data !! k = Some ad ->
     emits U (Binary.deej sio) k ad
       {| Binary.VolumeData.Value := -1; Binary.VolumeData.Mute := false |} = true) ->
  exists tr sio',
    Binary.handleBytes U (BinaryLink.resetSliderCount sio) bytes = (tr, Go.Returns sio')
    /\ Binary.lastKnownNumSliders sio' = Z.of_nat (Nat.div2 (length bytes))
    /\ Binary.sends tr
       = broadcast (Binary.sliderMoveConsumers sio) (allEvents U (Binary.deej sio) 0 data)
    /\ length (allEvents U (Binary.deej sio) 0 data) = Nat.div2 (length bytes).
Proof.
  intros Hwf He Hne data Hall.
  assert (Hlen : length data = Nat.div2 (length bytes))
    by (unfold data; rewrite length_map; apply length_words_div2).
  assert (Hpos : (0 < length data)%nat).
  { rewrite Hlen. destruct bytes as [| b1 [| b2 rest]]; [contradiction | discriminate He |].
    cbn [length Nat.div2]. apply Nat.lt_0_succ. }
  destruct (resync_reports_every_slider U (BinaryLink.resetSliderCount sio) bytes
              (resetSliderCount_wf sio) He) as (tr & sio' & Hh & Hc & Hs & Hl).
  - fold data. cbn [BinaryLink.resetSliderCount Binary.set_sliders Binary.lastKnownNumSliders].
    lia.
  - exact Hall.
  - fold data in Hc, Hs, Hl. exists tr, sio'. split; [exact Hh |].
    rewrite <- Hlen. split; [exact Hc |]. split; [exact Hs | exact Hl].
Qed.

Lemma reload_forces_full_report_witness :
  exists tr sio',
    Binary.handleBytes exampleUtil (BinaryLink.resetSliderCount oneSliderAtZero) [x00; x00]
    = (tr, Go.Returns sio')
    /\ Binary.lastKnownNumSliders sio' = Z.of_nat 1
    /\ Binary.sends tr
       = broadcast [7%nat]
           (allEvents exampleUtil (Binary.deej oneSliderAtZero) 0
              (map Binary.unpack (words [x00; x00])))
    /\ length (allEvents exampleUtil (Binary.deej oneSliderAtZero) 0
                 (map Binary.unpack (words [x00; x00]))) = 1%nat.
Proof.
  apply (reload_forces_full_report exampleUtil oneSliderAtZero [x00; x00]).
  - right. reflexivity.
  - reflexivity.
  - discriminate.
  - intros k ad Hk. destruct k as [| k]; [| discriminate Hk].
    injection Hk as <-. vm_compute. reflexivity.
Defined.

(** ** The reader goroutines on reads without error *)

(** X11.  The line reader puts on its channel exactly the lines read before
    the first error, in order and unchanged, and then leaves its loop; what
    the reader would return after the failed read is never asked for.  As
    long as no read fails it stays in its loop. *)
Theorem readLine_delivers_until_first_error (verbose : bool)
    (pre post : list Line.ReadResult) (r : Line.ReadResult) :
  Forall (fun x => Line.err x = false) pre ->
  Line.err r = true ->
  fst (fst (Line.readLine verbose pre)) = map Line.got pre
  /\ snd (Line.readLine verbose pre) = Line.Reading
  /\ fst (fst (Line.readLine verbose (pre ++ r :: post))) = map Line.got pre
  /\ snd (Line.readLine verbose (pre ++ r :: post)) = Line.Stopped.
Proof.
  intros Hpre Hr. induction Hpre as [| x pre Hx _ IH].
  - cbn [app Line.readLine map]. rewrite Hr. repeat split.
  - destruct IH as (I1 & I2 & I3 & I4).
    cbn [app Line.readLine map]. rewrite Hx.
    destruct (Line.readLine verbose pre) as [[l1 t1] s1].
    destruct (Line.readLine verbose (pre ++ r :: post)) as [[l2 t2] s2].
    cbn [fst snd] in *. subst. repeat split.
Qed.

Lemma readLine_delivers_until_first_error_witness :
  fst (fst (Line.readLine false
              [ {| Line.got := Go.str "1|2" ++ CRLF; Line.err := false |};
                {| Line.got := Go.str "3"; Line.err := true |};
                {| Line.got := Go.str "4|5" ++ CRLF; Line.err := false |} ]))
  = [Go.str "1|2" ++ CRLF]
  /\ snd (Line.readLine false
            [ {| Line.got := Go.str "1|2" ++ CRLF; Line.err := false |};
              {| Line.got := Go.str "3"; Line.err := true |};
              {| Line.got := Go.str "4|5" ++ CRLF; Line.err := false |} ])
     = Line.Stopped.
Proof.
  destruct (readLine_delivers_until_first_error false
              [ {| Line.got := Go.str "1|2" ++ CRLF; Line.err := false |} ]
              [ {| Line.got := Go.str "4|5" ++ CRLF; Line.err := false |} ]
              {| Line.got := Go.str "3"; Line.err := true |}
              ltac:(repeat constructor) eq_refl) as (_ & _ & H3 & H4).
  split; [exact H3 | exact H4].
Defined.

(** X12.  The byte reader on reads without error: each read is a payload
    followed by the terminator; the units put on the channel are exactly the
    payloads, in order, the terminator and nothing else being cut off, and
    the reader stays in its loop.  This is so whatever the verbosity. *)
Theorem readBytes_delivers_payloads (verbose : bool) (payloads : list (list byte)) :
  let reads :=
    map (fun p => {| Binary.got := p ++ [x0a]; Binary.err := false |}) payloads in
  fst (fst (Binary.readBytes verbose reads)) = payloads
  /\ snd (Binary.readBytes verbose reads) = Binary.Reading.
Proof.
  induction payloads as [| p ps IH]; cbn [map Binary.readBytes Binary.err Binary.got andb].
  - split; reflexivity.
  - destruct IH as [I1 I2].
    assert (Hd : Binary.dropLast (p ++ [x0a]) = Go.Returns p).
    { unfold Binary.dropLast. rewrite removelast_last.
      destruct (p ++ [x0a]) eqn:E; [destruct p; discriminate E | reflexivity]. }
    rewrite Hd.
    destruct (Binary.readBytes verbose _) as [[us t] s].
    cbn [fst snd] in *. subst. split; reflexivity.
Qed.

(** ** The line engine: [Start], and frames on a well-formed tracker *)

(** X13.  [Start] of the line engine never touches the tracker, the list of
    consumers or the [Deej] instance.  It returns no error exactly when the
    engine was not connected, the port opened and the initialisation
    sequence succeeded, and then the engine is connected with the handle;
    when the open or the initialisation fails, the engine is left not
    connected and without a handle. *)
Theorem line_Start_outcomes (U : util) (serial_Open : OpenOptions.t -> Conn + list ascii)
    (performInitializationSequence : Conn -> option (list ascii))
    (conn_Close : Conn -> bool) (sio : Line.SerialIO) :
  let r := Line.Start U serial_Open performInitializationSequence conn_Close sio in
  let sio' := fst (snd r) in
  let e := snd (snd r) in
  (Line.lastKnownNumSliders sio' = Line.lastKnownNumSliders sio
   /\ Line.currentSliderPercentValues sio' = Line.currentSliderPercentValues sio
   /\ Line.sliderMoveConsumers sio' = Line.sliderMoveConsumers sio
   /\ Line.deej sio' = Line.deej sio)
  /\ Line.sends (fst r) = []
  /\ (e = None <->
      Line.connected sio = false
      /\ exists c, serial_Open (Line.connOptions sio') = inl c
                   /\ performInitializationSequence c = None
                   /\ Line.connected sio' = true /\ Line.conn sio' = Some c)
  /\ (forall cause, e = Some (ErrOpen cause) \/ e = Some (ErrInitialization cause) ->
      Line.connected sio' = false /\ Line.conn sio' = None).
Proof.
  unfold Line.Start. destruct (Line.connected sio) eqn:Ec.
  - cbn [fst snd]. crush_outcomes.
  - cbv zeta.
    destruct (serial_Open _) as [c | cause] eqn:Eo.
    + destruct (performInitializationSequence c) as [cause |] eqn:Ei.
      * unfold Line.close.
        cbn [fst snd Line.set_connection Line.lastKnownNumSliders
             Line.currentSliderPercentValues Line.sliderMoveConsumers Line.deej
             Line.connected Line.conn Line.connOptions].
        split; [repeat split |]. split.
        { rewrite !line_sends_app. destruct (conn_Close c); reflexivity. }
        split; [| intros; split; reflexivity].
        split; [discriminate |]. intros (_ & c' & _ & _ & H & _). discriminate H.
      * cbn [fst snd Line.set_connection Line.lastKnownNumSliders
             Line.currentSliderPercentValues Line.sliderMoveConsumers Line.deej
             Line.connected Line.conn Line.connOptions].
        split; [repeat split |]. split; [reflexivity |].
        split; [| intros cause [H | H]; discriminate H].
        split; [| reflexivity]. intros _. split; [reflexivity |].
        exists c. repeat split; assumption.
    + cbn [fst snd Line.set_connection Line.lastKnownNumSliders
           Line.currentSliderPercentValues Line.sliderMoveConsumers Line.deej
           Line.connected Line.conn Line.connOptions].
      split; [repeat split |]. split; [reflexivity |].
      split; [| intros; split; reflexivity].
      split; [discriminate |]. intros (_ & c' & H & _). rewrite Eo in H. discriminate H.
Qed.

Lemma line_updateSliderCount_wf (sio : Line.SerialIO) (n : nat) :
  line_wf sio ->
  line_wf (fst (Line.updateSliderCount sio n)).
Proof.
  intros Hwf. unfold Line.updateSliderCount.
  destruct (negb (Z.of_nat n =? Line.lastKnownNumSliders sio)); cbn [fst]; [| exact Hwf].
  right. cbn [Line.set_sliders Line.lastKnownNumSliders Line.currentSliderPercentValues].
  rewrite length_map, length_replicate. reflexivity.
Qed.

Lemma line_updateSliderCount_link (sio : Line.SerialIO) (n : nat) :
  let s1 := fst (Line.updateSliderCount sio n) in
  Line.deej s1 = Line.deej sio
  /\ Line.connected s1 = Line.connected sio
  /\ Line.connOptions s1 = Line.connOptions sio
  /\ Line.conn s1 = Line.conn sio
  /\ Line.sliderMoveConsumers s1 = Line.sliderMoveConsumers sio.
Proof.
  unfold Line.updateSliderCount.
  destruct (negb (Z.of_nat n =? Line.lastKnownNumSliders sio)); repeat split.
Qed.

(** X14.  On a well-formed tracker [handleLine] handles every line, matching
    or not, without panic; the tracker is well formed afterwards, and the
    [Deej] instance, the connected flag, the connection options, the handle
    and the consumers are as before. *)
Theorem handleLine_total_keeps_wf (U : util) (sio : Line.SerialIO) (line : list ascii) :
  line_wf sio ->
  exists tr sio',
    Line.handleLine U sio line = (tr, Go.Returns sio')
    /\ line_wf sio'
    /\ Line.deej sio' = Line.deej sio
    /\ Line.connected sio' = Line.connected sio
    /\ Line.connOptions sio' = Line.connOptions sio
    /\ Line.conn sio' = Line.conn sio
    /\ Line.sliderMoveConsumers sio' = Line.sliderMoveConsumers sio.
Proof.
  intros Hwf.
  destruct (Regexp.MatchString Line.expectedLinePattern line) eqn:Hm.
  - destruct (Split_nonempty (strings.TrimSuffix line CRLF) "|"%char) as (first & rest & Hf).
    fold (fieldsOf line) in Hf.
    pose proof (line_updateSliderCount_wf sio (length (first :: rest)) Hwf)
      as Hwf1.
    pose proof (line_updateSliderCount_link sio (length (first :: rest))) as Hlink.
    cbv zeta in Hlink.
    destruct (Z.ltb_spec 1023 (fst (strconv.Atoi first))) as [Hbig | Hsmall].
    + destruct (handleLine_dropped U sio line first rest Hm Hf Hbig) as (tr & Hh & _).
      eexists. eexists. split; [exact Hh |]. split; [exact Hwf1 | exact Hlink].
    + destruct (handleLine_processed U sio line first rest Hwf Hm Hf Hsmall) as (tr & Hh & _).
      eexists. eexists. split; [exact Hh |].
      split; [| cbn [Line.set_sliders Line.deej Line.connected Line.connOptions Line.conn
                     Line.sliderMoveConsumers]; exact Hlink].
      unfold line_wf in *.
      cbn [Line.set_sliders Line.lastKnownNumSliders Line.currentSliderPercentValues].
      rewrite lineStepVals_length. exact Hwf1.
  - rewrite (handleLine_discards U sio line Hm).
    exists [], sio. repeat split. exact Hwf.
Qed.

Lemma handleLine_total_keeps_wf_witness :
  exists tr sio',
    Line.handleLine exampleUtil fiveSliders (Go.str "12|900|3|4|5" ++ CRLF)
    = (tr, Go.Returns sio')
    /\ line_wf sio'
    /\ Line.deej sio' = Line.deej fiveSliders
    /\ Line.connected sio' = Line.connected fiveSliders
    /\ Line.connOptions sio' = Line.connOptions fiveSliders
    /\ Line.conn sio' = Line.conn fiveSliders
    /\ Line.sliderMoveConsumers sio' = Line.sliderMoveConsumers fiveSliders.
Proof.
  apply (handleLine_total_keeps_wf exampleUtil fiveSliders (Go.str "12|900|3|4|5" ++ CRLF)).
  right. reflexivity.
Defined.

(** ** The handshake *)

Lemma handshakeLoop_quiet (pre rest : list Handshake.pass) :
  forallb quietPass pre = true ->
  Handshake.handshakeLoop (pre ++ rest)
  = (resends pre ++ fst (Handshake.handshakeLoop rest), snd (Handshake.handshakeLoop rest)).
Proof.
  induction pre as [| p pre IH]; intros Hq.
  - cbn [app resends flat_map]. destruct (Handshake.handshakeLoop rest). reflexivity.
  - cbn [forallb] in Hq. apply andb_true_iff in Hq. destruct Hq as [Hp Hq].
    specialize (IH Hq). cbn [app Handshake.handshakeLoop].
    destruct p as [writeFails | [eof | n b] ackWriteFails]; cbn [quietPass] in Hp.
    + apply negb_true_iff in Hp. subst writeFails. rewrite IH. reflexivity.
    + subst eof. rewrite IH. reflexivity.
    + destruct (Nat.ltb 0 n); cbn [negb orb] in Hp; [| rewrite IH; reflexivity].
      apply negb_true_iff in Hp. apply orb_false_iff in Hp. destruct Hp as [H1 H2].
      rewrite H1, H2, IH. reflexivity.
Qed.

(** X15.  The handshake ends at the first marker.  As long as no write or
    read fails, every byte received that is neither ['>'] nor ['<'] is
    skipped; the first byte received that is one of the two ends the
    handshake with success, whatever would follow.  What is written is the
    initial ['>'], one ['>'] per retry tick before that byte, and a closing
    ['<'] exactly when the byte was ['>'].  If no marker arrives before the
    timeout, the result is the timeout error. *)
Theorem handshake_completes_on_first_marker (pre post : list Handshake.pass)
    (n : nat) (b : byte) :
  forallb quietPass pre = true ->
  (0 < n)%nat ->
  b = Handshake.handshakeChar \/ b = Handshake.ackChar ->
  Handshake.performHandshake false
    (pre ++ Handshake.Read (Handshake.ReadCount n b) false :: post)
  = (Handshake.handshakeChar :: resends pre
       ++ (if Byte.eqb b Handshake.handshakeChar then [Handshake.ackChar] else []),
     None)
  /\ Handshake.performHandshake false pre
     = (Handshake.handshakeChar :: resends pre, Some "handshake timed out after 5s"%string).
Proof.
  intros Hq Hn Hb. unfold Handshake.performHandshake. split.
  - rewrite (handshakeLoop_quiet pre _ Hq). cbn [Handshake.handshakeLoop].
    apply Nat.ltb_lt in Hn. rewrite Hn.
    destruct Hb as [-> | ->]; reflexivity.
  - pose proof (handshakeLoop_quiet pre [] Hq) as H. rewrite app_nil_r in H.
    rewrite H. cbn [Handshake.handshakeLoop fst snd]. rewrite app_nil_r. reflexivity.
Qed.

Lemma handshake_completes_on_first_marker_witness :
  Handshake.performHandshake false
    ([Handshake.Read (Handshake.ReadCount 1 x0a) false; Handshake.Tick false;
      Handshake.Read (Handshake.ReadFailed true) false]
     ++ Handshake.Read (Handshake.ReadCount 1 x3e) false
        :: [Handshake.Read (Handshake.ReadCount 1 x3c) false])
  = ([x3e; x3e; x3c], None).
Proof.
  exact (proj1 (handshake_completes_on_first_marker
                  [Handshake.Read (Handshake.ReadCount 1 x0a) false; Handshake.Tick false;
                   Handshake.Read (Handshake.ReadFailed true) false]
                  [Handshake.Read (Handshake.ReadCount 1 x3c) false]
                  1 x3e eq_refl (Nat.lt_0_succ 0) (or_introl eq_refl))).
Defined.



(** ** The initialisation data, from [produceInitData] to [receiveData] *)

Lemma byteZ_u8 (z : Z) : Go.byteZ (InitData.u8 z) = z mod 256.
Proof.
  unfold InitData.u8, Go.byteZ.
  pose proof (Z.mod_pos_bound z 256 ltac:(lia)) as Hm.
  destruct (Byte.of_N (Z.to_N (z mod 256))) as [b |] eqn:E.
  - apply Byte.to_of_N in E. rewrite E. lia.
  - apply Byte.of_N_None_iff in E. lia.
Qed.

Lemma u8_not_marker (v : Z) :
  plainByte v -> Byte.eqb (InitData.u8 v) x3e = false /\ Byte.eqb (InitData.u8 v) x3c = false.
Proof.
  intros (Hr & H60 & H62).
  pose proof (byteZ_u8 v) as Hb. rewrite Z.mod_small in Hb by lia.
  split.
  - destruct (Byte.eqb (InitData.u8 v) x3e) eqn:E; [| reflexivity].
    apply Byte.byte_dec_bl in E. rewrite E in Hb. vm_compute in Hb. lia.
  - destruct (Byte.eqb (InitData.u8 v) x3c) eqn:E; [| reflexivity].
    apply Byte.byte_dec_bl in E. rewrite E in Hb. vm_compute in Hb. lia.
Qed.

Lemma appendValues_in_range (values : list Z) :
  forall initData : list byte,
    Forall (fun v => 0 <= v <= 255) values ->
    InitData.appendValues initData values = InitData.Ok (initData ++ map InitData.u8 values).
Proof.
  induction values as [| v values IH]; intros initData Hall; cbn [InitData.appendValues map].
  - rewrite app_nil_r. reflexivity.
  - apply Forall_cons_iff in Hall. destruct Hall as [Hv Hall].
    destruct (Z.ltb_spec v 0); [lia |]. destruct (Z.ltb_spec 255 v); [lia |].
    cbn [orb]. rewrite IH by exact Hall. rewrite <- app_assoc. reflexivity.
Qed.

Lemma receiveLoop_end (size index : nat) (later outArray : list byte) :
  ComboFirmware.receiveLoop size (x3c :: later) outArray index true
  = Some (outArray, true, later).
Proof. reflexivity. Qed.

Lemma receiveLoop_payload (size : nat) (later : list byte) (payload : list byte) :
  forall (index : nat) (outArray : list byte),
    length outArray = size ->
    (size <= 255)%nat ->
    (index + length payload <= size)%nat ->
    Forall (fun b => Byte.eqb b x3e = false /\ Byte.eqb b x3c = false) payload ->
    ComboFirmware.receiveLoop size (payload ++ x3c :: later) outArray index true
    = Some (take index outArray ++ payload ++ drop (index + length payload) outArray,
            true, later).
Proof.
  induction payload as [| b payload IH]; intros index outArray Hlen Hsize Hfit Hall.
  - cbn [app length]. rewrite receiveLoop_end, Nat.add_0_r, take_drop. reflexivity.
  - apply Forall_cons_iff in Hall. destruct Hall as [[Hb1 Hb2] Hall].
    cbn [length] in Hfit. cbn [app ComboFirmware.receiveLoop negb].
    rewrite Hb1, Hb2.
    destruct (Nat.ltb_spec index (length outArray)) as [Hin | Hout]; [| lia].
    rewrite (Nat.mod_small (index + 1) 256) by lia.
    destruct payload as [| b' payload'].
    + cbn [app]. rewrite receiveLoop_end. cbn [length].
      rewrite (insert_take_drop outArray index b Hin).
      replace (index + 1)%nat with (S index) by lia. reflexivity.
    + cbn [length] in Hfit.
      destruct (Nat.leb_spec size (index + 1)) as [Hc | Hc]; [lia |].
      replace (index + 1)%nat with (S index) by lia.
      rewrite IH; [| rewrite length_insert; exact Hlen | exact Hsize
                   | cbn [length]; lia | exact Hall].
      rewrite (take_S_r (<[index := b]> outArray) index b)
        by (apply list_lookup_insert_eq; exact Hin).
      rewrite take_insert_ge by lia. rewrite drop_insert_lt by lia.
      rewrite <- app_assoc. cbn [app length].
      replace (S index + S (length payload'))%nat
        with (index + S (S (length payload')))%nat by lia.
      reflexivity.
Qed.

(** X17.  Round trip of the initialisation data.  For at most [size] values
    that are bytes other than the two markers 60 (['<']) and 62 (['>']),
    [produceInitData] frames them as ['>'], the bytes in order, ['<'], and
    the firmware's [receiveData], whatever it finds in the buffer after the
    frame, stores exactly these bytes at the start of its array, leaves the
    rest of the array alone, reports that it received, and consumes the
    frame and nothing after it. *)
Theorem init_data_round_trip (values : list Z) (size : nat) (outArray later : list byte) :
  length outArray = size ->
  (size <= 255)%nat ->
  (length values <= size)%nat ->
  Forall plainByte values ->
  InitData.frameInitData values
  = InitData.Ok (x3e :: map InitData.u8 values ++ [x3c])
  /\ ComboFirmware.receiveData size
       ((x3e :: map InitData.u8 values ++ [x3c]) ++ later) outArray
     = Some (map InitData.u8 values ++ drop (length values) outArray, true, later)
  /\ map Go.byteZ (map InitData.u8 values) = values.
Proof.
  intros Hlen Hsize Hfit Hall. split; [| split].
  - unfold InitData.frameInitData.
    rewrite appendValues_in_range.
    + reflexivity.
    + eapply Forall_impl; [exact Hall |]. intros v (Hr & _). exact Hr.
  - unfold ComboFirmware.receiveData. cbn [app ComboFirmware.receiveLoop Byte.eqb].
    rewrite <- app_assoc. cbn [app].
    rewrite (receiveLoop_payload size later (map InitData.u8 values) 0 outArray Hlen Hsize).
    + rewrite length_map. reflexivity.
    + rewrite length_map. exact Hfit.
    + apply Forall_map. eapply Forall_impl; [exact Hall |].
      intros v Hv. apply u8_not_marker. exact Hv.
  - clear Hfit. induction Hall as [| v values (Hr & _) _ IH]; [reflexivity |].
    cbn [map]. rewrite IH, byteZ_u8, Z.mod_small by lia. reflexivity.
Qed.

Lemma init_data_round_trip_witness :
  InitData.frameInitData [0; 128; 255] = InitData.Ok [x3e; x00; x80; xff; x3c]
  /\ ComboFirmware.receiveData 5 ([x3e; x00; x80; xff; x3c] ++ [x3e]) [x01; x01; x01; x01; x01]
     = Some ([x00; x80; xff; x01; x01], true, [x3e]).
Proof.
  destruct (init_data_round_trip [0; 128; 255] 5 [x01; x01; x01; x01; x01] [x3e]
              eq_refl ltac:(lia) ltac:(simpl; lia)
              ltac:(repeat constructor; lia)) as (H1 & H2 & _).
  split; [exact H1 | exact H2].
Defined.

Lemma find_append {A : Type} (f : A -> bool) (l1 l2 : list A) :
  find f (l1 ++ l2) = match find f l1 with Some x => Some x | None => find f l2 end.
Proof.
  induction l1 as [| a l1 IH]; [reflexivity |].
  cbn [app find]. destruct (f a); [reflexivity | exact IH].
Qed.

(** X18.  Which volume goes into the initialisation data.  When no target
    comes with an empty list of sessions, the two nested loops of
    [produceInitData] give each slider the volume of the first session of the
    first resolved target that has sessions, targets and their resolutions
    taken in order; a slider none of whose targets resolves to sessions is
    left out, and the others keep the order of the iteration. *)
Theorem init_volume_is_first_resolved_session
    (resolveTarget : list ascii -> list (list ascii))
    (sessions_get : list ascii -> option (list Q))
    (m : list (Z * list (list ascii))) :
  (forall t, sessions_get t <> Some []) ->
  InitData.collectVolumes resolveTarget sessions_get m
  = InitData.Ok
      (omap (fun e => match firstResolvedVolume resolveTarget sessions_get (snd e) with
                      | Some v => Some (fst e, v)
                      | None => None
                      end) m).
Proof.
  intros Hne.
  assert (Hres : forall rts,
            InitData.overResolvedTargets sessions_get rts
            = InitData.Ok
                (match find (fun t => match sessions_get t with
                                      | Some _ => true | None => false end) rts with
                 | Some t => match sessions_get t with
                             | Some (volume :: _) => Some (InitData.truncate volume)
                             | _ => None
                             end
                 | None => None
                 end)).
  { induction rts as [| rt rts IH]; [reflexivity |].
    cbn [InitData.overResolvedTargets find].
    destruct (sessions_get rt) as [[| volume rest] |] eqn:E.
    - exfalso. exact (Hne rt E).
    - rewrite E. reflexivity.
    - exact IH. }
  assert (Htg : forall targets,
            InitData.overTargets resolveTarget sessions_get targets
            = InitData.Ok (firstResolvedVolume resolveTarget sessions_get targets)).
  { induction targets as [| t targets IH]; [reflexivity |].
    cbn [InitData.overTargets]. rewrite Hres.
    unfold firstResolvedVolume in *. cbn [flat_map]. rewrite find_append.
    destruct (find _ (resolveTarget t)) as [x |] eqn:Ef.
    - apply find_some in Ef. destruct Ef as [_ Ex].
      destruct (sessions_get x) as [[| volume rest] |] eqn:E; try discriminate Ex.
      + exfalso. exact (Hne x E).
      + reflexivity.
    - exact IH. }
  induction m as [| [ind targets] m IH]; [reflexivity |].
  cbn [InitData.collectVolumes omap list_omap fst snd]. rewrite Htg, IH.
  destruct (firstResolvedVolume resolveTarget sessions_get targets); reflexivity.
Qed.

Lemma init_volume_is_first_resolved_session_witness :
  InitData.collectVolumes (fun t => [t; t ++ Go.str ".exe"])
    (fun t => if strings.eqb t (Go.str "chrome.exe") then Some [(1 # 1)%Q; (0 # 1)%Q] else None)
    [(0, [Go.str "master"]); (1, [Go.str "mic"; Go.str "chrome"])]
  = InitData.Ok [(1, 1)].
Proof.
  rewrite (init_volume_is_first_resolved_session (fun t => [t; t ++ Go.str ".exe"])
             (fun t => if strings.eqb t (Go.str "chrome.exe")
                       then Some [(1 # 1)%Q; (0 # 1)%Q] else None)).
  - reflexivity.
  - intros t. destruct (strings.eqb t (Go.str "chrome.exe")); discriminate.
Defined.

(** ** The binary frame, from the firmware to [handleBytes] *)

Lemma roundTrips_all : forallb roundTrips allEntries = true.
Proof. vm_compute. reflexivity. Qed.

Lemma roundTrips_entry (v : BinaryFirmware.VolData) :
  -1024 <= BinaryFirmware.value v <= 1023 -> roundTrips v = true.
Proof.
  intros H. pose proof roundTrips_all as Hall. rewrite forallb_forall in Hall.
  apply Hall. unfold allEntries. apply in_flat_map.
  exists (Z.to_nat (BinaryFirmware.value v + 1024)). split; [apply in_seq; lia |].
  replace (Z.of_nat (Z.to_nat (BinaryFirmware.value v + 1024)) - 1024)
    with (BinaryFirmware.value v) by lia.
  destruct v as [x []]; cbn [BinaryFirmware.value]; [right; left | left]; reflexivity.
Qed.

(** X19.  Round trip of one channel word.  For every value from -1024 to
    1023 and either state of the mute toggle, the two bytes the firmware
    puts in its buffer, unpacked by the host, give back the value and the
    toggle. *)
Theorem firmware_word_round_trip (v : BinaryFirmware.VolData) :
  -1024 <= BinaryFirmware.value v <= 1023 ->
  exists hi lo,
    BinaryFirmware.packedBytes v = [hi; lo]
    /\ Binary.unpack (Binary.packWord hi lo) = readingOf v.
Proof.
  intros H. pose proof (roundTrips_entry v H) as Hr. unfold roundTrips in Hr.
  unfold BinaryFirmware.packedBytes in *.
  eexists. eexists. split; [reflexivity |].
  apply andb_true_iff in Hr. destruct Hr as [Hv Ht].
  apply Z.eqb_eq in Hv. apply Bool.eqb_prop in Ht.
  destruct (Binary.unpack _) as [x t]. cbn in Hv, Ht. subst. reflexivity.
Qed.

Lemma firmware_word_round_trip_witness :
  exists hi lo,
    BinaryFirmware.packedBytes {| BinaryFirmware.value := -22; BinaryFirmware.toggleMute := true |}
    = [hi; lo]
    /\ Binary.unpack (Binary.packWord hi lo)
       = {| Binary.ArduinoData.Value := -22; Binary.ArduinoData.ToggleMute := true |}.
Proof.
  apply (firmware_word_round_trip
           {| BinaryFirmware.value := -22; BinaryFirmware.toggleMute := true |}).
  simpl. lia.
Defined.

Lemma constrain_range (amt low high : Z) :
  low <= high -> low <= BinaryFirmware.constrain amt low high <= high.
Proof.
  intros H. unfold BinaryFirmware.constrain.
  destruct (Z.ltb_spec amt low); [lia |]. destruct (Z.ltb_spec high amt); lia.
Qed.

Lemma firmwareInv_initial : firmwareInv BinaryFirmware.initial.
Proof.
  unfold firmwareInv. cbn. repeat split; try reflexivity.
  repeat constructor; cbn; lia.
Qed.

Lemma firmwareInv_insert (st : BinaryFirmware.state) (i : nat) (v : BinaryFirmware.VolData) :
  firmwareInv st -> -1023 <= BinaryFirmware.value v <= 1023 ->
  firmwareInv {| BinaryFirmware.values := <[i := v]> (BinaryFirmware.values st);
                 BinaryFirmware.lastSentValues := BinaryFirmware.lastSentValues st |}.
Proof.
  intros (Hl & Hs & Hr) Hv. unfold firmwareInv. cbn [BinaryFirmware.values BinaryFirmware.lastSentValues].
  rewrite length_insert. repeat split; try assumption; try lia.
  apply Forall_insert; assumption.
Qed.

Lemma setValue_inv (index : nat) (newValue : Z) (st st' : BinaryFirmware.state) :
  firmwareInv st -> BinaryFirmware.setValue index newValue st = Some st' -> firmwareInv st'.
Proof.
  intros Hinv H. unfold BinaryFirmware.setValue in H.
  destruct (BinaryFirmware.values st !! index) as [v |]; [| discriminate].
  injection H as <-. apply firmwareInv_insert; [exact Hinv |].
  cbn [BinaryFirmware.value]. apply (constrain_range newValue (-1023) 1023). lia.
Qed.

Lemma tickEncoder_inv (index : nat) (direction : Z) (st st' : BinaryFirmware.state) :
  firmwareInv st -> BinaryFirmware.tickEncoder index direction st = Some st' -> firmwareInv st'.
Proof.
  intros Hinv H. unfold BinaryFirmware.tickEncoder in H.
  destruct (BinaryFirmware.values st !! _) as [v |]; [| discriminate].
  destruct (negb _).
  - eapply setValue_inv; eassumption.
  - injection H as <-. exact Hinv.
Qed.

Lemma tickPot_inv (i : nat) (rawValue : Z) (st st' : BinaryFirmware.state) :
  firmwareInv st -> BinaryFirmware.tickPot i rawValue st = Some st' -> firmwareInv st'.
Proof.
  intros Hinv H. unfold BinaryFirmware.tickPot in H.
  destruct (BinaryFirmware.values st !! i) as [v |]; [| discriminate].
  destruct (_ <? _).
  - eapply setValue_inv; eassumption.
  - injection H as <-. exact Hinv.
Qed.

Lemma tickPotsFrom_inv (readings : list Z) :
  forall (i : nat) (st st' : BinaryFirmware.state),
    firmwareInv st -> BinaryFirmware.tickPotsFrom i readings st = Some st' -> firmwareInv st'.
Proof.
  induction readings as [| r readings IH]; intros i st st' Hinv H; cbn in H.
  - injection H as <-. exact Hinv.
  - destruct (BinaryFirmware.tickPot i r st) as [st1 |] eqn:E; [| discriminate].
    eapply IH; [| exact H]. eapply tickPot_inv; eassumption.
Qed.

Lemma tickButton_inv (index : nat) (p : bool) (t : Z) (e : bool) (st st' : BinaryFirmware.state) :
  firmwareInv st -> BinaryFirmware.tickButton index p t e st = Some st' -> firmwareInv st'.
Proof.
  intros Hinv H. unfold BinaryFirmware.tickButton in H.
  destruct (BinaryFirmware.values st !! index) as [v |] eqn:Ev; [| discriminate].
  assert (Hv : -1023 <= BinaryFirmware.value v <= 1023).
  { destruct Hinv as (_ & _ & Hr). rewrite Forall_lookup in Hr. exact (Hr _ _ Ev). }
  destruct (_ && _); [| destruct e]; injection H as <-;
    try (apply firmwareInv_insert; [exact Hinv | exact Hv]); exact Hinv.
Qed.

Lemma trySendValues_inv (st : BinaryFirmware.state) :
  firmwareInv st -> firmwareInv (snd (BinaryFirmware.trySendValues st)).
Proof.
  intros Hinv. pose proof Hinv as (Hl & Hs & Hr). unfold BinaryFirmware.trySendValues.
  destruct (BinaryFirmware.shouldSendFrom _ _ _); [| exact Hinv].
  unfold firmwareInv.
  cbn [BinaryFirmware.sendValues snd fst BinaryFirmware.clearToggles
       BinaryFirmware.values BinaryFirmware.lastSentValues].
  rewrite (take_ge (BinaryFirmware.values st)) by lia.
  rewrite (drop_ge (BinaryFirmware.values st)) by lia.
  rewrite (drop_ge (BinaryFirmware.lastSentValues st)) by lia.
  rewrite !app_nil_r, length_map. repeat split; try assumption.
  apply Forall_map. eapply Forall_impl; [exact Hr |]. intros v Hv. exact Hv.
Qed.

Lemma firmwareRun_inv (steps : list firmwareStep) :
  forall st st' : BinaryFirmware.state,
    firmwareInv st -> firmwareRun steps st = Some st' -> firmwareInv st'.
Proof.
  induction steps as [| s steps IH]; intros st st' Hinv H; cbn in H.
  - injection H as <-. exact Hinv.
  - destruct (firmwareStepRun s st) as [st1 |] eqn:E; [| discriminate].
    eapply IH; [| exact H].
    destruct s; cbn in E.
    + eapply setValue_inv; eassumption.
    + eapply tickEncoder_inv; eassumption.
    + eapply tickPotsFrom_inv; eassumption.
    + eapply tickButton_inv; eassumption.
    + injection E as <-. apply trySendValues_inv. exact Hinv.
Qed.

Lemma words_packed (vs : list BinaryFirmware.VolData) :
  Forall (fun v => -1023 <= BinaryFirmware.value v <= 1023) vs ->
  map Binary.unpack (words (flat_map BinaryFirmware.packedBytes vs)) = map readingOf vs.
Proof.
  induction 1 as [| v vs Hv _ IH]; [reflexivity |].
  assert (Hr : roundTrips v = true) by (apply roundTrips_entry; lia).
  unfold roundTrips in Hr. unfold BinaryFirmware.packedBytes in *.
  cbn [flat_map app words map]. rewrite IH. f_equal.
  apply andb_true_iff in Hr. destruct Hr as [Hx Ht].
  apply Z.eqb_eq in Hx. apply Bool.eqb_prop in Ht.
  destruct (Binary.unpack _) as [x t]. cbn in Hx, Ht. subst. reflexivity.
Qed.

Lemma length_packed (vs : list BinaryFirmware.VolData) :
  length (flat_map BinaryFirmware.packedBytes vs) = (2 * length vs)%nat.
Proof. induction vs as [| v vs IH]; [reflexivity |]. cbn [flat_map length app BinaryFirmware.packedBytes]. rewrite IH. lia. Qed.

(** X20.  Whatever the firmware's loop has done since power-up (values
    set, encoders, pots and buttons ticked, frames sent), the frame
    [sendValues] writes is the start marker, ten payload bytes and the end
    marker, and the host's decoder turns the payload into exactly the
    firmware's five values and toggles, in order. *)
Theorem firmware_frame_decodes_to_values (steps : list firmwareStep) (st : BinaryFirmware.state) :
  firmwareRun steps BinaryFirmware.initial = Some st ->
  exists payload,
    fst (BinaryFirmware.sendValues st)
    = BinaryFirmware.START_MARKER :: payload ++ [BinaryFirmware.END_MARKER]
    /\ length payload = 10%nat
    /\ Binary.decode payload = Go.Returns (map readingOf (BinaryFirmware.values st)).
Proof.
  intros Hrun.
  pose proof (firmwareRun_inv steps _ _ firmwareInv_initial Hrun) as (Hl & _ & Hr).
  exists (flat_map BinaryFirmware.packedBytes (BinaryFirmware.values st)).
  unfold BinaryFirmware.sendValues. cbn [fst].
  rewrite take_ge by lia. split; [reflexivity |].
  assert (Hlen : length (flat_map BinaryFirmware.packedBytes (BinaryFirmware.values st)) = 10%nat).
  { rewrite length_packed, Hl. reflexivity. }
  split; [exact Hlen |].
  destruct (decode_even (flat_map BinaryFirmware.packedBytes (BinaryFirmware.values st)))
    as [Hd _]; [rewrite Hlen; reflexivity |].
  rewrite Hd, words_packed by exact Hr. reflexivity.
Qed.

Lemma firmware_frame_decodes_to_values_witness :
  exists payload,
    fst (BinaryFirmware.sendValues exampleFirmwareState)
    = BinaryFirmware.START_MARKER :: payload ++ [BinaryFirmware.END_MARKER]
    /\ length payload = 10%nat
    /\ Binary.decode payload
       = Go.Returns (map readingOf (BinaryFirmware.values exampleFirmwareState)).
Proof.
  apply (firmware_frame_decodes_to_values
           [TickButton 1 true 300 false; TickEncoder 0 (-1); TickPots [512; 3; 0]]).
  reflexivity.
Defined.

Lemma shouldSendFrom_after_send (vs : list BinaryFirmware.VolData) :
  forall i : nat,
    BinaryFirmware.shouldSendFrom i vs
      (map (fun v => {| BinaryFirmware.value := BinaryFirmware.value v;
                        BinaryFirmware.toggleMute := false |}) vs) = false.
Proof.
  induction vs as [| v vs IH]; intros i; [reflexivity |].
  cbn [map BinaryFirmware.shouldSendFrom].
  assert (Hc : BinaryFirmware.changed i v
                 {| BinaryFirmware.value := BinaryFirmware.value v;
                    BinaryFirmware.toggleMute := false |} = false).
  { unfold BinaryFirmware.changed. cbn [BinaryFirmware.value BinaryFirmware.toggleMute].
    rewrite Z.min_id, Z.max_id, Z.sub_diag, Z.eqb_refl.
    destruct (Nat.ltb i BinaryFirmware.NUM_POTS); reflexivity. }
  rewrite Hc. apply IH.
Qed.

(** X21.  [trySendValues] called twice in a row, with nothing ticked in
    between, writes no second frame and leaves the state as the first call
    left it; and when the first call did write a frame, every toggle is
    cleared afterwards. *)
Theorem trySendValues_twice_sends_once (st : BinaryFirmware.state) :
  length (BinaryFirmware.values st) = BinaryFirmware.FRAME_SIZE ->
  length (BinaryFirmware.lastSentValues st) = BinaryFirmware.FRAME_SIZE ->
  let st1 := snd (BinaryFirmware.trySendValues st) in
  BinaryFirmware.trySendValues st1 = (None, st1)
  /\ (fst (BinaryFirmware.trySendValues st) <> None ->
      Forall (fun v => BinaryFirmware.toggleMute v = false) (BinaryFirmware.values st1)).
Proof.
  intros Hl Hs. cbv zeta.
  destruct (BinaryFirmware.trySendValues st) as [o st1] eqn:E1. cbn [fst snd].
  unfold BinaryFirmware.trySendValues in E1.
  destruct (BinaryFirmware.shouldSendFrom _ _ _) eqn:E.
  - cbn [BinaryFirmware.sendValues BinaryFirmware.clearToggles
         BinaryFirmware.values BinaryFirmware.lastSentValues] in E1.
    unfold BinaryFirmware.clearToggles in E1.
    cbn [BinaryFirmware.values BinaryFirmware.lastSentValues] in E1.
    rewrite ?(take_ge (BinaryFirmware.values st)) in E1 by lia.
    rewrite (drop_ge (BinaryFirmware.values st)) in E1 by lia.
    rewrite (drop_ge (BinaryFirmware.lastSentValues st)) in E1 by lia.
    rewrite !app_nil_r in E1. injection E1 as <- <-. split.
    + unfold BinaryFirmware.trySendValues.
      cbn [BinaryFirmware.values BinaryFirmware.lastSentValues].
      rewrite !take_ge by (rewrite ?length_map; lia).
      rewrite shouldSendFrom_after_send. reflexivity.
    + intros _. cbn [BinaryFirmware.values].
      apply Forall_map. apply Forall_forall. intros v _. reflexivity.
  - injection E1 as <- <-. split.
    + unfold BinaryFirmware.trySendValues. rewrite E. reflexivity.
    + intros H. contradiction H. reflexivity.
Qed.

Lemma trySendValues_twice_sends_once_witness :
  BinaryFirmware.trySendValues (snd (BinaryFirmware.trySendValues exampleFirmwareState))
  = (None, snd (BinaryFirmware.trySendValues exampleFirmwareState))
  /\ (fst (BinaryFirmware.trySendValues exampleFirmwareState) <> None ->
      Forall (fun v => BinaryFirmware.toggleMute v = false)
             (BinaryFirmware.values (snd (BinaryFirmware.trySendValues exampleFirmwareState)))).
Proof.
  apply (trySendValues_twice_sends_once exampleFirmwareState); reflexivity.
Defined.

(** ** The text line, from the firmware to [handleLine] *)

Lemma printsBack_all : forallb printsBack (map Z.of_nat (seq 0 1024)) = true.
Proof. vm_compute. reflexivity. Qed.

Lemma isFieldb_isField (f : list ascii) : isFieldb f = true -> isField f.
Proof.
  unfold isFieldb, isField. intros H.
  apply andb_true_iff in H. destruct H as [H Hd].
  apply andb_true_iff in H. destruct H as [H1 H4].
  apply Nat.leb_le in H1. apply Nat.leb_le in H4.
  split; [lia |]. apply Forall_forall. intros c Hc.
  rewrite forallb_forall in Hd. apply Hd. apply list_elem_of_In. exact Hc.
Qed.

Lemma String_int_reads_back (n : Z) :
  0 <= n <= 1023 ->
  isField (Arduino.String_int n)
  /\ strconv.Atoi (Arduino.String_int n) = (n, false).
Proof.
  intros H. pose proof printsBack_all as Hall. rewrite forallb_forall in Hall.
  assert (Hp : printsBack n = true).
  { apply Hall. apply in_map_iff. exists (Z.to_nat n). split; [lia |]. apply in_seq. lia. }
  unfold printsBack in Hp. cbv zeta in Hp.
  apply andb_true_iff in Hp. destruct Hp as [Hp He].
  apply andb_true_iff in Hp. destruct Hp as [Hf Hv].
  split; [apply isFieldb_isField; exact Hf |].
  apply Z.eqb_eq in Hv. apply negb_true_iff in He.
  destruct (strconv.Atoi _) as [x e]. cbn in Hv, He. subst. reflexivity.
Qed.

Lemma build_Join (analogSliderValues : list Z) :
  forall (i : nat) (builtString : list ascii),
    (i + length analogSliderValues)%nat = SliderFirmware.NUM_POTS ->
    SliderFirmware.build i analogSliderValues builtString
    = builtString
      ++ strings.Join (map Arduino.String_int analogSliderValues) "|"%char.
Proof.
  induction analogSliderValues as [| v rest IH]; intros i acc Hi.
  - cbn. rewrite app_nil_r. reflexivity.
  - cbn [SliderFirmware.build]. cbn [length] in Hi.
    rewrite IH by lia. destruct rest as [| w rest].
    + cbn [length] in Hi.
      destruct (Nat.ltb_spec i (SliderFirmware.NUM_POTS - 1)) as [Hlt | _]; [lia |].
      cbn. rewrite app_nil_r. reflexivity.
    + cbn [length] in Hi.
      destruct (Nat.ltb_spec i (SliderFirmware.NUM_POTS - 1)) as [_ | Hge]; [| lia].
      change (strings.Join (map Arduino.String_int (v :: w :: rest)) "|"%char)
        with (Arduino.String_int v
              ++ "|"%char :: strings.Join (map Arduino.String_int (w :: rest)) "|"%char).
      rewrite <- !app_assoc. reflexivity.
Qed.

(** X22.  Round trip of a text line.  For five slider readings between 0
    and 1023, the line [sendSliderValues] prints is accepted by the line
    pattern of the host, splits into five fields, and [Atoi] reads the
    fields back as the five readings, without error. *)
Theorem slider_line_round_trip (analogSliderValues : list Z) :
  length analogSliderValues = SliderFirmware.NUM_POTS ->
  Forall (fun v => 0 <= v <= 1023) analogSliderValues ->
  let line := SliderFirmware.sendSliderValues analogSliderValues in
  Regexp.MatchString Line.expectedLinePattern line = true
  /\ map strconv.Atoi (fieldsOf line) = map (fun v => (v, false)) analogSliderValues.
Proof.
  intros Hlen Hr. cbv zeta. unfold SliderFirmware.sendSliderValues.
  rewrite take_ge by lia. rewrite build_Join by (rewrite Hlen; reflexivity).
  cbn [app]. fold CRLF.
  assert (Hne : map Arduino.String_int analogSliderValues <> []).
  { destruct analogSliderValues; [discriminate Hlen | discriminate]. }
  assert (Hf : Forall isField (map Arduino.String_int analogSliderValues)).
  { apply Forall_map. eapply Forall_impl; [exact Hr |].
    intros v Hv. apply String_int_reads_back. exact Hv. }
  split.
  - apply line_pattern_language. eexists. repeat split; eassumption.
  - rewrite fieldsOf_Join by assumption. rewrite map_map.
    clear Hlen Hne Hf. induction Hr as [| v vs Hv _ IH]; [reflexivity |].
    cbn [map]. rewrite IH. f_equal. apply String_int_reads_back. exact Hv.
Qed.

Lemma slider_line_round_trip_witness :
  Regexp.MatchString Line.expectedLinePattern
    (SliderFirmware.sendSliderValues [0; 240; 1023; 0; 58]) = true
  /\ map strconv.Atoi (fieldsOf (SliderFirmware.sendSliderValues [0; 240; 1023; 0; 58]))
     = map (fun v => (v, false)) [0; 240; 1023; 0; 58].
Proof.
  apply (slider_line_round_trip [0; 240; 1023; 0; 58]).
  - reflexivity.
  - repeat constructor; lia.
Defined.

Lemma line_updateSliderCount_count (sio : Line.SerialIO) (n : nat) :
  Line.lastKnownNumSliders (fst (Line.updateSliderCount sio n)) = Z.of_nat n.
Proof.
  unfold Line.updateSliderCount.
  destruct (Z.eqb_spec (Z.of_nat n) (Line.lastKnownNumSliders sio)) as [E | E];
    cbn [negb fst]; [symmetry; exact E | reflexivity].
Qed.

Lemma line_value_range (significantDifferenceThreshold : list ascii -> Q) (linux : bool)
    (d : Deej.t) (number : Z) :
  0 <= number <= 1023 ->
  (0 <= Line.normalizedScalar (spec_util significantDifferenceThreshold linux) d number <= 1)%Q.
Proof.
  intros Hn. unfold Line.normalizedScalar. cbn [NormalizeScalar spec_util].
  pose proof (spec_NormalizeScalar_range _ (dirtyFloat_range number Hn)) as Hr.
  destruct (CanonicalConfig.InvertSliders (Deej.config d)); lra.
Qed.

(** X23.  The line of the slider firmware, handled.  With [NormalizeScalar]
    the cut to two decimals, a tracker whose arrays agree with its count
    handles the line printed for five readings between 0 and 1023 to the
    end: afterwards it knows five sliders, and every event it sent carries
    a slider index from 0 to 4 and a [PercentValue] within [0, 1]. *)
Theorem slider_line_is_reported_within_unit_range
    (significantDifferenceThreshold : list ascii -> Q) (linux : bool)
    (sio : Line.SerialIO) (analogSliderValues : list Z) :
  line_wf sio ->
  length analogSliderValues = SliderFirmware.NUM_POTS ->
  Forall (fun v => 0 <= v <= 1023) analogSliderValues ->
  exists tr sio',
    Line.handleLine (spec_util significantDifferenceThreshold linux) sio
      (SliderFirmware.sendSliderValues analogSliderValues) = (tr, Go.Returns sio')
    /\ Line.lastKnownNumSliders sio' = 5
    /\ forall c ev,
         In (c, ev) (Line.sends tr) ->
         0 <= Line.SliderMoveEvent.SliderID ev < 5
         /\ (0 <= Line.SliderMoveEvent.PercentValue ev <= 1)%Q.
Proof.
  intros Hwf Hlen Hr.
  set (U := spec_util significantDifferenceThreshold linux).
  set (line := SliderFirmware.sendSliderValues analogSliderValues).
  assert (Hline : line = strings.Join (map Arduino.String_int analogSliderValues) "|"%char
                         ++ CRLF).
  { unfold line, SliderFirmware.sendSliderValues.
    rewrite take_ge by lia. rewrite build_Join by (rewrite Hlen; reflexivity). reflexivity. }
  assert (Hne : map Arduino.String_int analogSliderValues <> []).
  { destruct analogSliderValues; [discriminate Hlen | discriminate]. }
  assert (Hf : Forall isField (map Arduino.String_int analogSliderValues)).
  { apply Forall_map. eapply Forall_impl; [exact Hr |].
    intros v Hv. apply String_int_reads_back. exact Hv. }
  assert (Hm : Regexp.MatchString Line.expectedLinePattern line = true).
  { apply line_pattern_language. eexists. repeat split; eassumption. }
  assert (Hfields : fieldsOf line = map Arduino.String_int analogSliderValues).
  { rewrite Hline. apply fieldsOf_Join; assumption. }
  destruct analogSliderValues as [| v0 vs] eqn:Ev; [discriminate Hlen |].
  rewrite <- Ev in *.
  assert (Hfields' : fieldsOf line
                     = Arduino.String_int v0 :: map Arduino.String_int vs).
  { rewrite Hfields, Ev. reflexivity. }
  assert (Hsmall : fst (strconv.Atoi (Arduino.String_int v0)) <= 1023).
  { assert (H0 : 0 <= v0 <= 1023).
    { rewrite Ev in Hr. apply Forall_cons_iff in Hr. apply Hr. }
    destruct (String_int_reads_back v0 H0) as [_ Ha]. rewrite Ha. cbn [fst]. lia. }
  destruct (handleLine_processed U sio line _ _ Hwf Hm Hfields' Hsmall) as (tr & Hh & Hs).
  assert (Hn : length (Arduino.String_int v0 :: map Arduino.String_int vs) = 5%nat).
  { rewrite <- Hfields', Hfields, length_map. exact Hlen. }
  rewrite Hn in Hh, Hs.
  eexists. eexists. split; [exact Hh |]. split.
  - cbn [Line.set_sliders Line.lastKnownNumSliders].
    rewrite line_updateSliderCount_count. reflexivity.
  - intros c ev Hin. rewrite Hs in Hin. apply broadcast_In in Hin. destruct Hin as [_ Hin].
    apply lineStepEvents_In in Hin.
    + destruct Hin as (k & field & cur & Hk & _ & _ & ->).
      cbn [Line.SliderMoveEvent.SliderID Line.SliderMoveEvent.PercentValue lineNewEvent].
      pose proof (lookup_lt_Some _ _ _ Hk) as Hlt. rewrite Hn in Hlt.
      split; [lia |].
      rewrite <- Hfields', Hfields in Hk. rewrite list_lookup_fmap in Hk.
      destruct (analogSliderValues !! k) as [v |] eqn:Evk; [| discriminate Hk].
      cbn in Hk. injection Hk as <-.
      assert (Hv : 0 <= v <= 1023).
      { rewrite Forall_lookup in Hr. exact (Hr _ _ Evk). }
      destruct (String_int_reads_back v Hv) as [_ Ha]. rewrite Ha. cbn [fst].
      apply line_value_range. exact Hv.
    + rewrite Hn. pose proof (line_updateSliderCount_length sio 5 Hwf). lia.
Qed.

Lemma slider_line_is_reported_within_unit_range_witness :
  exists tr sio',
    Line.handleLine (spec_util (fun _ => 25 # 1000)%Q false) freshLine
      (SliderFirmware.sendSliderValues [0; 240; 1023; 0; 58]) = (tr, Go.Returns sio')
    /\ Line.lastKnownNumSliders sio' = 5
    /\ forall c ev,
         In (c, ev) (Line.sends tr) ->
         0 <= Line.SliderMoveEvent.SliderID ev < 5
         /\ (0 <= Line.SliderMoveEvent.PercentValue ev <= 1)%Q.
Proof.
  apply (slider_line_is_reported_within_unit_range (fun _ => 25 # 1000)%Q false freshLine
           [0; 240; 1023; 0; 58]).
  - left. reflexivity.
  - reflexivity.
  - repeat constructor; lia.
Defined.

(** ** What the combo firmware prints *)

Lemma matching_line_starts_with_digit (line : list ascii) :
  Regexp.MatchString Line.expectedLinePattern line = true ->
  exists c rest, line = c :: rest /\ Regexp.isDigit c = true.
Proof.
  intros H. apply line_pattern_language in H. destruct H as (fields & Hne & Hall & ->).
  destruct fields as [| f fs]; [contradiction |].
  apply Forall_cons_iff in Hall. destruct Hall as [[Hlen Hd] _].
  destruct f as [| c f]; [simpl in Hlen; lia |].
  apply Forall_cons_iff in Hd. destruct Hd as [Hc _].
  rewrite Join_cons. exists c. eexists. split; [reflexivity | exact Hc].
Qed.

(** X24.  The combo firmware's [loop] has [sendValues] commented out and
    calls [printValues] instead.  Whatever the values and mutes, the line
    [printValues] writes is not one the host accepts: [handleLine] discards
    it, sends no event and leaves the tracker as it was. *)
Theorem printValues_line_is_discarded (U : util) (sio : Line.SerialIO)
    (values : list ComboFirmware.VolData) :
  Regexp.MatchString Line.expectedLinePattern (ComboFirmware.printValues values) = false
  /\ Line.handleLine U sio (ComboFirmware.printValues values) = ([], Go.Returns sio).
Proof.
  assert (Hm : Regexp.MatchString Line.expectedLinePattern (ComboFirmware.printValues values)
               = false).
  { destruct (Regexp.MatchString _ _) eqn:E; [| reflexivity].
    apply matching_line_starts_with_digit in E. destruct E as (c & rest & Hl & Hc).
    unfold ComboFirmware.printValues in Hl.
    destruct (take _ values) as [| v vs]; [discriminate Hl |].
    cbn [ComboFirmware.printFrom] in Hl.
    destruct (ComboFirmware.mute v); cbn in Hl; injection Hl as <- _; discriminate Hc. }
  split; [exact Hm |]. apply handleLine_discards. exact Hm.
Qed.
